(** * Evaluation harness of clarity-3.1: dataset builder and the two runners

    A shallow embedding of

      - scripts/evaluation/generate-dataset.py            (module [GenerateDataset])
      - _cleanup/scripts/evaluation/compare-strategies.py (module [CompareStrategies])
      - _cleanup/scripts/evaluation/run-ragas.py          (module [RunRagas])

    The scripts read and write JSON files, post to an HTTP service and print
    progress.  These effects are modelled by explicit state passing over a
    [world] (file system, log of requests attempted, lines printed) in a small
    state-and-exception monad [M]; a Python exception is the [Raise] result.
    No script contains a [try]: an exception raised anywhere ends [main]. *)

From stdpp Require Import base option list strings gmap pretty.

Local Open Scope string_scope.
Local Open Scope Z_scope.
Local Open Scope list_scope.
Set Warnings "-register-all".

(** ** Python values

    The fragment of JSON the scripts handle: [None], integers, strings and
    lists.  Objects are [dict]s; insertion order is kept because [json.dump]
    writes keys in that order. *)

Inductive value : Type :=
  | VNone
  | VInt (n : Z)
  | VStr (s : string)
  | VList (l : list value).

Definition dict : Type := list (string * value).

(** [d.get(k)] before the default is applied: the first binding of [k]. *)
Fixpoint dict_lookup (k : string) (d : dict) : option value :=
  match d with
  | [] => None
  | (k', v) :: d' => if String.eqb k k' then Some v else dict_lookup k d'
  end.

(** [d.get(k)]: [None] for a missing key. *)
Definition dict_get (k : string) (d : dict) : value :=
  default VNone (dict_lookup k d).

(** [v in names] for a list of strings [names]: Python's [==] between a
    string and a value of another type is [False]. *)
Definition value_in (v : value) (names : list string) : bool :=
  match v with
  | VStr s => existsb (String.eqb s) names
  | _ => false
  end.

(** [l[:n]] with Python's slice semantics: a negative stop counts from the
    end, and a stop beyond either end is clamped. *)
Definition py_slice_to {A} (n : Z) (l : list A) : list A :=
  if 0 <=? n then take (Z.to_nat n) l
  else take (length l - Z.to_nat (- n))%nat l.

(** ** Paths and files *)

Definition path : Type := list string.

(** [p.parent]; the parent of the root is the root. *)
Definition parent (p : path) : path := take (length p - 1)%nat p.

(** [p / name] *)
Definition path_join (p : path) (name : string) : path := p ++ [name].

(** [str(p)] for an absolute POSIX path. *)
Definition path_str (p : path) : string :=
  match p with
  | [] => "/"
  | _ => String.concat "" (map (fun c => "/" +:+ c) p)
  end.

(** [p.parents] from the outermost strict ancestor to [p.parent], the root
    excluded. *)
Definition strict_ancestors (p : path) : list path :=
  map (fun n => take n p) (seq 1 (length p - 1)).

(** What a file holds.  The dataset artifact is one JSON array of objects;
    a results file is a sequence of lines, one JSON object each. *)
Inductive file : Type :=
  | JsonArray (items : list dict)
  | JsonLines (records : list dict).

Inductive node : Type :=
  | Dir
  | File (c : file).

(** ** The world *)

Record request : Type := Request { url : string; payload : dict }.

(** A line printed on standard output, kept as the call's interpolated
    arguments. *)
Inductive line : Type :=
  | Wrote (n : nat) (p : path)
  | Progress (id : value) (strat : string) (status : value)
  | Evaluated (id : value) (question : value) (upto : Z)
  | SavedComparison (p : path)
  | Saved (p : path).

Record world : Type := World {
  fs : gmap path node;
  sent : list request;
  stdout : list line
}.

Inductive exn : Type :=
  | FileNotFoundError (msg : string)
  | NotADirectoryError
  | FileExistsError
  | IsADirectoryError
  | JSONDecodeError
  | KeyError (k : string)
  | TypeError
  | ClientError (msg : string).

Inductive result (A : Type) : Type :=
  | Ok (a : A)
  | Raise (e : exn).
Arguments Ok {A} a.
Arguments Raise {A} e.

Definition M (A : Type) : Type := world -> result A * world.

#[global] Instance M_ret : MRet M := fun A a w => (Ok a, w).
#[global] Instance M_bind : MBind M := fun A B f m w =>
  match m w with
  | (Ok a, w') => f a w'
  | (Raise e, w') => (Raise e, w')
  end.

Definition raise {A} (e : exn) : M A := fun w => (Raise e, w).

(** [for x in l: body(x)] *)
Fixpoint for_ {A} (l : list A) (body : A -> M unit) : M unit :=
  match l with
  | [] => mret tt
  | x :: l' => body x ;; for_ l' body
  end.

(** [d[k]] *)
Definition getitem (d : dict) (k : string) : M value :=
  match dict_lookup k d with
  | Some v => mret v
  | None => raise (KeyError k)
  end.

(** [v[:n]] on a value: strings and lists can be sliced, [None] and
    integers raise [TypeError].  A Python string is sliced by code point,
    which a string of bytes does not expose, so the slice itself is not
    computed: a printed line keeps the operand and the bound. *)
Definition check_sliceable (v : value) : M unit :=
  match v with
  | VStr _ | VList _ => mret tt
  | _ => raise TypeError
  end.

Definition print (l : line) : M unit := fun w =>
  (Ok tt, World (fs w) (sent w) (stdout w ++ [l])).

(** *** File system operations *)

Definition is_file (m : gmap path node) (p : path) : bool :=
  match m !! p with Some (File _) => true | _ => false end.

(** The root is a directory. *)
Definition is_dir (m : gmap path node) (p : path) : bool :=
  bool_decide (p = []) || match m !! p with Some Dir => true | _ => false end.

(** [p.exists()] *)
Definition path_exists (p : path) : M bool := fun w =>
  (Ok (bool_decide (p = []) || bool_decide (is_Some (fs w !! p))), w).

(** The directories [p.mkdir(parents=True, exist_ok=True)] leaves behind. *)
Definition mkdirs (p : path) (m : gmap path node) : gmap path node :=
  foldr (fun q m => <[q := Dir]> m) m (strict_ancestors p ++ [p]).

(** [p.mkdir(parents=True, exist_ok=True)]: fails when a component of [p] is
    a regular file, otherwise every missing component becomes a directory. *)
Definition mkdir_parents (p : path) : M unit := fun w =>
  if existsb (is_file (fs w)) (strict_ancestors p) then (Raise NotADirectoryError, w)
  else if is_file (fs w) p then (Raise FileExistsError, w)
  else (Ok tt, World (mkdirs p (fs w)) (sent w) (stdout w)).

(** [p.open("w")]: creates or truncates [p]; [empty] is the empty file of
    the format about to be written. *)
Definition open_w (p : path) (empty : file) : M unit := fun w =>
  if is_dir (fs w) p then (Raise IsADirectoryError, w)
  else if existsb (is_file (fs w)) (strict_ancestors p) then (Raise NotADirectoryError, w)
  else if negb (is_dir (fs w) (parent p)) then (Raise (FileNotFoundError (path_str p)), w)
  else (Ok tt, World (<[p := File empty]> (fs w)) (sent w) (stdout w)).

(** [json.load] of [p.open("r")]: the dataset is a JSON array of objects.
    A lines file is not one JSON array and is rejected. *)
Definition json_load (p : path) : M (list dict) := fun w =>
  match fs w !! p with
  | Some (File (JsonArray items)) => (Ok items, w)
  | Some (File (JsonLines _)) => (Raise JSONDecodeError, w)
  | Some Dir => (Raise IsADirectoryError, w)
  | None => (Raise (FileNotFoundError (path_str p)), w)
  end.

(** [json.dump(data, f, indent=2)] on the file opened at [p]. *)
Definition json_dump (data : list dict) (p : path) : M unit := fun w =>
  (Ok tt, World (<[p := File (JsonArray data)]> (fs w)) (sent w) (stdout w)).

(** [outf.write(json.dumps(record) + "\n")] on the file opened at [p]. *)
Definition write_line (p : path) (record : dict) : M unit := fun w =>
  (Ok tt,
   World (match fs w !! p with
          | Some (File (JsonLines rs)) => <[p := File (JsonLines (rs ++ [record]))]> (fs w)
          | _ => fs w
          end)
         (sent w) (stdout w)).

(** The records a results file holds; [None] when [p] is not such a file. *)
Definition records_at (p : path) (w : world) : option (list dict) :=
  match fs w !! p with
  | Some (File (JsonLines rs)) => Some rs
  | _ => None
  end.

(** The dataset an artifact holds. *)
Definition dataset_at (p : path) (w : world) : option (list dict) :=
  match fs w !! p with
  | Some (File (JsonArray items)) => Some items
  | _ => None
  end.

(** ** One turn of a runner's loop, as a function of the requests sent so far

    A turn of either runner's loop sends at most one request, writes at most
    one record, and ends by printing a line or by raising.  [effect] records
    that; the lemmas [CompareStrategies_body_step] and [RunRagas_body_step]
    below show that the loop bodies of the two [main]s do what their [step]
    says, and [for_effects] lifts this to the whole loop. *)

Record effect : Type := Effect {
  e_sent : option request;
  e_written : option dict;
  e_end : line + exn
}.

Definition e_ok (eff : effect) : bool :=
  match e_end eff with inl _ => true | inr _ => false end.

Definition apply_effect (out : path) (eff : effect) : M unit := fun w =>
  (match e_end eff with inl _ => Ok tt | inr e => Raise e end,
   World (match e_written eff, fs w !! out with
          | Some record, Some (File (JsonLines rs)) =>
              <[out := File (JsonLines (rs ++ [record]))]> (fs w)
          | _, _ => fs w
          end)
         (sent w ++ option_list (e_sent eff))
         (stdout w ++ match e_end eff with inl l => [l] | inr _ => [] end)).

(** The turns a loop over [xs] makes when [n] requests were sent before
    it: it stops after the first turn that raises. *)
Fixpoint run_effects {A} (step : nat -> A -> effect) (n : nat) (xs : list A) : list effect :=
  match xs with
  | [] => []
  | x :: xs' =>
      let eff := step n x in
      eff :: (if e_ok eff
              then run_effects step (n + length (option_list (e_sent eff))) xs'
              else [])
  end.

(** The exception a sequence of turns ends with, if any. *)
Definition effects_result (effs : list effect) : result unit :=
  match last effs with
  | Some eff => match e_end eff with inl _ => Ok tt | inr e => Raise e end
  | None => Ok tt
  end.

Definition written (effs : list effect) : list dict := omap e_written effs.
Definition requested (effs : list effect) : list request := omap e_sent effs.
Definition printed (effs : list effect) : list line :=
  omap (fun eff => match e_end eff with inl l => Some l | inr _ => None end) effs.

(** ** scripts/evaluation/generate-dataset.py *)

Module GenerateDataset.

(** [Path(__file__).resolve().parent.parent.parent / "data" / "evaluation" / "golden-qa.json"];
    [file__] is the resolved path of the script. *)
Definition OUTPUT (file__ : path) : path :=
  path_join (path_join (path_join (parent (parent (parent file__))) "data") "evaluation")
            "golden-qa.json".

(** The categories the module's docstring lists. *)
Definition CATEGORIES : list string :=
  ["single_metric"; "growth_rate"; "trend"; "comparison"; "qualitative"; "hybrid";
   "edge_cases"].

Definition TICKERS : list string :=
  ["AAPL"; "AMD"; "AMZN"; "AVGO"; "CRM"; "GOOGL"; "META"; "MSFT"; "NVDA"; "ORCL"].

(** The keyword parameters are [option]s: [None] is the argument left out
    (or, for [ticker] and [expected_tool], passed as [None]). *)
Definition build_entry (id_ question category : string)
    (ticker : option string) (expected_tool : option (list string))
    (difficulty : option string) (ground_truth : option string) : dict :=
  [ ("id", VStr id_);
    ("question", VStr question);
    ("ground_truth", VStr (default "" ground_truth));
    ("expected_tool",
      VList (map VStr (match expected_tool with
                       | Some (t :: ts) => t :: ts
                       | _ => []
                       end)));
    ("category", VStr category);
    ("ticker", from_option VStr VNone ticker);
    ("difficulty", VStr (default "medium" difficulty)) ].

(** The list [data] after the eleven [data.append] calls of [main]. *)
Definition data : list dict :=
  let data := [] in
  (* Single metric *)
  let data := data ++ [build_entry "single_metric_1" "What was NVDA's revenue in Q3 FY2024?" "single_metric" (Some "NVDA") (Some ["get_financial_metrics"]) None None] in
  let data := data ++ [build_entry "single_metric_2" "What was Apple's EPS in Q1 FY2024?" "single_metric" (Some "AAPL") (Some ["get_financial_metrics"]) None None] in
  (* Growth *)
  let data := data ++ [build_entry "growth_1" "What was AMD's YoY revenue growth in Q2 FY2024?" "growth_rate" (Some "AMD") (Some ["compute_growth_rate"]) None None] in
  let data := data ++ [build_entry "growth_2" "What was Microsoft’s QoQ net income change from Q3 to Q4 FY2024?" "growth_rate" (Some "MSFT") (Some ["compute_growth_rate"]) None None] in
  (* Trend *)
  let data := data ++ [build_entry "trend_1" "Show Apple’s operating margin trend over the last 4 quarters." "trend" (Some "AAPL") (Some ["get_multi_quarter_metrics"]) None None] in
  let data := data ++ [build_entry "trend_2" "Plot Meta's free cash flow over the last 3 quarters." "trend" (Some "META") (Some ["get_multi_quarter_metrics"]) None None] in
  (* Comparison *)
  let data := data ++ [build_entry "comparison_1" "Compare AWS and Azure revenue growth over the last two quarters." "comparison" None (Some ["get_multi_quarter_metrics"; "compute_growth_rate"]) (Some "hard") None] in
  (* Qualitative *)
  let data := data ++ [build_entry "qual_1" "What did Jensen Huang say about AI demand?" "qualitative" (Some "NVDA") (Some ["search_earnings_transcript"]) None None] in
  let data := data ++ [build_entry "qual_2" "What did Tim Cook say about services growth?" "qualitative" (Some "AAPL") (Some ["search_earnings_transcript"]) None None] in
  (* Hybrid *)
  let data := data ++ [build_entry "hybrid_1" "What was NVDA's data center revenue and what drove the growth?" "hybrid" (Some "NVDA") (Some ["get_financial_metrics"; "search_earnings_transcript"]) (Some "hard") None] in
  (* Edge *)
  let data := data ++ [build_entry "edge_1" "What was Tesla's revenue in Q1 2024?" "edge_cases" (Some "TSLA") (Some ["list_available_data"]) None None] in
  data.

Definition main (file__ : path) : M unit :=
  let data := data in
  mkdir_parents (parent (OUTPUT file__)) ;;
  open_w (OUTPUT file__) (JsonArray []) ;;
  json_dump data (OUTPUT file__) ;;
  print (Wrote (length data) (OUTPUT file__)).

End GenerateDataset.

(** ** The service under test, as the two runners see it *)

(** What one [session.post] and the reading of its body come to: a response
    with a status and a body, or an exception of the HTTP client (connection
    refused, timeout, DNS failure, connection lost while reading). *)
Inductive outcome : Type :=
  | Response (status : Z) (text : string)
  | TransportError (msg : string).

(** What a run depends on besides the file system: the resolved path of the
    script, the environment variables and the service, which answers the
    [n]-th request of the run. *)
Record config : Type := Config {
  file__ : path;
  environ : gmap string string;
  service : nat -> request -> outcome
}.

(** [async with session.post(url, json=payload) as resp] together with
    [await resp.text()]: one request is sent, once. *)
Definition session_post (cfg : config) (url : string) (json : dict) : M (Z * string) :=
  fun w =>
    let req := Request url json in
    let w' := World (fs w) (sent w ++ [req]) (stdout w) in
    match service cfg (length (sent w)) req with
    | Response status text => (Ok (status, text), w')
    | TransportError msg => (Raise (ClientError msg), w')
    end.

(** ** _cleanup/scripts/evaluation/compare-strategies.py *)

Module CompareStrategies.

Definition DATASET_PATH (cfg : config) : path :=
  path_join (path_join (path_join (parent (parent (parent (file__ cfg)))) "data") "evaluation")
            "golden-qa.json".

Definition RESULTS_DIR (cfg : config) : path :=
  path_join (path_join (path_join (parent (parent (parent (file__ cfg)))) "data") "evaluation")
            "results".

Definition API_BASE (cfg : config) : string :=
  default "http://localhost:3000" (environ cfg !! "API_BASE").

Record args : Type := Args {
  smoke : bool;
  limit : option Z;
  strategies : option (list string)
}.

Definition run_case (cfg : config) (item : dict) (strategy : string) : M dict :=
  let url := API_BASE cfg +:+ "/api/chat/stream" in
  question ← getitem item "question";
  let payload :=
    [("message", question); ("chatHistory", VList []); ("strategy", VStr strategy)] in
  resp ← session_post cfg url payload;
  let text := resp.2 in
  id ← getitem item "id";
  question ← getitem item "question";
  mret [ ("id", id);
         ("question", question);
         ("strategy", VStr strategy);
         ("status", VInt resp.1);
         ("raw_response", VStr text) ].

(** Lines 39-42 of [main]: [if args.smoke: ... elif args.limit: ...].
    A limit of [0] is falsy. *)
Definition select (a : args) (dataset : list dict) : list dict :=
  if smoke a then py_slice_to 5 dataset
  else match limit a with
       | Some n => if n =? 0 then dataset else py_slice_to n dataset
       | None => dataset
       end.

(** [args.strategies or ["baseline", "dense-only", "hybrid-0.6"]] *)
Definition strategies_or_default (a : args) : list string :=
  match strategies a with
  | Some (s :: ss) => s :: ss
  | _ => ["baseline"; "dense-only"; "hybrid-0.6"]
  end.

Definition out_file (cfg : config) : path :=
  path_join (RESULTS_DIR cfg) "strategy-compare.jsonl".

Definition main (cfg : config) (a : args) : M unit :=
  ex ← path_exists (DATASET_PATH cfg);
  (if negb ex
   then raise (FileNotFoundError ("Dataset not found: " +:+ path_str (DATASET_PATH cfg)))
   else mret tt) ;;
  dataset ← json_load (DATASET_PATH cfg);
  let dataset := select a dataset in
  let strategies := strategies_or_default a in
  mkdir_parents (RESULTS_DIR cfg) ;;
  let out_file := out_file cfg in
  open_w out_file (JsonLines []) ;;
  for_ dataset (fun item =>
    for_ strategies (fun strat =>
      result ← run_case cfg item strat;
      write_line out_file result ;;
      id ← getitem item "id";
      status ← getitem result "status";
      print (Progress id strat status))) ;;
  print (SavedComparison out_file).

(** One turn of the inner loop of [main] for the pair [(item, strat)],
    when [n] requests were sent before it. *)
Definition step (cfg : config) (n : nat) (p : dict * string) : effect :=
  let '(item, strat) := p in
  match dict_lookup "question" item with
  | None => Effect None None (inr (KeyError "question"))
  | Some question =>
      let req := Request (API_BASE cfg +:+ "/api/chat/stream")
                   [("message", question); ("chatHistory", VList []);
                    ("strategy", VStr strat)] in
      match service cfg n req with
      | TransportError msg => Effect (Some req) None (inr (ClientError msg))
      | Response status text =>
          match dict_lookup "id" item with
          | None => Effect (Some req) None (inr (KeyError "id"))
          | Some id =>
              Effect (Some req)
                (Some [ ("id", id);
                        ("question", question);
                        ("strategy", VStr strat);
                        ("status", VInt status);
                        ("raw_response", VStr text) ])
                (inl (Progress id strat (VInt status)))
          end
      end
  end.

End CompareStrategies.

(** ** _cleanup/scripts/evaluation/run-ragas.py *)

Module RunRagas.

Definition DATASET_PATH (cfg : config) : path :=
  path_join (path_join (path_join (parent (parent (parent (file__ cfg)))) "data") "evaluation")
            "golden-qa.json".

Definition RESULTS_DIR (cfg : config) : path :=
  path_join (path_join (path_join (parent (parent (parent (file__ cfg)))) "data") "evaluation")
            "results".

Definition API_BASE (cfg : config) : string :=
  default "http://localhost:3000" (environ cfg !! "API_BASE").

Record args : Type := Args {
  smoke : bool;
  limit : option Z;
  categories : option (list string)
}.

Definition fetch_answer (cfg : config) (question : value) : M dict :=
  let url := API_BASE cfg +:+ "/api/chat/stream" in
  let payload := [("message", question); ("chatHistory", VList [])] in
  resp ← session_post cfg url payload;
  if negb (resp.1 =? 200) then
    let text := resp.2 in
    mret [("error", VStr ("HTTP " +:+ pretty resp.1 +:+ ": " +:+ text))]
  else
    (* Simplified: consume entire SSE as text *)
    let content := resp.2 in
    mret [("raw", VStr content)].

(** Lines 38-39 of [main]: the filter runs when [args.categories] is a
    non-empty list. *)
Definition filter_categories (a : args) (dataset : list dict) : list dict :=
  match categories a with
  | Some (c :: cs) =>
      List.filter (fun d => value_in (dict_get "category" d) (c :: cs)) dataset
  | _ => dataset
  end.

(** Lines 41-44 of [main]. *)
Definition slice (a : args) (dataset : list dict) : list dict :=
  if smoke a then py_slice_to 5 dataset
  else match limit a with
       | Some n => if n =? 0 then dataset else py_slice_to n dataset
       | None => dataset
       end.

(** Lines 38-44 of [main]: the dataset the loop runs over. *)
Definition select (a : args) (dataset : list dict) : list dict :=
  let dataset := filter_categories a dataset in
  let dataset := slice a dataset in
  dataset.

Definition out_file (cfg : config) : path :=
  path_join (RESULTS_DIR cfg) "ragas-run.jsonl".

Definition main (cfg : config) (a : args) : M unit :=
  ex ← path_exists (DATASET_PATH cfg);
  (if negb ex
   then raise (FileNotFoundError ("Dataset not found: " +:+ path_str (DATASET_PATH cfg)))
   else mret tt) ;;
  dataset ← json_load (DATASET_PATH cfg);
  let dataset := select a dataset in
  mkdir_parents (RESULTS_DIR cfg) ;;
  let out_file := out_file cfg in
  open_w out_file (JsonLines []) ;;
  for_ dataset (fun item =>
    question ← getitem item "question";
    result ← fetch_answer cfg question;
    id ← getitem item "id";
    question ← getitem item "question";
    let record :=
      [ ("id", id);
        ("question", question);
        ("category", dict_get "category" item);
        ("expected_tool", dict_get "expected_tool" item);
        ("raw_response", dict_get "raw" result);
        ("error", dict_get "error" result) ] in
    write_line out_file record ;;
    id ← getitem item "id";
    question ← getitem item "question";
    check_sliceable question ;;
    print (Evaluated id question 40)) ;;
  print (Saved out_file).

(** One turn of the loop of [main] for [item], when [n] requests were
    sent before it. *)
Definition step (cfg : config) (n : nat) (item : dict) : effect :=
  match dict_lookup "question" item with
  | None => Effect None None (inr (KeyError "question"))
  | Some question =>
      let req := Request (API_BASE cfg +:+ "/api/chat/stream")
                   [("message", question); ("chatHistory", VList [])] in
      match service cfg n req with
      | TransportError msg => Effect (Some req) None (inr (ClientError msg))
      | Response status text =>
          match dict_lookup "id" item with
          | None => Effect (Some req) None (inr (KeyError "id"))
          | Some id =>
              Effect (Some req)
                (Some [ ("id", id);
                        ("question", question);
                        ("category", dict_get "category" item);
                        ("expected_tool", dict_get "expected_tool" item);
                        ("raw_response",
                          if status =? 200 then VStr text else VNone);
                        ("error",
                          if status =? 200 then VNone
                          else VStr ("HTTP " +:+ pretty status +:+ ": " +:+ text)) ])
                (match question with
                 | VStr _ | VList _ => inl (Evaluated id question 40)
                 | _ => inr TypeError
                 end)
          end
      end
  end.

End RunRagas.

(** ** Notions used in the statements *)

(** What the strategy-comparison runner reads of an item with [item[...]]:
    the keys [id] and [question]. *)
Definition has_id_and_question (d : dict) : bool :=
  match dict_lookup "id" d, dict_lookup "question" d with
  | Some _, Some _ => true
  | _, _ => false
  end.

(** A well-formed QA Item as far as the RAGAS runner reads it: it has an
    [id] and its [question] is text. *)
Definition qa_item (d : dict) : bool :=
  match dict_lookup "id" d, dict_lookup "question" d with
  | Some _, Some (VStr _) => true
  | _, _ => false
  end.

(** [d["category"] == c] *)
Definition is_category (c : string) (d : dict) : bool :=
  match dict_get "category" d with
  | VStr s => String.eqb s c
  | _ => false
  end.

(** The service answers every request with some response, of whatever
    status: no request meets a transport-level failure. *)
Definition responsive (cfg : config) : Prop :=
  forall n req, exists status text, service cfg n req = Response status text.

(** What identifies a record of the strategy-comparison runner, and the
    (item, strategy) pair it is for. *)
Definition record_key (r : dict) : option value * option value :=
  (dict_lookup "id" r, dict_lookup "strategy" r).

Definition pair_key (p : dict * string) : option value * option value :=
  (dict_lookup "id" p.1, Some (VStr p.2)).

(** The directory [dir] can be created and the file [name] opened in it for
    writing: no component of [dir] is a regular file and [dir / name] is not
    a directory. *)
Definition results_writable (dir : path) (name : string) (m : gmap path node) : bool :=
  negb (existsb (is_file m) (strict_ancestors dir))
  && negb (is_file m dir)
  && negb (is_dir m (path_join dir name)).

(** ** Concrete scenarios *)

Module Scenario.

Definition builder_script : path :=
  ["repo"; "scripts"; "evaluation"; "generate-dataset.py"].
Definition compare_script : path :=
  ["repo"; "_cleanup"; "scripts"; "evaluation"; "compare-strategies.py"].
Definition ragas_script : path :=
  ["repo"; "_cleanup"; "scripts"; "evaluation"; "run-ragas.py"].

(** A service that answers every request with the same status and body. *)
Definition answers (status : Z) (body : string) : nat -> request -> outcome :=
  fun _ _ => Response status body.

(** A service that cannot be reached. *)
Definition refuses : nat -> request -> outcome :=
  fun _ _ => TransportError "Connection refused".

(** A service whose [k]-th request times out and that answers the others. *)
Definition times_out_at (k : nat) : nat -> request -> outcome :=
  fun n _ => if (n =? k)%nat then TransportError "Timeout" else Response 200 "ok".

Definition compare_cfg (srv : nat -> request -> outcome) : config :=
  Config compare_script ∅ srv.
Definition ragas_cfg (srv : nat -> request -> outcome) : config :=
  Config ragas_script ∅ srv.

(** A world whose only file is the dataset artifact the runners read,
    holding [ds]. *)
Definition with_dataset (ds : list dict) : world :=
  World {[ ["repo"; "_cleanup"; "data"; "evaluation"; "golden-qa.json"]
           := File (JsonArray ds) ]} [] [].

(** A world with no file at all. *)
Definition empty_world : world := World ∅ [] [].

(** The two items [single_metric_1] and [growth_1] of the builder's
    dataset. *)
Definition two_items : list dict :=
  List.filter (fun d => value_in (dict_get "id" d) ["single_metric_1"; "growth_1"])
              GenerateDataset.data.

(** Command lines of the strategy-comparison runner. *)
Definition limit_2_baseline : CompareStrategies.args :=
  CompareStrategies.Args false (Some 2) (Some ["baseline"]).
Definition two_strategies : CompareStrategies.args :=
  CompareStrategies.Args false None (Some ["baseline"; "hybrid-0.6"]).
Definition limit_1_two_strategies : CompareStrategies.args :=
  CompareStrategies.Args false (Some 1) (Some ["baseline"; "hybrid-0.6"]).
Definition smoke_and_limit_2 : CompareStrategies.args :=
  CompareStrategies.Args true (Some 2) None.

(** Command lines of the RAGAS runner. *)
Definition qualitative_only : RunRagas.args :=
  RunRagas.Args false None (Some ["qualitative"]).
Definition qualitative_limit (n : Z) : RunRagas.args :=
  RunRagas.Args false (Some n) (Some ["qualitative"]).
Definition ragas_smoke_and_limit_2 : RunRagas.args :=
  RunRagas.Args true (Some 2) None.

End Scenario.

(** ** Further concrete scenarios *)

Module Cases.

(** Items a dataset file can hold besides well-formed ones. *)
Definition no_question : dict :=
  [("id", VStr "broken_1"); ("category", VStr "trend")].
Definition no_id : dict :=
  [("question", VStr "What was AMD's revenue in Q2 FY2024?")].
Definition numeric_question : dict :=
  [("id", VStr "broken_2"); ("question", VInt 42)].
Definition no_category : dict :=
  [("id", VStr "plain_1"); ("question", VStr "What was Oracle's cloud revenue?")].

(** The builder's dataset with [bad] put after its first two items. *)
Definition dataset_with (bad : dict) : list dict :=
  take 2 GenerateDataset.data ++ bad :: drop 2 GenerateDataset.data.

(** The results directory and the two results files of the runners under
    [repo/_cleanup]. *)
Definition results_dir : path := ["repo"; "_cleanup"; "data"; "evaluation"; "results"].
Definition dataset_path : path :=
  ["repo"; "_cleanup"; "data"; "evaluation"; "golden-qa.json"].

(** A world with the dataset [ds] and results files left by an earlier run,
    one stale record each. *)
Definition with_stale_results (ds : list dict) : world :=
  World (<[path_join results_dir "strategy-compare.jsonl"
             := File (JsonLines [[("id", VStr "stale")]])]>
           (<[path_join results_dir "ragas-run.jsonl"
                := File (JsonLines [[("id", VStr "stale")]])]>
              (<[results_dir := Dir]> (fs (Scenario.with_dataset ds)))))
        [] [].

(** A world with the dataset [ds] where the path of the results directory
    is taken by a regular file. *)
Definition results_dir_is_a_file (ds : list dict) : world :=
  World (<[results_dir := File (JsonLines [])]> (fs (Scenario.with_dataset ds))) [] [].

(** A world where the path of the dataset artifact is a directory. *)
Definition dataset_is_a_directory : world :=
  World {[ dataset_path := Dir ]} [] [].

(** The builder placed next to the runners, and a configuration with the
    environment variable [API_BASE] set. *)
Definition builder_beside_runners : path :=
  ["repo"; "_cleanup"; "scripts"; "evaluation"; "generate-dataset.py"].
Definition staging_cfg (srv : nat -> request -> outcome) : config :=
  Config Scenario.compare_script {[ "API_BASE" := "https://staging.example" ]} srv.

(** Command lines. *)
Definition no_flags : CompareStrategies.args := CompareStrategies.Args false None None.
Definition ragas_no_flags : RunRagas.args := RunRagas.Args false None None.
Definition ragas_limit (n : Z) : RunRagas.args := RunRagas.Args false (Some n) None.
Definition compare_limit (n : Z) : CompareStrategies.args :=
  CompareStrategies.Args false (Some n) None.
Definition trend_or_hybrid : RunRagas.args :=
  RunRagas.Args false None (Some ["trend"; "hybrid"]).

End Cases.

(** ** Tactics *)

(** Both sides are the same world once the projections are computed. *)
Ltac same_world w :=
  destruct w;
  cbn [fs sent stdout e_end e_written e_sent option_list dict_lookup
       String.eqb Ascii.eqb Bool.eqb];
  rewrite ?app_nil_r; reflexivity.

(** * Properties *)

(** ** The monad and the loops *)

Lemma bind_run {A B} (m : M A) (f : A -> M B) (w : world) :
  (m ≫= f) w = match m w with
               | (Ok a, w') => f a w'
               | (Raise e, w') => (Raise e, w')
               end.
Proof. reflexivity. Qed.

Lemma for_app {A} (l1 l2 : list A) (body : A -> M unit) (w : world) :
  for_ (l1 ++ l2) body w = (for_ l1 body ;; for_ l2 body) w.
Proof.
  revert w. induction l1 as [|x l1 IH]; intros w; [reflexivity|].
  simpl. rewrite !bind_run. destruct (body x w) as [[[]|e] w1]; [|reflexivity].
  rewrite IH. reflexivity.
Qed.

Lemma for_map {A B} (g : A -> B) (l : list A) (body : B -> M unit) (w : world) :
  for_ (map g l) body w = for_ l (fun x => body (g x)) w.
Proof.
  revert w. induction l as [|x l IH]; intros w; [reflexivity|].
  simpl. rewrite !bind_run. destruct (body (g x) w) as [[[]|e] w1]; [apply IH|reflexivity].
Qed.

(** Two nested [for] loops run their body over the product of the two
    lists, outer list first. *)
Lemma for_nested {A B} (xs : list A) (ys : list B) (body : A -> B -> M unit) (w : world) :
  for_ xs (fun x => for_ ys (fun y => body x y)) w
  = for_ (list_prod xs ys) (fun p => body p.1 p.2) w.
Proof.
  revert w. induction xs as [|x xs IH]; intros w; [reflexivity|].
  simpl. rewrite for_app, !bind_run, for_map. simpl.
  destruct (for_ ys _ w) as [[[]|e] w1]; [apply IH|reflexivity].
Qed.

(** ** Paths and directories *)

Lemma path_join_nonempty (p : path) (name : string) : path_join p name <> [].
Proof. unfold path_join. by destruct p. Qed.

Lemma strict_ancestors_join (p : path) (name : string) :
  p <> [] -> strict_ancestors (path_join p name) = strict_ancestors p ++ [p].
Proof.
  intros Hp. unfold strict_ancestors, path_join. rewrite length_app. simpl.
  replace (length p + 1 - 1)%nat with (S (length p - 1)) by (destruct p; [done|simpl; lia]).
  rewrite seq_S, map_app. simpl.
  replace (S (length p - 1))%nat with (length p) by (destruct p; [done|simpl; lia]).
  rewrite take_app_length. f_equal.
  apply map_ext_in. intros n [_ Hn]%in_seq. apply take_app_le. lia.
Qed.

Lemma strict_ancestors_length (p q : path) :
  q ∈ strict_ancestors p -> (length q < length p)%nat.
Proof.
  unfold strict_ancestors. intros (n & -> & Hn)%list_elem_of_fmap.
  apply list_elem_of_In, in_seq in Hn. rewrite length_take. lia.
Qed.

Lemma lookup_mkdirs (m : gmap path node) (qs : list path) (p : path) :
  foldr (fun q m => <[q := Dir]> m) m qs !! p
  = if decide (p ∈ qs) then Some Dir else m !! p.
Proof.
  induction qs as [|q qs IH]; cbn [foldr].
  - destruct (decide (p ∈ [])) as [H|H]; [inversion H|done].
  - destruct (decide (q = p)) as [->|Hne].
    + rewrite lookup_insert_eq.
      destruct (decide (p ∈ p :: qs)) as [H|H]; [done|]. destruct H. left.
    + rewrite lookup_insert_ne by done. rewrite IH.
      destruct (decide (p ∈ qs)) as [Hin|Hin];
        destruct (decide (p ∈ q :: qs)) as [H|H]; try done.
      * destruct H. by right.
      * apply elem_of_cons in H as [?|?]; congruence.
Qed.

(** ** A loop as the sequence of its turns *)

Section Loop.
Context {A : Type} (out : path) (body : A -> M unit) (step : nat -> A -> effect).
Hypothesis body_step :
  forall x w, body x w = apply_effect out (step (length (sent w)) x) w.

Lemma for_effects (xs : list A) (w : world) (rs0 : list dict) :
  records_at out w = Some rs0 ->
  let effs := run_effects step (length (sent w)) xs in
  for_ xs body w
  = (effects_result effs,
     World (<[out := File (JsonLines (rs0 ++ written effs))]> (fs w))
           (sent w ++ requested effs)
           (stdout w ++ printed effs)).
Proof.
  revert w rs0. induction xs as [|x xs IH]; intros w rs0 Hout; simpl.
  - unfold records_at in Hout. destruct (fs w !! out) as [[|[|rs]]|] eqn:E; try done.
    injection Hout as <-. unfold mret, M_ret, effects_result; simpl.
    rewrite !app_nil_r, insert_id by done. by destruct w.
  - rewrite bind_run, body_step. unfold apply_effect at 1.
    set (eff := step (length (sent w)) x).
    unfold records_at in Hout. destruct (fs w !! out) as [[|[|rs]]|] eqn:E; try done.
    injection Hout as <-.
    destruct (e_end eff) as [l|e] eqn:Eend.
    + unfold e_ok. rewrite Eend.
      set (w1 := World _ _ _).
      assert (Hlen : length (sent w1) = (length (sent w) + length (option_list (e_sent eff)))%nat)
        by (subst w1; simpl; by rewrite length_app).
      assert (Hout1 : records_at out w1 = Some (rs ++ option_list (e_written eff))).
      { subst w1. unfold records_at. simpl. destruct (e_written eff); simpl.
        - by rewrite lookup_insert_eq.
        - by rewrite E, app_nil_r. }
      rewrite (IH w1 _ Hout1), Hlen.
      set (effs := run_effects _ _ xs).
      f_equal.
      * unfold effects_result. simpl. destruct effs as [|e0 effs]; simpl; [by rewrite Eend|done].
      * subst w1. unfold written, requested, printed. simpl. rewrite ?Eend.
        f_equal.
        -- destruct (e_written eff); simpl.
           ++ by rewrite insert_insert_eq, <- app_assoc.
           ++ by rewrite app_nil_r.
        -- destruct (e_sent eff); simpl; by rewrite <- ?app_assoc, ?app_nil_r.
        -- by rewrite <- app_assoc.
    + unfold e_ok. rewrite Eend. unfold effects_result, written, requested, printed.
      simpl. rewrite Eend. f_equal. f_equal.
      destruct (e_written eff); simpl; [done|].
      by rewrite app_nil_r, insert_id.
Qed.
End Loop.

(** Creating the results directory and opening the results file. *)
Lemma prepare_results (dir : path) (name : string) (empty : file) (w : world) :
  dir <> [] ->
  results_writable dir name (fs w) = true ->
  (mkdir_parents dir ;; open_w (path_join dir name) empty) w
  = (Ok tt,
     World (<[path_join dir name := File empty]> (mkdirs dir (fs w)))
           (sent w) (stdout w)).
Proof.
  intros Hdir Hw. unfold results_writable in Hw.
  apply andb_true_iff in Hw as [[H1 H2]%andb_true_iff H3].
  apply negb_true_iff in H1, H2, H3.
  rewrite bind_run. unfold mkdir_parents. rewrite H1, H2.
  unfold open_w. cbn [fs sent stdout].
  assert (Hnot : path_join dir name ∉ strict_ancestors dir ++ [dir]).
  { intros [Hin|Hin]%elem_of_app.
    - apply strict_ancestors_length in Hin. unfold path_join in Hin.
      rewrite length_app in Hin. simpl in Hin. lia.
    - apply list_elem_of_singleton in Hin. apply (f_equal length) in Hin.
      unfold path_join in Hin. rewrite length_app in Hin. simpl in Hin. lia. }
  assert (Hd : is_dir (mkdirs dir (fs w)) (path_join dir name) = false).
  { unfold is_dir, mkdirs in *. rewrite lookup_mkdirs, decide_False by done. exact H3. }
  rewrite Hd.
  assert (Ha : existsb (is_file (mkdirs dir (fs w))) (strict_ancestors (path_join dir name)) = false).
  { rewrite strict_ancestors_join by done.
    apply not_true_is_false. intros (q & Hq & Hf)%existsb_exists.
    unfold is_file, mkdirs in Hf. rewrite lookup_mkdirs in Hf.
    rewrite decide_True in Hf by (by apply list_elem_of_In). done. }
  rewrite Ha.
  assert (Hp : is_dir (mkdirs dir (fs w)) (parent (path_join dir name)) = true).
  { unfold parent, path_join. rewrite length_app. simpl.
    replace (length dir + 1 - 1)%nat with (length dir) by lia.
    rewrite take_app_length. unfold is_dir, mkdirs. rewrite lookup_mkdirs.
    rewrite decide_True by (apply elem_of_app; right; left).
    apply orb_true_r. }
  rewrite Hp. reflexivity.
Qed.

(** Reading the dataset artifact. *)
Lemma load_dataset (p : path) (w : world) (ds : list dict) (msg : string) {A} (k : list dict -> M A) :
  dataset_at p w = Some ds ->
  (ex ← path_exists p;
   (if negb ex then raise (FileNotFoundError msg) else mret tt) ;;
   dataset ← json_load p;
   k dataset) w
  = k ds w.
Proof.
  unfold dataset_at. intros H. rewrite bind_run. unfold path_exists.
  destruct (fs w !! p) as [[|[items|]]|] eqn:E; try done. injection H as ->.
  rewrite bool_decide_true with (P := is_Some _) by done. rewrite orb_true_r.
  cbn [negb]. rewrite !bind_run. unfold mret at 1, M_ret at 1.
  rewrite bind_run. unfold json_load. by rewrite E.
Qed.

Lemma prepare_results_then {A} (dir : path) (name : string) (empty : file) (w : world)
    (k : M A) :
  dir <> [] ->
  results_writable dir name (fs w) = true ->
  (mkdir_parents dir ;; open_w (path_join dir name) empty ;; k) w
  = k (World (<[path_join dir name := File empty]> (mkdirs dir (fs w)))
             (sent w) (stdout w)).
Proof.
  intros Hdir Hw. pose proof (prepare_results dir name empty w Hdir Hw) as H.
  rewrite bind_run in H. rewrite bind_run.
  destruct (mkdir_parents dir w) as [[[]|e] w1]; [|done].
  rewrite bind_run, H. reflexivity.
Qed.

(** ** The strategy-comparison runner *)

Lemma CompareStrategies_body_step (cfg : config) (p : dict * string) (w : world) :
  (result ← CompareStrategies.run_case cfg p.1 p.2;
   write_line (CompareStrategies.out_file cfg) result ;;
   id ← getitem p.1 "id";
   status ← getitem result "status";
   print (Progress id p.2 status)) w
  = apply_effect (CompareStrategies.out_file cfg)
      (CompareStrategies.step cfg (length (sent w)) p) w.
Proof.
  destruct p as [item strat].
  unfold CompareStrategies.run_case, CompareStrategies.step, apply_effect, getitem,
    session_post, write_line, print, raise, mbind, M_bind, mret, M_ret.
  cbn [fst snd].
  destruct (dict_lookup "question" item) as [q|]; [|same_world w].
  destruct (service cfg _ _) as [status text|msg]; [|same_world w].
  destruct (dict_lookup "id" item) as [i|]; [|same_world w].
  same_world w.
Qed.

Lemma CompareStrategies_main_run (cfg : config) (a : CompareStrategies.args)
    (w : world) (ds : list dict) :
  dataset_at (CompareStrategies.DATASET_PATH cfg) w = Some ds ->
  results_writable (CompareStrategies.RESULTS_DIR cfg) "strategy-compare.jsonl" (fs w) = true ->
  let effs := run_effects (CompareStrategies.step cfg) (length (sent w))
                (list_prod (CompareStrategies.select a ds)
                           (CompareStrategies.strategies_or_default a)) in
  CompareStrategies.main cfg a w
  = (effects_result effs,
     World (<[CompareStrategies.out_file cfg := File (JsonLines (written effs))]>
              (mkdirs (CompareStrategies.RESULTS_DIR cfg) (fs w)))
           (sent w ++ requested effs)
           (stdout w ++ printed effs ++
            match effects_result effs with
            | Ok _ => [SavedComparison (CompareStrategies.out_file cfg)]
            | Raise _ => []
            end)).
Proof.
  intros Hds Hw effs. unfold CompareStrategies.main.
  rewrite (load_dataset _ _ _ _ _ Hds).
  unfold CompareStrategies.out_file.
  rewrite prepare_results_then; [|apply path_join_nonempty|done].
  fold (CompareStrategies.out_file cfg).
  set (w1 := World _ _ _). rewrite bind_run, for_nested.
  rewrite (for_effects (CompareStrategies.out_file cfg) _ (CompareStrategies.step cfg)
             (CompareStrategies_body_step cfg) _ w1 []).
  2: { subst w1. unfold records_at. cbn [fs]. by rewrite lookup_insert_eq. }
  subst w1. cbn [fs sent stdout]. fold effs. rewrite insert_insert_eq. cbn [app].
  destruct (effects_result effs) as [[]|e].
  - unfold print. cbn [fs sent stdout]. by rewrite <- app_assoc.
  - by rewrite app_nil_r.
Qed.

Lemma run_effects_sent {A} (step : nat -> A -> effect) (n : nat) (x : A) (xs : list A)
    (req : request) (record : option dict) (l : line) :
  step n x = Effect (Some req) record (inl l) ->
  run_effects step n (x :: xs) = Effect (Some req) record (inl l) :: run_effects step (S n) xs.
Proof. intros H. cbn. rewrite H. cbn. by rewrite Nat.add_1_r. Qed.

Lemma run_effects_stop {A} (step : nat -> A -> effect) (n : nat) (x : A) (xs : list A)
    (req : option request) (record : option dict) (e : exn) :
  step n x = Effect req record (inr e) ->
  run_effects step n (x :: xs) = [Effect req record (inr e)].
Proof. intros H. cbn. by rewrite H. Qed.

Lemma effects_result_cons_ok (eff : effect) (effs : list effect) :
  e_ok eff = true -> effects_result (eff :: effs) = effects_result effs.
Proof.
  unfold effects_result, e_ok. destruct effs as [|e0 effs]; simpl; [|done].
  by destruct (e_end eff).
Qed.

(** A turn of the strategy-comparison loop either sends one request, gets a
    response and writes its record, or writes nothing and raises. *)
Lemma CompareStrategies_step_cases (cfg : config) (n : nat) (item : dict) (strat : string) :
  (exists q i status text,
      dict_lookup "question" item = Some q /\ dict_lookup "id" item = Some i /\
      let req := Request (CompareStrategies.API_BASE cfg +:+ "/api/chat/stream")
                   [("message", q); ("chatHistory", VList []); ("strategy", VStr strat)] in
      service cfg n req = Response status text /\
      CompareStrategies.step cfg n (item, strat)
      = Effect (Some req)
          (Some [("id", i); ("question", q); ("strategy", VStr strat);
                 ("status", VInt status); ("raw_response", VStr text)])
          (inl (Progress i strat (VInt status))))
  \/ (exists r e, CompareStrategies.step cfg n (item, strat) = Effect r None (inr e)).
Proof.
  unfold CompareStrategies.step.
  destruct (dict_lookup "question" item) as [q|]; [|right; eauto].
  destruct (service cfg n _) as [status text|msg] eqn:Es; [|right; eauto].
  destruct (dict_lookup "id" item) as [i|]; [|right; eauto].
  left. exists q, i, status, text. by rewrite Es.
Qed.

(** The records of a run are those of a prefix of the pairs, in order. *)
Lemma CompareStrategies_written_prefix (cfg : config) (n : nat) (pairs : list (dict * string)) :
  map record_key (written (run_effects (CompareStrategies.step cfg) n pairs))
  `prefix_of` map pair_key pairs.
Proof.
  revert n. induction pairs as [|[item strat] ps IH]; intros n; [done|].
  destruct (CompareStrategies_step_cases cfg n item strat)
    as [(q & i & status & text & Hq & Hi & _ & Hs)|(r & e & Hs)].
  - rewrite (run_effects_sent _ _ _ _ _ _ _ Hs).
    unfold written, pair_key, record_key in *. cbn. rewrite Hi.
    apply prefix_cons, IH.
  - rewrite (run_effects_stop _ _ _ _ _ _ _ Hs). apply prefix_nil.
Qed.

(** A run that ends normally wrote the record of every pair. *)
Lemma CompareStrategies_written_all (cfg : config) (n : nat) (pairs : list (dict * string)) :
  effects_result (run_effects (CompareStrategies.step cfg) n pairs) = Ok tt ->
  map record_key (written (run_effects (CompareStrategies.step cfg) n pairs))
  = map pair_key pairs.
Proof.
  revert n. induction pairs as [|[item strat] ps IH]; intros n; [done|].
  destruct (CompareStrategies_step_cases cfg n item strat)
    as [(q & i & status & text & Hq & Hi & _ & Hs)|(r & e & Hs)].
  - rewrite (run_effects_sent _ _ _ _ _ _ _ Hs), effects_result_cons_ok by done.
    intros H%IH. unfold written, pair_key, record_key in *. cbn. by rewrite Hi, H.
  - by rewrite (run_effects_stop _ _ _ _ _ _ _ Hs).
Qed.

Lemma written_cons (eff : effect) (effs : list effect) :
  written (eff :: effs) = option_list (e_written eff) ++ written effs.
Proof. unfold written. cbn. by destruct (e_written eff). Qed.

Lemma requested_cons (eff : effect) (effs : list effect) :
  requested (eff :: effs) = option_list (e_sent eff) ++ requested effs.
Proof. unfold requested. cbn. by destruct (e_sent eff). Qed.

(** Every record written is the record of the pair at its position: it
    carries the status and the body of the response to the one request sent
    for that pair. *)
Lemma CompareStrategies_written_lookup (cfg : config) (n : nat)
    (pairs : list (dict * string)) (k : nat) (record : dict) :
  written (run_effects (CompareStrategies.step cfg) n pairs) !! k = Some record ->
  exists item strat q i status text,
    pairs !! k = Some (item, strat) /\
    dict_lookup "question" item = Some q /\ dict_lookup "id" item = Some i /\
    let req := Request (CompareStrategies.API_BASE cfg +:+ "/api/chat/stream")
                 [("message", q); ("chatHistory", VList []); ("strategy", VStr strat)] in
    requested (run_effects (CompareStrategies.step cfg) n pairs) !! k = Some req /\
    service cfg (n + k) req = Response status text /\
    record = [("id", i); ("question", q); ("strategy", VStr strat);
              ("status", VInt status); ("raw_response", VStr text)].
Proof.
  revert n k. induction pairs as [|[item strat] ps IH]; intros n k; [done|].
  destruct (CompareStrategies_step_cases cfg n item strat)
    as [(q & i & status & text & Hq & Hi & Hs & Hstep)|(r & e & Hstep)].
  - rewrite (run_effects_sent _ _ _ _ _ _ _ Hstep), written_cons, requested_cons.
    cbn [e_written e_sent option_list app]. destruct k as [|k]; cbn [lookup list_lookup].
    + intros [= <-]. exists item, strat, q, i, status, text.
      rewrite Nat.add_0_r. done.
    + intros H. apply IH in H.
      replace (n + S k)%nat with (S n + k)%nat by lia. exact H.
  - rewrite (run_effects_stop _ _ _ _ _ _ _ Hstep). by destruct k.
Qed.

(** When the service answers every request and the items are well formed,
    the run ends normally after one request and one record per pair. *)
Lemma CompareStrategies_responsive_run (cfg : config) (n : nat) (pairs : list (dict * string)) :
  responsive cfg ->
  forallb (fun p => has_id_and_question p.1) pairs = true ->
  let effs := run_effects (CompareStrategies.step cfg) n pairs in
  effects_result effs = Ok tt /\
  length (written effs) = length pairs /\
  length (requested effs) = length pairs.
Proof.
  intros Hsrv. revert n. induction pairs as [|[item strat] ps IH]; intros n Hqa; [done|].
  cbn [forallb fst] in Hqa. apply andb_true_iff in Hqa as [Hitem Hps].
  destruct (CompareStrategies_step_cases cfg n item strat)
    as [(q & i & status & text & Hq & Hi & Hs & Hstep)|(r & e & Hstep)].
  - cbv zeta. rewrite (run_effects_sent _ _ _ _ _ _ _ Hstep).
    rewrite effects_result_cons_ok, written_cons, requested_cons by done.
    destruct (IH (S n) Hps) as (H1 & H2 & H3). cbn. by rewrite H1, H2, H3.
  - exfalso. unfold CompareStrategies.step, has_id_and_question in *.
    destruct (dict_lookup "id" item); [|done].
    destruct (dict_lookup "question" item) as [q|]; [|done].
    destruct (Hsrv n (Request (CompareStrategies.API_BASE cfg +:+ "/api/chat/stream")
                        [("message", q); ("chatHistory", VList []);
                         ("strategy", VStr strat)])) as (st & tx & Hr).
    rewrite Hr in Hstep. done.
Qed.

(** A transport-level failure of a request ends the run with the client's
    exception: that request is the last one sent, and only the pairs before
    it have a record. *)
Lemma CompareStrategies_transport_stops (cfg : config) (n : nat)
    (pairs : list (dict * string)) (j : nat) (req : request) (msg : string) :
  let effs := run_effects (CompareStrategies.step cfg) n pairs in
  requested effs !! j = Some req ->
  service cfg (n + j) req = TransportError msg ->
  effects_result effs = Raise (ClientError msg) /\
  length (requested effs) = S j /\
  length (written effs) = j.
Proof.
  cbv zeta. revert n j. induction pairs as [|[item strat] ps IH]; intros n j; [done|].
  unfold CompareStrategies.step at 1 2 3 4.
  destruct (CompareStrategies_step_cases cfg n item strat)
    as [(q & i & status & text & Hq & Hi & Hs & Hstep)|(r & e & Hstep)].
  - fold (CompareStrategies.step cfg).
    rewrite (run_effects_sent _ _ _ _ _ _ _ Hstep).
    rewrite effects_result_cons_ok, written_cons, requested_cons by done.
    cbn [e_written e_sent option_list app]. destruct j as [|j]; cbn [lookup list_lookup].
    + intros [= <-]. rewrite Nat.add_0_r. cbv zeta in Hs. congruence.
    + intros Hj Hsrv. replace (n + S j)%nat with (S n + j)%nat in Hsrv by lia.
      destruct (IH _ _ Hj Hsrv) as (H1 & H2 & H3). cbn. by rewrite H1, H2, H3.
  - fold (CompareStrategies.step cfg).
    rewrite (run_effects_stop _ _ _ _ _ _ _ Hstep), requested_cons. cbn.
    unfold CompareStrategies.step in Hstep.
    destruct (dict_lookup "question" item) as [q|]; [|by injection Hstep as <- <-].
    destruct (service cfg n _) as [status text|msg'] eqn:Es.
    + destruct (dict_lookup "id" item); [done|]. injection Hstep as <- <-.
      destruct j; [|done]. cbn. intros [= <-]. rewrite Nat.add_0_r. congruence.
    + injection Hstep as <- <-. destruct j; [|done]. cbn. intros [= <-].
      rewrite Nat.add_0_r, Es. intros [= ->]. done.
Qed.

Lemma items_of_pairs (items : list dict) (strats : list string) :
  forallb has_id_and_question items = true ->
  forallb (fun p : dict * string => has_id_and_question p.1) (list_prod items strats) = true.
Proof.
  rewrite !forallb_forall. intros H [item strat] [Hin _]%in_prod_iff. by apply H.
Qed.

Lemma lookup_after {X} (l1 l2 : list X) (k : nat) :
  (l1 ++ l2) !! (length l1 + k)%nat = l2 !! k.
Proof. rewrite lookup_app_r by lia. f_equal. lia. Qed.

(** C1 (amended).  In the strategy-comparison runner a response of any
    status, non-2xx included, does not abort the run: every record written
    is the record of the pair at its position, with [status] the observed
    code and [raw_response] the body of the response to the single request
    sent for that pair, and when the service answers every request the run
    ends normally with one request and one record per pair, the items
    having an [id] and a [question].  A
    transport-level failure is not caught: the client's exception ends the
    run at that request, which is the last one sent, and only the pairs
    before it have a record. *)
Theorem C1_http_error_recorded_transport_failure_ends_run
    (cfg : config) (a : CompareStrategies.args) (w : world) (ds : list dict) :
  dataset_at (CompareStrategies.DATASET_PATH cfg) w = Some ds ->
  results_writable (CompareStrategies.RESULTS_DIR cfg) "strategy-compare.jsonl" (fs w) = true ->
  let pairs := list_prod (CompareStrategies.select a ds)
                         (CompareStrategies.strategies_or_default a) in
  let r := (CompareStrategies.main cfg a w).1 in
  let w' := (CompareStrategies.main cfg a w).2 in
  exists rs,
    records_at (CompareStrategies.out_file cfg) w' = Some rs /\
    (forall k record, rs !! k = Some record ->
       exists item strat req status text,
         pairs !! k = Some (item, strat) /\
         sent w' !! (length (sent w) + k)%nat = Some req /\
         dict_lookup "message" (payload req) = dict_lookup "question" item /\
         dict_lookup "strategy" (payload req) = Some (VStr strat) /\
         service cfg (length (sent w) + k) req = Response status text /\
         record_key record = pair_key (item, strat) /\
         dict_lookup "status" record = Some (VInt status) /\
         dict_lookup "raw_response" record = Some (VStr text)) /\
    (responsive cfg ->
     forallb has_id_and_question (CompareStrategies.select a ds) = true ->
       r = Ok tt /\
       length rs = length pairs /\
       length (sent w') = (length (sent w) + length pairs)%nat) /\
    (forall n req msg,
       sent w' !! (length (sent w) + n)%nat = Some req ->
       service cfg (length (sent w) + n) req = TransportError msg ->
         r = Raise (ClientError msg) /\
         length (sent w') = (length (sent w) + S n)%nat /\
         length rs = n).
Proof.
  intros Hds Hw pairs r w'. subst r w'.
  rewrite (CompareStrategies_main_run cfg a w ds Hds Hw). fold pairs.
  set (effs := run_effects _ _ pairs). cbn [fst snd sent].
  exists (written effs). split; [|split; [|split]].
  - unfold records_at. cbn [fs]. by rewrite lookup_insert_eq.
  - intros k record Hk.
    apply CompareStrategies_written_lookup in Hk
      as (item & strat & q & i & status & text & Hp & Hq & Hi & Hreq & Hsrv & ->).
    eexists item, strat, _, status, text. rewrite lookup_after.
    split; [done|]. split; [exact Hreq|].
    unfold record_key, pair_key. cbn. by rewrite Hq, Hi.
  - intros Hsrv Hqa.
    destruct (CompareStrategies_responsive_run cfg (length (sent w)) pairs Hsrv)
      as (H1 & H2 & H3); [by apply items_of_pairs|].
    fold effs in H1, H2, H3. by rewrite length_app, H3.
  - intros n req msg Hn Hsrv. rewrite lookup_after in Hn.
    destruct (CompareStrategies_transport_stops cfg _ pairs n req msg Hn Hsrv)
      as (H1 & H2 & H3).
    fold effs in H1, H2, H3. by rewrite length_app, H2.
Qed.

(** C2 (amended).  The number of Run Records the strategy-comparison runner
    writes never exceeds |selected items| x |strategies|, and equals it
    exactly when every request receives a response, whatever its status (so
    also when every response is an error response), the items having an
    [id] and a [question].  A transport-level failure ends the run early. *)
Theorem C2_record_count_when_every_request_is_answered
    (cfg : config) (a : CompareStrategies.args) (w : world) (ds : list dict) :
  dataset_at (CompareStrategies.DATASET_PATH cfg) w = Some ds ->
  results_writable (CompareStrategies.RESULTS_DIR cfg) "strategy-compare.jsonl" (fs w) = true ->
  exists rs,
    records_at (CompareStrategies.out_file cfg) (CompareStrategies.main cfg a w).2 = Some rs /\
    (length rs <= length (CompareStrategies.select a ds)
                  * length (CompareStrategies.strategies_or_default a))%nat /\
    (responsive cfg ->
     forallb has_id_and_question (CompareStrategies.select a ds) = true ->
       (CompareStrategies.main cfg a w).1 = Ok tt /\
       length rs = (length (CompareStrategies.select a ds)
                    * length (CompareStrategies.strategies_or_default a))%nat).
Proof.
  intros Hds Hw. rewrite (CompareStrategies_main_run cfg a w ds Hds Hw).
  set (pairs := list_prod _ _). set (effs := run_effects _ _ pairs). cbn [fst snd].
  exists (written effs). split; [|split].
  - unfold records_at. cbn [fs]. by rewrite lookup_insert_eq.
  - rewrite <- length_prod. fold pairs.
    pose proof (CompareStrategies_written_prefix cfg (length (sent w)) pairs) as Hp.
    fold effs in Hp. apply prefix_length in Hp. by rewrite !length_map in Hp.
  - intros Hsrv Hqa. rewrite <- length_prod. fold pairs.
    destruct (CompareStrategies_responsive_run cfg (length (sent w)) pairs Hsrv)
      as (H1 & H2 & H3); [by apply items_of_pairs|].
    by fold effs in H1, H2.
Qed.

(** C6 (amended).  The Run Records the strategy-comparison runner writes
    are, in order, the records of a prefix of the Cartesian product of the
    selected items and the strategies, ordered items-outer,
    strategies-inner, and of the whole product when the run ends normally;
    so for a fixed item its records appear in the order of the strategy
    list. *)
Theorem C6_records_follow_product_order
    (cfg : config) (a : CompareStrategies.args) (w : world) (ds : list dict) :
  dataset_at (CompareStrategies.DATASET_PATH cfg) w = Some ds ->
  results_writable (CompareStrategies.RESULTS_DIR cfg) "strategy-compare.jsonl" (fs w) = true ->
  let pairs := flat_map (fun item => map (fun strat => (item, strat))
                                         (CompareStrategies.strategies_or_default a))
                        (CompareStrategies.select a ds) in
  exists rs,
    records_at (CompareStrategies.out_file cfg) (CompareStrategies.main cfg a w).2 = Some rs /\
    map record_key rs `prefix_of` map pair_key pairs /\
    ((CompareStrategies.main cfg a w).1 = Ok tt -> map record_key rs = map pair_key pairs).
Proof.
  intros Hds Hw pairs.
  assert (Hpairs : pairs = list_prod (CompareStrategies.select a ds)
                             (CompareStrategies.strategies_or_default a)).
  { subst pairs. induction (CompareStrategies.select a ds) as [|x xs IH]; [done|].
    cbn. by rewrite IH. }
  rewrite Hpairs. rewrite (CompareStrategies_main_run cfg a w ds Hds Hw).
  set (effs := run_effects _ _ _). cbn [fst snd].
  exists (written effs). split; [|split].
  - unfold records_at. cbn [fs]. by rewrite lookup_insert_eq.
  - apply CompareStrategies_written_prefix.
  - apply CompareStrategies_written_all.
Qed.

(** ** The RAGAS runner *)

Lemma RunRagas_body_step (cfg : config) (item : dict) (w : world) :
  (question ← getitem item "question";
   result ← RunRagas.fetch_answer cfg question;
   id ← getitem item "id";
   question ← getitem item "question";
   let record :=
     [ ("id", id);
       ("question", question);
       ("category", dict_get "category" item);
       ("expected_tool", dict_get "expected_tool" item);
       ("raw_response", dict_get "raw" result);
       ("error", dict_get "error" result) ] in
   write_line (RunRagas.out_file cfg) record ;;
   id ← getitem item "id";
   question ← getitem item "question";
   check_sliceable question ;;
   print (Evaluated id question 40)) w
  = apply_effect (RunRagas.out_file cfg) (RunRagas.step cfg (length (sent w)) item) w.
Proof.
  unfold RunRagas.fetch_answer, RunRagas.step, apply_effect, getitem, check_sliceable,
    session_post, write_line, print, raise, mbind, M_bind, mret, M_ret.
  cbn [fst snd].
  destruct (dict_lookup "question" item) as [q|]; [|same_world w].
  destruct (service cfg _ _) as [status text|msg]; [|same_world w].
  cbn [fst snd].
  destruct (status =? 200); cbn [negb];
    (destruct (dict_lookup "id" item) as [i|]; [|same_world w]);
    destruct q; same_world w.
Qed.

Lemma RunRagas_main_run (cfg : config) (a : RunRagas.args) (w : world) (ds : list dict) :
  dataset_at (RunRagas.DATASET_PATH cfg) w = Some ds ->
  results_writable (RunRagas.RESULTS_DIR cfg) "ragas-run.jsonl" (fs w) = true ->
  let effs := run_effects (RunRagas.step cfg) (length (sent w)) (RunRagas.select a ds) in
  RunRagas.main cfg a w
  = (effects_result effs,
     World (<[RunRagas.out_file cfg := File (JsonLines (written effs))]>
              (mkdirs (RunRagas.RESULTS_DIR cfg) (fs w)))
           (sent w ++ requested effs)
           (stdout w ++ printed effs ++
            match effects_result effs with
            | Ok _ => [Saved (RunRagas.out_file cfg)]
            | Raise _ => []
            end)).
Proof.
  intros Hds Hw effs. unfold RunRagas.main.
  rewrite (load_dataset _ _ _ _ _ Hds).
  unfold RunRagas.out_file.
  rewrite prepare_results_then; [|apply path_join_nonempty|done].
  fold (RunRagas.out_file cfg).
  set (w1 := World _ _ _). rewrite bind_run.
  rewrite (for_effects (RunRagas.out_file cfg) _ (RunRagas.step cfg)
             (RunRagas_body_step cfg) _ w1 []).
  2: { subst w1. unfold records_at. cbn [fs]. by rewrite lookup_insert_eq. }
  subst w1. cbn [fs sent stdout]. fold effs. rewrite insert_insert_eq. cbn [app].
  destruct (effects_result effs) as [[]|e].
  - unfold print. cbn [fs sent stdout]. by rewrite <- app_assoc.
  - by rewrite app_nil_r.
Qed.

(** A turn of the RAGAS loop either sends one request, gets a response and
    writes its record (and then prints, or raises when the question cannot
    be sliced), or writes nothing and raises. *)
Lemma RunRagas_step_cases (cfg : config) (n : nat) (item : dict) :
  (exists q i status text,
      dict_lookup "question" item = Some q /\ dict_lookup "id" item = Some i /\
      let req := Request (RunRagas.API_BASE cfg +:+ "/api/chat/stream")
                   [("message", q); ("chatHistory", VList [])] in
      let record :=
        [ ("id", i); ("question", q);
          ("category", dict_get "category" item);
          ("expected_tool", dict_get "expected_tool" item);
          ("raw_response", if status =? 200 then VStr text else VNone);
          ("error", if status =? 200 then VNone
                    else VStr ("HTTP " +:+ pretty status +:+ ": " +:+ text)) ] in
      service cfg n req = Response status text /\
      (RunRagas.step cfg n item = Effect (Some req) (Some record) (inl (Evaluated i q 40)) \/
       RunRagas.step cfg n item = Effect (Some req) (Some record) (inr TypeError) /\
       qa_item item = false))
  \/ (exists r e, RunRagas.step cfg n item = Effect r None (inr e) /\
                  (qa_item item = true -> exists msg, e = ClientError msg)).
Proof.
  unfold RunRagas.step, qa_item.
  destruct (dict_lookup "question" item) as [q|];
    [|right; eexists _, _; split; [done|by destruct (dict_lookup "id" item)]].
  destruct (service cfg n _) as [status text|msg] eqn:Es; [|right; eauto].
  destruct (dict_lookup "id" item) as [i|];
    [|right; eexists _, _; split; [done|done]].
  left. exists q, i, status, text. rewrite Es.
  repeat split; destruct q; auto.
Qed.

Lemma RunRagas_written_lookup (cfg : config) (n : nat) (items : list dict)
    (k : nat) (record : dict) :
  written (run_effects (RunRagas.step cfg) n items) !! k = Some record ->
  exists item q i status text,
    items !! k = Some item /\
    dict_lookup "question" item = Some q /\ dict_lookup "id" item = Some i /\
    let req := Request (RunRagas.API_BASE cfg +:+ "/api/chat/stream")
                 [("message", q); ("chatHistory", VList [])] in
    requested (run_effects (RunRagas.step cfg) n items) !! k = Some req /\
    service cfg (n + k) req = Response status text /\
    record = [ ("id", i); ("question", q);
               ("category", dict_get "category" item);
               ("expected_tool", dict_get "expected_tool" item);
               ("raw_response", if status =? 200 then VStr text else VNone);
               ("error", if status =? 200 then VNone
                         else VStr ("HTTP " +:+ pretty status +:+ ": " +:+ text)) ].
Proof.
  revert n k. induction items as [|item items IH]; intros n k; [done|].
  destruct (RunRagas_step_cases cfg n item)
    as [(q & i & status & text & Hq & Hi & Hs & [Hstep|[Hstep _]])|(r & e & Hstep & _)].
  - rewrite (run_effects_sent _ _ _ _ _ _ _ Hstep), written_cons, requested_cons.
    cbn [e_written e_sent option_list app]. destruct k as [|k]; cbn [lookup list_lookup].
    + intros [= <-]. exists item, q, i, status, text. rewrite Nat.add_0_r. done.
    + intros H. apply IH in H.
      replace (n + S k)%nat with (S n + k)%nat by lia. exact H.
  - rewrite (run_effects_stop _ _ _ _ _ _ _ Hstep), written_cons, requested_cons.
    cbn [e_written e_sent option_list app]. destruct k as [|k]; [|done].
    cbn [lookup list_lookup]. intros [= <-].
    exists item, q, i, status, text. rewrite Nat.add_0_r. done.
  - rewrite (run_effects_stop _ _ _ _ _ _ _ Hstep). by destruct k.
Qed.

Lemma RunRagas_written_prefix (cfg : config) (n : nat) (items : list dict) :
  map (dict_lookup "id") (written (run_effects (RunRagas.step cfg) n items))
  `prefix_of` map (dict_lookup "id") items.
Proof.
  revert n. induction items as [|item items IH]; intros n; [done|].
  destruct (RunRagas_step_cases cfg n item)
    as [(q & i & status & text & Hq & Hi & Hs & [Hstep|[Hstep _]])|(r & e & Hstep & _)].
  - rewrite (run_effects_sent _ _ _ _ _ _ _ Hstep), written_cons.
    cbn. rewrite Hi. apply prefix_cons, IH.
  - rewrite (run_effects_stop _ _ _ _ _ _ _ Hstep). cbn. rewrite Hi.
    apply prefix_cons, prefix_nil.
  - rewrite (run_effects_stop _ _ _ _ _ _ _ Hstep). apply prefix_nil.
Qed.

Lemma RunRagas_written_all (cfg : config) (n : nat) (items : list dict) :
  effects_result (run_effects (RunRagas.step cfg) n items) = Ok tt ->
  map (dict_lookup "id") (written (run_effects (RunRagas.step cfg) n items))
  = map (dict_lookup "id") items.
Proof.
  revert n. induction items as [|item items IH]; intros n; [done|].
  destruct (RunRagas_step_cases cfg n item)
    as [(q & i & status & text & Hq & Hi & Hs & [Hstep|[Hstep _]])|(r & e & Hstep & _)].
  - rewrite (run_effects_sent _ _ _ _ _ _ _ Hstep), effects_result_cons_ok by done.
    intros H%IH. rewrite written_cons. cbn. by rewrite Hi, H.
  - by rewrite (run_effects_stop _ _ _ _ _ _ _ Hstep).
  - by rewrite (run_effects_stop _ _ _ _ _ _ _ Hstep).
Qed.

Lemma RunRagas_responsive_run (cfg : config) (n : nat) (items : list dict) :
  responsive cfg ->
  forallb qa_item items = true ->
  let effs := run_effects (RunRagas.step cfg) n items in
  effects_result effs = Ok tt /\
  length (written effs) = length items /\
  length (requested effs) = length items.
Proof.
  intros Hsrv. revert n. induction items as [|item items IH]; intros n Hqa; [done|].
  cbn [forallb] in Hqa. apply andb_true_iff in Hqa as [Hitem Hitems].
  destruct (RunRagas_step_cases cfg n item)
    as [(q & i & status & text & Hq & Hi & Hs & [Hstep|[_ Hno]])|(r & e & Hstep & He)].
  - cbv zeta. rewrite (run_effects_sent _ _ _ _ _ _ _ Hstep).
    rewrite effects_result_cons_ok, written_cons, requested_cons by done.
    destruct (IH (S n) Hitems) as (H1 & H2 & H3). cbn. by rewrite H1, H2, H3.
  - congruence.
  - exfalso. destruct (He Hitem) as [msg ->].
    unfold RunRagas.step in Hstep.
    destruct (dict_lookup "question" item) as [q|]; [|done].
    match type of Hstep with
    | context [service cfg n ?req] => destruct (Hsrv n req) as (st & tx & Hr)
    end.
    rewrite Hr in Hstep. by destruct (dict_lookup "id" item).
Qed.

(** ** Selection of the items *)

Lemma py_slice_to_nonneg {X} (n : Z) (l : list X) :
  0 <= n -> py_slice_to n l = take (Z.to_nat n) l.
Proof. intros H. unfold py_slice_to. by rewrite (proj2 (Z.leb_le 0 n) H). Qed.

Lemma py_slice_to_neg {X} (n : Z) (l : list X) :
  n < 0 -> py_slice_to n l = take (length l - Z.to_nat (- n))%nat l.
Proof. intros H. unfold py_slice_to. by rewrite (proj2 (Z.leb_gt 0 n) H). Qed.

(** C3 (amended).  When both the smoke flag and a numeric limit are given,
    smoke mode takes precedence in both runners: the items selected are the
    first min(5, count) items (of the dataset in the strategy-comparison
    runner, of the category-filtered dataset in the RAGAS runner), whatever
    the limit. *)
Theorem C3_smoke_takes_precedence_over_limit (n : Z) (ds : list dict) :
  (forall strategies,
     let a := CompareStrategies.Args true (Some n) strategies in
     CompareStrategies.select a ds = take 5 ds /\
     length (CompareStrategies.select a ds) = Nat.min 5 (length ds)) /\
  (forall categories,
     let a := RunRagas.Args true (Some n) categories in
     RunRagas.select a ds = take 5 (RunRagas.filter_categories a ds) /\
     length (RunRagas.select a ds) = Nat.min 5 (length (RunRagas.filter_categories a ds))).
Proof.
  split; intros x a; subst a.
  - unfold CompareStrategies.select. cbn [CompareStrategies.smoke].
    rewrite py_slice_to_nonneg by lia. split; [done|]. apply length_take.
  - unfold RunRagas.select, RunRagas.slice. cbn [RunRagas.smoke].
    rewrite py_slice_to_nonneg by lia. split; [done|]. apply length_take.
Qed.

(** C10 (amended).  In the RAGAS runner the category filter is applied
    before the slicing, never the other way round: with smoke mode the
    selected items are the first min(5, count) items of the category-filtered
    sequence; without smoke mode and with a positive limit N they are its
    first min(N, count) items; a limit of 0 is treated as no limit and leaves
    the whole filtered sequence, and a negative limit N drops its last |N|
    items. *)
Theorem C10_filter_then_slice (a : RunRagas.args) (c : string) (cs : list string)
    (ds : list dict) :
  RunRagas.categories a = Some (c :: cs) ->
  let filtered := List.filter (fun d => value_in (dict_get "category" d) (c :: cs)) ds in
  (RunRagas.smoke a = true ->
     RunRagas.select a ds = take 5 filtered /\
     length (RunRagas.select a ds) = Nat.min 5 (length filtered)) /\
  (RunRagas.smoke a = false ->
   forall N, RunRagas.limit a = Some N ->
     (0 < N ->
        RunRagas.select a ds = take (Z.to_nat N) filtered /\
        length (RunRagas.select a ds) = Nat.min (Z.to_nat N) (length filtered)) /\
     (N = 0 -> RunRagas.select a ds = filtered) /\
     (N < 0 ->
        RunRagas.select a ds = take (length filtered - Z.to_nat (- N))%nat filtered)).
Proof.
  intros Hc filtered. unfold RunRagas.select, RunRagas.slice, RunRagas.filter_categories.
  rewrite Hc. fold filtered. split.
  - intros ->. rewrite py_slice_to_nonneg by lia. split; [done|]. apply length_take.
  - intros -> N ->. split; [|split].
    + intros HN. rewrite (proj2 (Z.eqb_neq N 0)) by lia.
      rewrite py_slice_to_nonneg by lia. split; [done|]. apply length_take.
    + by intros ->.
    + intros HN. rewrite (proj2 (Z.eqb_neq N 0)) by lia.
      by rewrite py_slice_to_neg.
Qed.

(** ** The dataset artifact is missing *)

(** C7.  When the dataset artifact is missing at the expected path, either
    runner fails with a [FileNotFoundError] whose message ends with that
    path, and leaves the world as it was: no request was sent, no file was
    created or written, nothing was printed. *)
Theorem C7_missing_dataset_is_fatal
    (cfg : config) (a : CompareStrategies.args) (a' : RunRagas.args) (w : world) :
  fs w !! CompareStrategies.DATASET_PATH cfg = None ->
  CompareStrategies.main cfg a w
  = (Raise (FileNotFoundError
              ("Dataset not found: " +:+ path_str (CompareStrategies.DATASET_PATH cfg))), w) /\
  RunRagas.main cfg a' w
  = (Raise (FileNotFoundError
              ("Dataset not found: " +:+ path_str (RunRagas.DATASET_PATH cfg))), w).
Proof.
  intros H.
  assert (Hex : path_exists (CompareStrategies.DATASET_PATH cfg) w = (Ok false, w)).
  { unfold path_exists. rewrite H.
    rewrite bool_decide_false by apply path_join_nonempty.
    rewrite bool_decide_false by (by intros [? ?]). done. }
  split.
  - unfold CompareStrategies.main. rewrite bind_run, Hex. reflexivity.
  - unfold RunRagas.main. change (RunRagas.DATASET_PATH cfg) with (CompareStrategies.DATASET_PATH cfg).
    rewrite bind_run, Hex. reflexivity.
Qed.

(** ** Category filter and record shape *)

Lemma slice_subseteq (a : RunRagas.args) (ds : list dict) : RunRagas.slice a ds ⊆ ds.
Proof.
  unfold RunRagas.slice, py_slice_to.
  destruct (RunRagas.smoke a); [apply subseteq_take|].
  destruct (RunRagas.limit a) as [n|]; [|done].
  destruct (n =? 0); [done|]. destruct (0 <=? n); apply subseteq_take.
Qed.

Lemma is_category_spec (c : string) (d : dict) :
  is_category c d = true -> dict_get "category" d = VStr c.
Proof.
  unfold is_category. destruct (dict_get "category" d); try done.
  by intros ->%String.eqb_eq.
Qed.

(** C4 (amended).  Only the RAGAS runner takes a category filter, and it
    takes no strategy list (the strategy-comparison runner takes no category
    filter).  Given the filter {"qualitative"}, every record the RAGAS runner
    writes is for an item whose category is "qualitative" and has no strategy
    field, and the records are, in order, those of a prefix of the smoke or
    limit slice of the qualitative items (all of them when neither flag is
    given): one record per item of the slice when the run ends normally,
    which it does when the service answers every request and the items are
    well formed. *)
Theorem C4_category_filter_in_ragas_runner
    (cfg : config) (a : RunRagas.args) (w : world) (ds : list dict) :
  dataset_at (RunRagas.DATASET_PATH cfg) w = Some ds ->
  results_writable (RunRagas.RESULTS_DIR cfg) "ragas-run.jsonl" (fs w) = true ->
  RunRagas.categories a = Some ["qualitative"] ->
  let selected := RunRagas.slice a (List.filter (is_category "qualitative") ds) in
  exists rs,
    records_at (RunRagas.out_file cfg) (RunRagas.main cfg a w).2 = Some rs /\
    Forall (fun r => dict_lookup "category" r = Some (VStr "qualitative") /\
                     dict_lookup "strategy" r = None) rs /\
    map (dict_lookup "id") rs `prefix_of` map (dict_lookup "id") selected /\
    ((RunRagas.main cfg a w).1 = Ok tt ->
       map (dict_lookup "id") rs = map (dict_lookup "id") selected) /\
    (responsive cfg -> forallb qa_item selected = true ->
       (RunRagas.main cfg a w).1 = Ok tt) /\
    (RunRagas.smoke a = false -> RunRagas.limit a = None ->
       selected = List.filter (is_category "qualitative") ds).
Proof.
  intros Hds Hw Hc selected.
  assert (Hsel : RunRagas.select a ds = selected).
  { unfold RunRagas.select, RunRagas.filter_categories. rewrite Hc. subst selected.
    f_equal. apply filter_ext. intros d. unfold value_in, is_category.
    destruct (dict_get "category" d); try done. cbn. apply orb_false_r. }
  rewrite (RunRagas_main_run cfg a w ds Hds Hw), Hsel.
  set (effs := run_effects _ _ selected). cbn [fst snd].
  exists (written effs). split; [|split; [|split; [|split; [|split]]]].
  - unfold records_at. cbn [fs]. by rewrite lookup_insert_eq.
  - apply Forall_lookup. intros k record Hk.
    apply RunRagas_written_lookup in Hk
      as (item & q & i & status & text & Hitem & Hq & Hi & _ & _ & ->).
    split; [|done]. cbn. f_equal. apply is_category_spec.
    apply list_elem_of_lookup_2, slice_subseteq, list_elem_of_In, filter_In in Hitem.
    tauto.
  - apply RunRagas_written_prefix.
  - apply RunRagas_written_all.
  - intros Hsrv Hqa. by apply RunRagas_responsive_run.
  - intros Hs Hl. subst selected. unfold RunRagas.slice. by rewrite Hs, Hl.
Qed.

(** C8 (amended).  Every record the RAGAS runner writes holds in
    [raw_response] the full body of a response of status 200, with [error]
    null; for any other status [raw_response] is null and [error] is
    "HTTP <status>: <body>".  Every record the strategy-comparison runner
    writes holds the full body in [raw_response] whatever the status, next to
    the [status] itself, and has no [error] field. *)
Theorem C8_raw_response_and_error
    (cfg : config) (a : RunRagas.args) (a' : CompareStrategies.args)
    (w : world) (ds : list dict) :
  dataset_at (RunRagas.DATASET_PATH cfg) w = Some ds ->
  results_writable (RunRagas.RESULTS_DIR cfg) "ragas-run.jsonl" (fs w) = true ->
  results_writable (CompareStrategies.RESULTS_DIR cfg) "strategy-compare.jsonl" (fs w) = true ->
  (exists rs,
     records_at (RunRagas.out_file cfg) (RunRagas.main cfg a w).2 = Some rs /\
     forall k record, rs !! k = Some record ->
       exists req status text,
         sent (RunRagas.main cfg a w).2 !! (length (sent w) + k)%nat = Some req /\
         service cfg (length (sent w) + k) req = Response status text /\
         (status = 200 ->
            dict_lookup "raw_response" record = Some (VStr text) /\
            dict_lookup "error" record = Some VNone) /\
         (status <> 200 ->
            dict_lookup "raw_response" record = Some VNone /\
            dict_lookup "error" record
            = Some (VStr ("HTTP " +:+ pretty status +:+ ": " +:+ text)))) /\
  (exists rs,
     records_at (CompareStrategies.out_file cfg) (CompareStrategies.main cfg a' w).2 = Some rs /\
     forall k record, rs !! k = Some record ->
       exists req status text,
         sent (CompareStrategies.main cfg a' w).2 !! (length (sent w) + k)%nat = Some req /\
         service cfg (length (sent w) + k) req = Response status text /\
         dict_lookup "status" record = Some (VInt status) /\
         dict_lookup "raw_response" record = Some (VStr text) /\
         dict_lookup "error" record = None).
Proof.
  intros Hds Hw Hw'. split.
  - rewrite (RunRagas_main_run cfg a w ds Hds Hw).
    set (effs := run_effects _ _ _). cbn [fst snd sent].
    exists (written effs). split.
    { unfold records_at. cbn [fs]. by rewrite lookup_insert_eq. }
    intros k record Hk.
    apply RunRagas_written_lookup in Hk
      as (item & q & i & status & text & Hitem & Hq & Hi & Hreq & Hsrv & ->).
    eexists _, status, text. rewrite lookup_after.
    split; [exact Hreq|]. split; [exact Hsrv|]. split.
    + intros ->. done.
    + intros Hne. cbn. by rewrite (proj2 (Z.eqb_neq status 200) Hne).
  - rewrite (CompareStrategies_main_run cfg a' w ds Hds Hw').
    set (effs := run_effects _ _ _). cbn [fst snd sent].
    exists (written effs). split.
    { unfold records_at. cbn [fs]. by rewrite lookup_insert_eq. }
    intros k record Hk.
    apply CompareStrategies_written_lookup in Hk
      as (item & strat & q & i & status & text & Hp & Hq & Hi & Hreq & Hsrv & ->).
    eexists _, status, text. rewrite lookup_after.
    split; [exact Hreq|]. split; [exact Hsrv|]. done.
Qed.

(** ** The dataset builder *)

Lemma parent_path_join (p : path) (name : string) : parent (path_join p name) = p.
Proof.
  unfold parent, path_join. rewrite length_app. cbn [length].
  replace (length p + 1 - 1)%nat with (length p) by lia. apply take_app_length.
Qed.

(** When the directory cannot be created or the file not opened, nothing is
    written. *)
Lemma prepare_results_fail {A} (dir : path) (name : string) (empty : file) (w : world)
    (k : M A) :
  results_writable dir name (fs w) = false ->
  exists e w', (mkdir_parents dir ;; open_w (path_join dir name) empty ;; k) w = (Raise e, w').
Proof.
  intros Hw. rewrite bind_run. unfold mkdir_parents, results_writable in *.
  destruct (existsb (is_file (fs w)) (strict_ancestors dir)); [eauto|].
  destruct (is_file (fs w) dir); [eauto|].
  cbn [negb andb] in Hw. apply negb_false_iff in Hw.
  rewrite bind_run. unfold open_w. cbn [fs].
  assert (Hd : is_dir (mkdirs dir (fs w)) (path_join dir name) = true).
  { unfold is_dir, mkdirs in *. rewrite lookup_mkdirs, decide_False; [done|].
    intros [Hin|Hin]%elem_of_app.
    - apply strict_ancestors_length in Hin. unfold path_join in Hin.
      rewrite length_app in Hin. cbn in Hin. lia.
    - apply list_elem_of_singleton in Hin. apply (f_equal length) in Hin.
      unfold path_join in Hin. rewrite length_app in Hin. cbn in Hin. lia. }
  rewrite Hd. eauto.
Qed.

(** What a run of the builder leaves behind. *)
Lemma GenerateDataset_main_run (file__ : path) (w : world) :
  let dir := parent (GenerateDataset.OUTPUT file__) in
  results_writable dir "golden-qa.json" (fs w) = true ->
  GenerateDataset.main file__ w
  = (Ok tt,
     World (<[GenerateDataset.OUTPUT file__ := File (JsonArray GenerateDataset.data)]>
              (mkdirs dir (fs w)))
           (sent w)
           (stdout w ++ [Wrote 11 (GenerateDataset.OUTPUT file__)])).
Proof.
  intros dir Hw. subst dir. unfold GenerateDataset.main, GenerateDataset.OUTPUT in *.
  rewrite parent_path_join in *.
  rewrite prepare_results_then; [|apply path_join_nonempty|done].
  rewrite bind_run. unfold json_dump, print. cbn [fs sent stdout].
  by rewrite insert_insert_eq.
Qed.

Lemma GenerateDataset_main_ok (file__ : path) (w : world) :
  (GenerateDataset.main file__ w).1 = Ok tt ->
  results_writable (parent (GenerateDataset.OUTPUT file__)) "golden-qa.json" (fs w) = true.
Proof.
  intros H. apply not_false_iff_true. intros Hw.
  unfold GenerateDataset.main, GenerateDataset.OUTPUT in *. rewrite parent_path_join in *.
  edestruct (prepare_results_fail (A := unit)) as (e & w' & He); [exact Hw|].
  by rewrite He in H.
Qed.

Lemma GenerateDataset_artifact (file__ : path) (w : world) :
  (GenerateDataset.main file__ w).1 = Ok tt ->
  dataset_at (GenerateDataset.OUTPUT file__) (GenerateDataset.main file__ w).2
  = Some GenerateDataset.data.
Proof.
  intros H%GenerateDataset_main_ok. rewrite GenerateDataset_main_run by done.
  unfold dataset_at. cbn [snd fs]. by rewrite lookup_insert_eq.
Qed.

(** C5.  In every dataset the builder produces, the ids of the items are
    pairwise distinct and the category of every item is one of
    single_metric, growth_rate, trend, comparison, qualitative, hybrid,
    edge_cases. *)
Theorem C5_ids_unique_and_categories_closed (file__ : path) (w : world) :
  (GenerateDataset.main file__ w).1 = Ok tt ->
  exists items,
    dataset_at (GenerateDataset.OUTPUT file__) (GenerateDataset.main file__ w).2 = Some items /\
    Forall (fun d => is_Some (dict_lookup "id" d)) items /\
    NoDup (map (dict_lookup "id") items) /\
    Forall (fun d => exists c, dict_lookup "category" d = Some (VStr c) /\
                                c ∈ GenerateDataset.CATEGORIES) items.
Proof.
  intros H. exists GenerateDataset.data. split; [by apply GenerateDataset_artifact|].
  split; [|split].
  - repeat constructor; by eexists.
  - change (map (dict_lookup "id") GenerateDataset.data)
      with ((fun s => Some (VStr s)) <$>
            ["single_metric_1"; "single_metric_2"; "growth_1"; "growth_2"; "trend_1";
             "trend_2"; "comparison_1"; "qual_1"; "qual_2"; "hybrid_1"; "edge_1"]).
    apply NoDup_fmap_2; [by intros s1 s2 [= ->]|].
    apply (bool_decide_unpack _). by vm_compute.
  - repeat constructor; eexists; (split; [reflexivity|]);
      unfold GenerateDataset.CATEGORIES; apply (bool_decide_unpack _); by vm_compute.
Qed.

(** C9.  The builder is deterministic: whatever the worlds two invocations
    start from, when both end normally they leave the same sequence of QA
    Items in the artifact, equal in every id and field; and regenerating the
    dataset after a run that ended normally ends normally again and leaves
    the same items. *)
Theorem C9_builder_is_deterministic (file__ : path) (w1 w2 : world) :
  (GenerateDataset.main file__ w1).1 = Ok tt ->
  (GenerateDataset.main file__ w2).1 = Ok tt ->
  let out := GenerateDataset.OUTPUT file__ in
  let after1 := (GenerateDataset.main file__ w1).2 in
  let after2 := (GenerateDataset.main file__ w2).2 in
  dataset_at out after1 = Some GenerateDataset.data /\
  dataset_at out after1 = dataset_at out after2 /\
  (GenerateDataset.main file__ after1).1 = Ok tt /\
  dataset_at out (GenerateDataset.main file__ after1).2 = dataset_at out after1.
Proof.
  intros H1 H2 out after1 after2. subst out after1 after2.
  rewrite !GenerateDataset_artifact by done. split; [done|]. split; [done|].
  assert (H3 : (GenerateDataset.main file__ (GenerateDataset.main file__ w1).2).1 = Ok tt).
  { apply GenerateDataset_main_ok in H1.
    rewrite (GenerateDataset_main_run file__ w1 H1). cbn [snd].
    rewrite GenerateDataset_main_run; [done|]. cbn [fs].
    unfold GenerateDataset.OUTPUT in *. rewrite parent_path_join in *.
    set (dir := path_join (path_join _ "data") "evaluation") in *.
    unfold results_writable.
    assert (Hne : forall q, (length q <= length dir)%nat -> q <> path_join dir "golden-qa.json").
    { intros q Hq ->. unfold path_join in Hq. rewrite length_app in Hq. cbn in Hq. lia. }
    apply andb_true_iff. split; [apply andb_true_iff; split|]; apply negb_true_iff.
    - apply not_true_is_false. intros (q & Hq & Hf)%existsb_exists.
      apply list_elem_of_In in Hq. unfold is_file in Hf.
      rewrite lookup_insert_ne in Hf
        by (apply not_eq_sym, Hne; apply strict_ancestors_length in Hq; lia).
      unfold mkdirs in Hf. rewrite lookup_mkdirs, decide_True in Hf; [done|].
      apply elem_of_app. by left.
    - unfold is_file. rewrite lookup_insert_ne by (apply not_eq_sym, Hne; lia).
      unfold mkdirs. rewrite lookup_mkdirs, decide_True; [done|].
      apply elem_of_app. right. left.
    - unfold is_dir. rewrite lookup_insert_eq.
      rewrite bool_decide_false by apply path_join_nonempty. done. }
  split; [done|]. by rewrite GenerateDataset_artifact.
Qed.

(** * The claims that fail as stated, at concrete inputs *)

(** C1 as stated fails.  The builder's dataset, [--limit 2 --strategies
    baseline], and a service whose first request times out: of the two pairs
    to attempt only the first is attempted, the run ends with the client's
    exception, and the results file holds no record for the failed pair. *)
Lemma C1_counterexample :
  length (list_prod (CompareStrategies.select Scenario.limit_2_baseline GenerateDataset.data)
            (CompareStrategies.strategies_or_default Scenario.limit_2_baseline)) = 2%nat /\
  (CompareStrategies.main (Scenario.compare_cfg (Scenario.times_out_at 0))
     Scenario.limit_2_baseline (Scenario.with_dataset GenerateDataset.data)).1
  = Raise (ClientError "Timeout") /\
  records_at (CompareStrategies.out_file (Scenario.compare_cfg (Scenario.times_out_at 0)))
    (CompareStrategies.main (Scenario.compare_cfg (Scenario.times_out_at 0))
       Scenario.limit_2_baseline (Scenario.with_dataset GenerateDataset.data)).2
  = Some [] /\
  length (sent (CompareStrategies.main (Scenario.compare_cfg (Scenario.times_out_at 0))
                  Scenario.limit_2_baseline (Scenario.with_dataset GenerateDataset.data)).2)
  = 1%nat.
Proof. by vm_compute. Qed.

(** C2 as stated fails.  Two items, two strategies, and a service that
    cannot be reached, so that every request fails: the results file holds
    no record, not 2 x 2. *)
Lemma C2_counterexample :
  exists rs,
    records_at (CompareStrategies.out_file (Scenario.compare_cfg Scenario.refuses))
      (CompareStrategies.main (Scenario.compare_cfg Scenario.refuses)
         Scenario.two_strategies (Scenario.with_dataset Scenario.two_items)).2
    = Some rs /\
    length rs
    <> (length (CompareStrategies.select Scenario.two_strategies Scenario.two_items)
        * length (CompareStrategies.strategies_or_default Scenario.two_strategies))%nat.
Proof. exists []. by vm_compute. Qed.

(** C3 as stated fails.  With [--smoke --limit 2] on the builder's eleven
    items both runners select five items, not min(2, 11) = 2. *)
Lemma C3_counterexample :
  length (CompareStrategies.select Scenario.smoke_and_limit_2 GenerateDataset.data) = 5%nat /\
  length (RunRagas.select Scenario.ragas_smoke_and_limit_2 GenerateDataset.data) = 5%nat /\
  Nat.min 2 (length GenerateDataset.data) = 2%nat.
Proof. by vm_compute. Qed.

(** C4 as stated fails.  On the builder's dataset, with a service that
    answers every request: the RAGAS runner with [--categories qualitative]
    writes one record per qualitative item, two in all and none with a
    strategy field, not one per strategy; with [--limit 1] added it writes a
    record for one of the two qualitative items only; and the
    strategy-comparison runner, which has no category filter, writes records
    for items of other categories. *)
Lemma C4_counterexample :
  map (fun r => (dict_lookup "id" r, dict_lookup "strategy" r))
    (default []
       (records_at (RunRagas.out_file (Scenario.ragas_cfg (Scenario.answers 200 "ok")))
          (RunRagas.main (Scenario.ragas_cfg (Scenario.answers 200 "ok"))
             Scenario.qualitative_only (Scenario.with_dataset GenerateDataset.data)).2))
  = [(Some (VStr "qual_1"), None); (Some (VStr "qual_2"), None)] /\
  map (dict_lookup "id")
    (default []
       (records_at (RunRagas.out_file (Scenario.ragas_cfg (Scenario.answers 200 "ok")))
          (RunRagas.main (Scenario.ragas_cfg (Scenario.answers 200 "ok"))
             (Scenario.qualitative_limit 1) (Scenario.with_dataset GenerateDataset.data)).2))
  = [Some (VStr "qual_1")] /\
  (default []
     (records_at (CompareStrategies.out_file (Scenario.compare_cfg (Scenario.answers 200 "ok")))
        (CompareStrategies.main (Scenario.compare_cfg (Scenario.answers 200 "ok"))
           Scenario.two_strategies (Scenario.with_dataset GenerateDataset.data)).2))
  !! 0%nat
  = Some [ ("id", VStr "single_metric_1");
           ("question", VStr "What was NVDA's revenue in Q3 FY2024?");
           ("strategy", VStr "baseline");
           ("status", VInt 200);
           ("raw_response", VStr "ok") ].
Proof. by vm_compute. Qed.

(** C6 as stated fails.  One item, two strategies, and a service whose
    second request times out: the results file holds the record of the first
    pair only, not one record per pair of the product. *)
Lemma C6_counterexample :
  exists rs,
    records_at (CompareStrategies.out_file (Scenario.compare_cfg (Scenario.times_out_at 1)))
      (CompareStrategies.main (Scenario.compare_cfg (Scenario.times_out_at 1))
         Scenario.limit_1_two_strategies (Scenario.with_dataset GenerateDataset.data)).2
    = Some rs /\
    map record_key rs = [(Some (VStr "single_metric_1"), Some (VStr "baseline"))] /\
    map pair_key
      (list_prod (CompareStrategies.select Scenario.limit_1_two_strategies GenerateDataset.data)
         (CompareStrategies.strategies_or_default Scenario.limit_1_two_strategies))
    = [(Some (VStr "single_metric_1"), Some (VStr "baseline"));
       (Some (VStr "single_metric_1"), Some (VStr "hybrid-0.6"))].
Proof. eexists. by vm_compute. Qed.

(** C8 as stated fails.  In the strategy-comparison runner a response of
    status 500 gives a record whose [raw_response] is the error body and
    which has no [error] field. *)
Lemma C8_counterexample :
  (CompareStrategies.run_case (Scenario.compare_cfg (Scenario.answers 500 "Internal Server Error"))
     [("id", VStr "single_metric_1"); ("question", VStr "What was NVDA's revenue in Q3 FY2024?")]
     "baseline" Scenario.empty_world).1
  = Ok [ ("id", VStr "single_metric_1");
         ("question", VStr "What was NVDA's revenue in Q3 FY2024?");
         ("strategy", VStr "baseline");
         ("status", VInt 500);
         ("raw_response", VStr "Internal Server Error") ].
Proof. by vm_compute. Qed.

(** C10 as stated fails.  With [--categories qualitative --limit 0] the RAGAS
    runner selects both qualitative items of the builder's dataset, not the
    first min(0, 2) = 0 of them. *)
Lemma C10_counterexample :
  map (dict_lookup "id") (RunRagas.select (Scenario.qualitative_limit 0) GenerateDataset.data)
  = [Some (VStr "qual_1"); Some (VStr "qual_2")].
Proof. by vm_compute. Qed.

(** * The theorems at concrete inputs *)

(** C1 at work: against a service that answers every request with 503 the
    run over two items and two strategies ends normally; when the second
    request times out, the run ends with the client's exception. *)
Lemma C1_witness :
  dataset_at (CompareStrategies.DATASET_PATH (Scenario.compare_cfg (Scenario.answers 503 "Service Unavailable")))
    (Scenario.with_dataset Scenario.two_items) = Some Scenario.two_items /\
  results_writable (CompareStrategies.RESULTS_DIR (Scenario.compare_cfg (Scenario.answers 503 "Service Unavailable")))
    "strategy-compare.jsonl" (fs (Scenario.with_dataset Scenario.two_items)) = true /\
  (CompareStrategies.main (Scenario.compare_cfg (Scenario.answers 503 "Service Unavailable"))
     Scenario.two_strategies (Scenario.with_dataset Scenario.two_items)).1 = Ok tt /\
  (CompareStrategies.main (Scenario.compare_cfg (Scenario.times_out_at 1))
     Scenario.two_strategies (Scenario.with_dataset Scenario.two_items)).1
  = Raise (ClientError "Timeout").
Proof.
  split; [by vm_compute|]. split; [by vm_compute|]. split.
  - destruct (C1_http_error_recorded_transport_failure_ends_run
                (Scenario.compare_cfg (Scenario.answers 503 "Service Unavailable"))
                Scenario.two_strategies (Scenario.with_dataset Scenario.two_items)
                Scenario.two_items)
      as (rs & _ & _ & Hanswered & _); [by vm_compute|by vm_compute|].
    apply Hanswered; [|by vm_compute].
    intros n req. by exists 503, "Service Unavailable".
  - destruct (C1_http_error_recorded_transport_failure_ends_run
                (Scenario.compare_cfg (Scenario.times_out_at 1))
                Scenario.two_strategies (Scenario.with_dataset Scenario.two_items)
                Scenario.two_items)
      as (rs & _ & _ & _ & Hfailed); [by vm_compute|by vm_compute|].
    apply (Hfailed 1%nat
             (Request "http://localhost:3000/api/chat/stream"
                [("message", VStr "What was NVDA's revenue in Q3 FY2024?");
                 ("chatHistory", VList []); ("strategy", VStr "hybrid-0.6")])
             "Timeout"); by vm_compute.
Defined.

(** C2 at work: two items, two strategies, every request answered with an
    error response: four records. *)
Lemma C2_witness :
  dataset_at (CompareStrategies.DATASET_PATH (Scenario.compare_cfg (Scenario.answers 500 "Internal Server Error")))
    (Scenario.with_dataset Scenario.two_items) = Some Scenario.two_items /\
  results_writable (CompareStrategies.RESULTS_DIR (Scenario.compare_cfg (Scenario.answers 500 "Internal Server Error")))
    "strategy-compare.jsonl" (fs (Scenario.with_dataset Scenario.two_items)) = true /\
  exists rs,
    records_at (CompareStrategies.out_file (Scenario.compare_cfg (Scenario.answers 500 "Internal Server Error")))
      (CompareStrategies.main (Scenario.compare_cfg (Scenario.answers 500 "Internal Server Error"))
         Scenario.two_strategies (Scenario.with_dataset Scenario.two_items)).2 = Some rs /\
    length rs = 4%nat.
Proof.
  split; [by vm_compute|]. split; [by vm_compute|].
  destruct (C2_record_count_when_every_request_is_answered
              (Scenario.compare_cfg (Scenario.answers 500 "Internal Server Error"))
              Scenario.two_strategies (Scenario.with_dataset Scenario.two_items)
              Scenario.two_items)
    as (rs & Hrs & _ & Hanswered); [by vm_compute|by vm_compute|].
  exists rs. split; [exact Hrs|].
  destruct Hanswered as [_ Hlen]; [|by vm_compute|exact Hlen].
  intros n req. by exists 500, "Internal Server Error".
Defined.

(** C4 at work: the builder's dataset filtered to "qualitative". *)
Lemma C4_witness :
  dataset_at (RunRagas.DATASET_PATH (Scenario.ragas_cfg (Scenario.answers 200 "ok")))
    (Scenario.with_dataset GenerateDataset.data) = Some GenerateDataset.data /\
  results_writable (RunRagas.RESULTS_DIR (Scenario.ragas_cfg (Scenario.answers 200 "ok")))
    "ragas-run.jsonl" (fs (Scenario.with_dataset GenerateDataset.data)) = true /\
  RunRagas.categories Scenario.qualitative_only = Some ["qualitative"] /\
  exists rs,
    records_at (RunRagas.out_file (Scenario.ragas_cfg (Scenario.answers 200 "ok")))
      (RunRagas.main (Scenario.ragas_cfg (Scenario.answers 200 "ok"))
         Scenario.qualitative_only (Scenario.with_dataset GenerateDataset.data)).2 = Some rs /\
    Forall (fun r => dict_lookup "category" r = Some (VStr "qualitative") /\
                     dict_lookup "strategy" r = None) rs.
Proof.
  split; [by vm_compute|]. split; [by vm_compute|]. split; [reflexivity|].
  destruct (C4_category_filter_in_ragas_runner
              (Scenario.ragas_cfg (Scenario.answers 200 "ok"))
              Scenario.qualitative_only (Scenario.with_dataset GenerateDataset.data)
              GenerateDataset.data)
    as (rs & Hrs & Hall & _); [by vm_compute|by vm_compute|reflexivity|].
  exists rs. split; [exact Hrs|exact Hall].
Defined.

(** C5 at work: the builder run in a world with no file. *)
Lemma C5_witness :
  (GenerateDataset.main Scenario.builder_script Scenario.empty_world).1 = Ok tt /\
  exists items,
    dataset_at (GenerateDataset.OUTPUT Scenario.builder_script)
      (GenerateDataset.main Scenario.builder_script Scenario.empty_world).2 = Some items /\
    NoDup (map (dict_lookup "id") items).
Proof.
  split; [by vm_compute|].
  destruct (C5_ids_unique_and_categories_closed Scenario.builder_script Scenario.empty_world)
    as (items & Hitems & _ & Hnodup & _); [by vm_compute|].
  exists items. split; [exact Hitems|exact Hnodup].
Defined.

(** C6 at work: two items, two strategies, the fourth request times out. *)
Lemma C6_witness :
  dataset_at (CompareStrategies.DATASET_PATH (Scenario.compare_cfg (Scenario.times_out_at 3)))
    (Scenario.with_dataset Scenario.two_items) = Some Scenario.two_items /\
  results_writable (CompareStrategies.RESULTS_DIR (Scenario.compare_cfg (Scenario.times_out_at 3)))
    "strategy-compare.jsonl" (fs (Scenario.with_dataset Scenario.two_items)) = true /\
  exists rs,
    records_at (CompareStrategies.out_file (Scenario.compare_cfg (Scenario.times_out_at 3)))
      (CompareStrategies.main (Scenario.compare_cfg (Scenario.times_out_at 3))
         Scenario.two_strategies (Scenario.with_dataset Scenario.two_items)).2 = Some rs /\
    map record_key rs
    `prefix_of` [ (Some (VStr "single_metric_1"), Some (VStr "baseline"));
                  (Some (VStr "single_metric_1"), Some (VStr "hybrid-0.6"));
                  (Some (VStr "growth_1"), Some (VStr "baseline"));
                  (Some (VStr "growth_1"), Some (VStr "hybrid-0.6")) ].
Proof.
  split; [by vm_compute|]. split; [by vm_compute|].
  destruct (C6_records_follow_product_order
              (Scenario.compare_cfg (Scenario.times_out_at 3))
              Scenario.two_strategies (Scenario.with_dataset Scenario.two_items)
              Scenario.two_items)
    as (rs & Hrs & Hprefix & _); [by vm_compute|by vm_compute|].
  exists rs. split; [exact Hrs|exact Hprefix].
Defined.

(** C7 at work: both runners in a world with no file. *)
Lemma C7_witness :
  fs Scenario.empty_world
    !! CompareStrategies.DATASET_PATH (Scenario.compare_cfg (Scenario.answers 200 "ok")) = None /\
  CompareStrategies.main (Scenario.compare_cfg (Scenario.answers 200 "ok"))
    Scenario.two_strategies Scenario.empty_world
  = (Raise (FileNotFoundError
              "Dataset not found: /repo/_cleanup/data/evaluation/golden-qa.json"),
     Scenario.empty_world) /\
  RunRagas.main (Scenario.compare_cfg (Scenario.answers 200 "ok"))
    Scenario.qualitative_only Scenario.empty_world
  = (Raise (FileNotFoundError
              "Dataset not found: /repo/_cleanup/data/evaluation/golden-qa.json"),
     Scenario.empty_world).
Proof.
  split; [reflexivity|].
  apply (C7_missing_dataset_is_fatal
           (Scenario.compare_cfg (Scenario.answers 200 "ok"))
           Scenario.two_strategies Scenario.qualitative_only Scenario.empty_world).
  reflexivity.
Defined.

(** C8 at work: the RAGAS runner on the builder's dataset against a service
    that answers 404: every record has a null [raw_response]. *)
Lemma C8_witness :
  dataset_at (RunRagas.DATASET_PATH (Scenario.ragas_cfg (Scenario.answers 404 "Not Found")))
    (Scenario.with_dataset GenerateDataset.data) = Some GenerateDataset.data /\
  results_writable (RunRagas.RESULTS_DIR (Scenario.ragas_cfg (Scenario.answers 404 "Not Found")))
    "ragas-run.jsonl" (fs (Scenario.with_dataset GenerateDataset.data)) = true /\
  results_writable (CompareStrategies.RESULTS_DIR (Scenario.ragas_cfg (Scenario.answers 404 "Not Found")))
    "strategy-compare.jsonl" (fs (Scenario.with_dataset GenerateDataset.data)) = true /\
  exists rs,
    records_at (RunRagas.out_file (Scenario.ragas_cfg (Scenario.answers 404 "Not Found")))
      (RunRagas.main (Scenario.ragas_cfg (Scenario.answers 404 "Not Found"))
         Scenario.qualitative_only (Scenario.with_dataset GenerateDataset.data)).2 = Some rs /\
    forall k record, rs !! k = Some record ->
      dict_lookup "raw_response" record = Some VNone.
Proof.
  split; [by vm_compute|]. split; [by vm_compute|]. split; [by vm_compute|].
  destruct (C8_raw_response_and_error
              (Scenario.ragas_cfg (Scenario.answers 404 "Not Found"))
              Scenario.qualitative_only Scenario.two_strategies
              (Scenario.with_dataset GenerateDataset.data) GenerateDataset.data)
    as [(rs & Hrs & Hrecords) _]; [by vm_compute|by vm_compute|by vm_compute|].
  exists rs. split; [exact Hrs|].
  intros k record Hk.
  destruct (Hrecords k record Hk) as (req & status & text & _ & Hsrv & _ & Herror).
  injection Hsrv as <- <-. by apply Herror.
Defined.

(** C9 at work: the builder run in a world with no file and in a world that
    has another file. *)
Lemma C9_witness :
  (GenerateDataset.main Scenario.builder_script Scenario.empty_world).1 = Ok tt /\
  (GenerateDataset.main Scenario.builder_script
     (Scenario.with_dataset Scenario.two_items)).1 = Ok tt /\
  dataset_at (GenerateDataset.OUTPUT Scenario.builder_script)
    (GenerateDataset.main Scenario.builder_script Scenario.empty_world).2
  = dataset_at (GenerateDataset.OUTPUT Scenario.builder_script)
      (GenerateDataset.main Scenario.builder_script
         (Scenario.with_dataset Scenario.two_items)).2.
Proof.
  split; [by vm_compute|]. split; [by vm_compute|].
  destruct (C9_builder_is_deterministic Scenario.builder_script Scenario.empty_world
              (Scenario.with_dataset Scenario.two_items))
    as (_ & Hsame & _); [by vm_compute|by vm_compute|].
  exact Hsame.
Defined.

(** C10 at work: [--categories qualitative --limit 1] on the builder's
    dataset. *)
Lemma C10_witness :
  RunRagas.categories (Scenario.qualitative_limit 1) = Some ["qualitative"] /\
  RunRagas.select (Scenario.qualitative_limit 1) GenerateDataset.data
  = take 1 (List.filter (fun d => value_in (dict_get "category" d) ["qualitative"])
                        GenerateDataset.data).
Proof.
  split; [reflexivity|].
  destruct (C10_filter_then_slice (Scenario.qualitative_limit 1) "qualitative" []
              GenerateDataset.data eq_refl) as [_ Hlimit].
  destruct (Hlimit eq_refl 1 eq_refl) as [Hpos _].
  destruct Hpos as [Hsel _]; [lia|]. exact Hsel.
Defined.

(** * Further properties of the three scripts *)

(** ** Loops *)

Lemma written_app (effs1 effs2 : list effect) :
  written (effs1 ++ effs2) = written effs1 ++ written effs2.
Proof. apply omap_app. Qed.

Lemma requested_app (effs1 effs2 : list effect) :
  requested (effs1 ++ effs2) = requested effs1 ++ requested effs2.
Proof. apply omap_app. Qed.

Lemma printed_app (effs1 effs2 : list effect) :
  printed (effs1 ++ effs2) = printed effs1 ++ printed effs2.
Proof. apply omap_app. Qed.

(** A loop over [xs ++ ys] whose turns over [xs] all end normally goes on
    with [ys]. *)
Lemma run_effects_app {A} (step : nat -> A -> effect) (n : nat) (xs ys : list A) :
  effects_result (run_effects step n xs) = Ok tt ->
  run_effects step n (xs ++ ys)
  = run_effects step n xs
    ++ run_effects step (n + length (requested (run_effects step n xs))) ys.
Proof.
  revert n. induction xs as [|x xs IH]; intros n H.
  - cbn. by rewrite Nat.add_0_r.
  - cbn [app run_effects] in *. destruct (e_ok (step n x)) eqn:Hok.
    + rewrite effects_result_cons_ok in H by done. rewrite (IH _ H).
      rewrite requested_cons, length_app, Nat.add_assoc. done.
    + exfalso. unfold effects_result, e_ok in *. cbn in H.
      by destruct (e_end (step n x)).
Qed.

Lemma effects_result_stop (effs : list effect) (req : option request)
    (record : option dict) (e : exn) :
  effects_result (effs ++ [Effect req record (inr e)]) = Raise e.
Proof. unfold effects_result. by rewrite last_snoc. Qed.

Lemma list_prod_app {X Y} (l1 l2 : list X) (l : list Y) :
  list_prod (l1 ++ l2) l = list_prod l1 l ++ list_prod l2 l.
Proof.
  induction l1 as [|x l1 IH]; [done|]. cbn. by rewrite IH, app_assoc.
Qed.

(** ** The RAGAS runner: failures and records *)

Lemma RunRagas_transport_stops (cfg : config) (n : nat) (items : list dict)
    (j : nat) (req : request) (msg : string) :
  requested (run_effects (RunRagas.step cfg) n items) !! j = Some req ->
  service cfg (n + j) req = TransportError msg ->
  effects_result (run_effects (RunRagas.step cfg) n items) = Raise (ClientError msg) /\
  length (requested (run_effects (RunRagas.step cfg) n items)) = S j /\
  length (written (run_effects (RunRagas.step cfg) n items)) = j.
Proof.
  revert n j. induction items as [|item items IH]; intros n j; [done|].
  destruct (RunRagas_step_cases cfg n item)
    as [(q & i & status & text & Hq & Hi & Hs & [Hstep|[Hstep _]])|(r & e & Hstep & _)].
  - rewrite (run_effects_sent _ _ _ _ _ _ _ Hstep).
    rewrite effects_result_cons_ok, written_cons, requested_cons by done.
    cbn [e_written e_sent option_list app]. destruct j as [|j]; cbn [lookup list_lookup].
    + intros [= <-]. rewrite Nat.add_0_r. cbv zeta in Hs. congruence.
    + intros Hj Hsrv. replace (n + S j)%nat with (S n + j)%nat in Hsrv by lia.
      destruct (IH _ _ Hj Hsrv) as (H1 & H2 & H3). cbn. by rewrite H1, H2, H3.
  - rewrite (run_effects_stop _ _ _ _ _ _ _ Hstep), requested_cons.
    cbn [e_sent option_list app]. destruct j as [|j]; [|done].
    cbn [lookup list_lookup]. intros [= <-]. rewrite Nat.add_0_r. cbv zeta in Hs. congruence.
  - rewrite (run_effects_stop _ _ _ _ _ _ _ Hstep), requested_cons.
    unfold RunRagas.step in Hstep.
    destruct (dict_lookup "question" item) as [q|]; [|by injection Hstep as <- <-].
    destruct (service cfg n _) as [status text|msg'] eqn:Es.
    + destruct (dict_lookup "id" item); [done|]. injection Hstep as <- <-.
      destruct j; [|done]. cbn. intros [= <-]. rewrite Nat.add_0_r. congruence.
    + injection Hstep as <- <-. destruct j; [|done]. cbn. intros [= <-].
      rewrite Nat.add_0_r, Es. intros [= ->]. done.
Qed.

(** X1.  The RAGAS runner does not catch a transport-level failure either:
    when a request it sent meets one, the run ends with the client's
    exception, that request is the last one sent, and the results file holds
    one record for each request before it and none for the failed one. *)
Theorem X1_ragas_transport_failure_ends_run
    (cfg : config) (a : RunRagas.args) (w : world) (ds : list dict)
    (n : nat) (req : request) (msg : string) :
  dataset_at (RunRagas.DATASET_PATH cfg) w = Some ds ->
  results_writable (RunRagas.RESULTS_DIR cfg) "ragas-run.jsonl" (fs w) = true ->
  sent (RunRagas.main cfg a w).2 !! (length (sent w) + n)%nat = Some req ->
  service cfg (length (sent w) + n) req = TransportError msg ->
  (RunRagas.main cfg a w).1 = Raise (ClientError msg) /\
  length (sent (RunRagas.main cfg a w).2) = (length (sent w) + S n)%nat /\
  exists rs,
    records_at (RunRagas.out_file cfg) (RunRagas.main cfg a w).2 = Some rs /\
    length rs = n.
Proof.
  intros Hds Hw. rewrite (RunRagas_main_run cfg a w ds Hds Hw).
  set (effs := run_effects _ _ _). cbn [fst snd sent]. rewrite lookup_after.
  intros Hn Hsrv.
  destruct (RunRagas_transport_stops cfg _ _ n req msg Hn Hsrv) as (H1 & H2 & H3).
  fold effs in H1, H2, H3. split; [done|]. split; [by rewrite length_app, H2|].
  exists (written effs). split; [|done].
  unfold records_at. cbn [fs]. by rewrite lookup_insert_eq.
Qed.

(** X2.  Every record the RAGAS runner writes is the record of the selected
    item at its position: [id] and [question] are the item's, [category] and
    [expected_tool] are the item's or null when the item has none, and the
    one request sent for it carries the question as [message].  When the
    service answers every request and the items are well formed, the run ends
    normally with one request and one record per selected item. *)
Theorem X2_ragas_record_per_selected_item
    (cfg : config) (a : RunRagas.args) (w : world) (ds : list dict) :
  dataset_at (RunRagas.DATASET_PATH cfg) w = Some ds ->
  results_writable (RunRagas.RESULTS_DIR cfg) "ragas-run.jsonl" (fs w) = true ->
  exists rs,
    records_at (RunRagas.out_file cfg) (RunRagas.main cfg a w).2 = Some rs /\
    (forall k record, rs !! k = Some record ->
       exists item req,
         RunRagas.select a ds !! k = Some item /\
         sent (RunRagas.main cfg a w).2 !! (length (sent w) + k)%nat = Some req /\
         dict_lookup "message" (payload req) = dict_lookup "question" item /\
         dict_lookup "id" record = dict_lookup "id" item /\
         dict_lookup "question" record = dict_lookup "question" item /\
         dict_lookup "category" record = Some (dict_get "category" item) /\
         dict_lookup "expected_tool" record = Some (dict_get "expected_tool" item)) /\
    (responsive cfg -> forallb qa_item (RunRagas.select a ds) = true ->
       (RunRagas.main cfg a w).1 = Ok tt /\
       length rs = length (RunRagas.select a ds) /\
       length (sent (RunRagas.main cfg a w).2)
       = (length (sent w) + length (RunRagas.select a ds))%nat).
Proof.
  intros Hds Hw. rewrite (RunRagas_main_run cfg a w ds Hds Hw).
  set (effs := run_effects _ _ _). cbn [fst snd sent].
  exists (written effs). split; [|split].
  - unfold records_at. cbn [fs]. by rewrite lookup_insert_eq.
  - intros k record Hk.
    apply RunRagas_written_lookup in Hk
      as (item & q & i & status & text & Hitem & Hq & Hi & Hreq & _ & ->).
    eexists item, _. rewrite lookup_after.
    split; [done|]. split; [exact Hreq|]. cbn. by rewrite Hq, Hi.
  - intros Hsrv Hqa.
    destruct (RunRagas_responsive_run cfg (length (sent w)) _ Hsrv Hqa) as (H1 & H2 & H3).
    fold effs in H1, H2, H3. by rewrite length_app, H3.
Qed.

(** ** Items that lack a key *)

Lemma strategies_or_default_nonempty (a : CompareStrategies.args) :
  exists s ss, CompareStrategies.strategies_or_default a = s :: ss.
Proof.
  unfold CompareStrategies.strategies_or_default.
  destruct (CompareStrategies.strategies a) as [[|s ss]|]; eauto.
Qed.

(** The turn of an item that lacks a key, in the strategy-comparison
    runner. *)
Lemma CompareStrategies_turn_without_question (cfg : config) (n : nat) (bad : dict)
    (s : string) (ps : list (dict * string)) :
  dict_lookup "question" bad = None ->
  run_effects (CompareStrategies.step cfg) n ((bad, s) :: ps)
  = [Effect None None (inr (KeyError "question"))].
Proof.
  intros Hnone. apply run_effects_stop. unfold CompareStrategies.step. by rewrite Hnone.
Qed.

Lemma CompareStrategies_turn_without_id (cfg : config) (n : nat) (bad : dict)
    (s : string) (ps : list (dict * string)) :
  responsive cfg ->
  is_Some (dict_lookup "question" bad) ->
  dict_lookup "id" bad = None ->
  exists req,
    run_effects (CompareStrategies.step cfg) n ((bad, s) :: ps)
    = [Effect (Some req) None (inr (KeyError "id"))].
Proof.
  intros Hsrv [q Hsome] Hnone. eexists. apply run_effects_stop.
  unfold CompareStrategies.step. rewrite Hsome, Hnone.
  match goal with
  | |- context [service cfg n ?req] => destruct (Hsrv n req) as (st & tx & ->)
  end.
  reflexivity.
Qed.

(** X3.  The strategy-comparison runner checks no item before the loop: an
    item that lacks a key ends the run only when its turn comes, after the
    records of the items before it are written.  An item without a
    [question] ends the run with [KeyError] before any request is sent for
    it; an item with a [question] but no [id] ends it with [KeyError] after
    one request was sent for it, whose response is dropped. *)
Theorem X3_compare_item_without_key_ends_run_at_its_turn
    (cfg : config) (a : CompareStrategies.args) (w : world) (ds : list dict)
    (good rest : list dict) (bad : dict) :
  dataset_at (CompareStrategies.DATASET_PATH cfg) w = Some ds ->
  results_writable (CompareStrategies.RESULTS_DIR cfg) "strategy-compare.jsonl" (fs w) = true ->
  responsive cfg ->
  CompareStrategies.select a ds = good ++ bad :: rest ->
  forallb has_id_and_question good = true ->
  let before := (length good * length (CompareStrategies.strategies_or_default a))%nat in
  (dict_lookup "question" bad = None ->
     (CompareStrategies.main cfg a w).1 = Raise (KeyError "question") /\
     length (sent (CompareStrategies.main cfg a w).2) = (length (sent w) + before)%nat /\
     exists rs,
       records_at (CompareStrategies.out_file cfg) (CompareStrategies.main cfg a w).2
       = Some rs /\ length rs = before) /\
  (is_Some (dict_lookup "question" bad) -> dict_lookup "id" bad = None ->
     (CompareStrategies.main cfg a w).1 = Raise (KeyError "id") /\
     length (sent (CompareStrategies.main cfg a w).2) = (length (sent w) + before + 1)%nat /\
     exists rs,
       records_at (CompareStrategies.out_file cfg) (CompareStrategies.main cfg a w).2
       = Some rs /\ length rs = before).
Proof.
  intros Hds Hw Hsrv Hsel Hgood before.
  rewrite (CompareStrategies_main_run cfg a w ds Hds Hw), Hsel, list_prod_app.
  destruct (strategies_or_default_nonempty a) as (s & ss & Hs).
  destruct (CompareStrategies_responsive_run cfg (length (sent w))
              (list_prod good (CompareStrategies.strategies_or_default a)) Hsrv)
    as (H1 & H2 & H3); [by apply items_of_pairs|].
  rewrite run_effects_app by exact H1. rewrite H3.
  set (effs1 := run_effects _ _ (list_prod good _)) in *.
  rewrite length_prod in H2, H3. fold before in H2, H3.
  assert (Hbad : exists ps,
             list_prod (bad :: rest) (CompareStrategies.strategies_or_default a)
             = (bad, s) :: ps).
  { rewrite Hs. cbn. eauto. }
  destruct Hbad as (ps & ->). rewrite length_prod. fold before.
  cbn [fst snd sent]. split.
  - intros Hnone. rewrite (CompareStrategies_turn_without_question _ _ _ _ _ Hnone).
    rewrite written_app, requested_app, effects_result_stop, !length_app. cbn.
    split; [done|]. split; [lia|].
    eexists. split; [unfold records_at; cbn [fs]; by rewrite lookup_insert_eq|].
    rewrite length_app. cbn. lia.
  - intros Hsome Hnone.
    destruct (CompareStrategies_turn_without_id cfg (length (sent w) + before) bad s ps
                Hsrv Hsome Hnone) as (req & ->).
    rewrite written_app, requested_app, effects_result_stop, !length_app. cbn.
    split; [done|]. split; [lia|].
    eexists. split; [unfold records_at; cbn [fs]; by rewrite lookup_insert_eq|].
    rewrite length_app. cbn. lia.
Qed.

(** The turn of a malformed item in the RAGAS runner. *)
Lemma RunRagas_turn_without_question (cfg : config) (n : nat) (bad : dict)
    (items : list dict) :
  dict_lookup "question" bad = None ->
  run_effects (RunRagas.step cfg) n (bad :: items)
  = [Effect None None (inr (KeyError "question"))].
Proof.
  intros Hnone. apply run_effects_stop. unfold RunRagas.step. by rewrite Hnone.
Qed.

Lemma RunRagas_turn_unsliceable_question (cfg : config) (n : nat) (bad : dict)
    (items : list dict) (q : value) :
  responsive cfg ->
  dict_lookup "question" bad = Some q ->
  is_Some (dict_lookup "id" bad) ->
  (q = VNone \/ exists k, q = VInt k) ->
  exists req record,
    run_effects (RunRagas.step cfg) n (bad :: items)
    = [Effect (Some req) (Some record) (inr TypeError)] /\
    dict_lookup "id" record = dict_lookup "id" bad.
Proof.
  intros Hsrv Hq [i Hi] Hbad.
  match type of Hsrv with
  | _ => destruct (Hsrv n (Request (RunRagas.API_BASE cfg +:+ "/api/chat/stream")
                             [("message", q); ("chatHistory", VList [])]))
           as (st & tx & Hr)
  end.
  eexists _, _. split.
  - apply run_effects_stop. unfold RunRagas.step. rewrite Hq, Hi, Hr.
    destruct Hbad as [->|[k ->]]; reflexivity.
  - cbn. by rewrite Hi.
Qed.

(** X4.  The RAGAS runner checks no item before the loop either.  An item
    without a [question] ends the run with [KeyError] at its turn, before
    any request is sent for it.  An item whose [question] is null or a number
    ends it with [TypeError], raised by the slice in the progress line: by
    then its request has been sent and its record written, so the record
    stays in the results file. *)
Theorem X4_ragas_malformed_item_ends_run_at_its_turn
    (cfg : config) (a : RunRagas.args) (w : world) (ds : list dict)
    (good rest : list dict) (bad : dict) :
  dataset_at (RunRagas.DATASET_PATH cfg) w = Some ds ->
  results_writable (RunRagas.RESULTS_DIR cfg) "ragas-run.jsonl" (fs w) = true ->
  responsive cfg ->
  RunRagas.select a ds = good ++ bad :: rest ->
  forallb qa_item good = true ->
  (dict_lookup "question" bad = None ->
     (RunRagas.main cfg a w).1 = Raise (KeyError "question") /\
     length (sent (RunRagas.main cfg a w).2) = (length (sent w) + length good)%nat /\
     exists rs,
       records_at (RunRagas.out_file cfg) (RunRagas.main cfg a w).2 = Some rs /\
       length rs = length good) /\
  (forall q, dict_lookup "question" bad = Some q ->
     (q = VNone \/ exists k, q = VInt k) ->
     is_Some (dict_lookup "id" bad) ->
     (RunRagas.main cfg a w).1 = Raise TypeError /\
     length (sent (RunRagas.main cfg a w).2) = (length (sent w) + length good + 1)%nat /\
     exists rs record,
       records_at (RunRagas.out_file cfg) (RunRagas.main cfg a w).2 = Some (rs ++ [record]) /\
       length rs = length good /\
       dict_lookup "id" record = dict_lookup "id" bad).
Proof.
  intros Hds Hw Hsrv Hsel Hgood.
  rewrite (RunRagas_main_run cfg a w ds Hds Hw), Hsel.
  destruct (RunRagas_responsive_run cfg (length (sent w)) good Hsrv Hgood) as (H1 & H2 & H3).
  rewrite run_effects_app by exact H1. rewrite H3.
  set (effs1 := run_effects _ _ good) in *. cbn [fst snd sent]. split.
  - intros Hnone. rewrite (RunRagas_turn_without_question _ _ _ _ Hnone).
    rewrite written_app, requested_app, effects_result_stop, !length_app. cbn.
    split; [done|]. split; [lia|].
    eexists. split; [unfold records_at; cbn [fs]; by rewrite lookup_insert_eq|].
    rewrite length_app. cbn. lia.
  - intros q Hq Hbad Hid.
    destruct (RunRagas_turn_unsliceable_question cfg (length (sent w) + length good)
                bad rest q Hsrv Hq Hid Hbad) as (req & record & -> & Hrec).
    rewrite written_app, requested_app, effects_result_stop, !length_app. cbn.
    split; [done|]. split; [lia|].
    exists (written effs1), record.
    split; [unfold records_at; cbn [fs]; by rewrite lookup_insert_eq|]. done.
Qed.

(** ** What is printed *)

(** Each turn of the strategy-comparison loop that writes a record prints
    its progress line, and no other turn prints. *)
Lemma CompareStrategies_printed_written (cfg : config) (n : nat) (pairs : list (dict * string)) :
  Forall2 (fun l record =>
             exists i strat status,
               l = Progress i strat (VInt status) /\
               dict_lookup "id" record = Some i /\
               dict_lookup "strategy" record = Some (VStr strat) /\
               dict_lookup "status" record = Some (VInt status))
          (printed (run_effects (CompareStrategies.step cfg) n pairs))
          (written (run_effects (CompareStrategies.step cfg) n pairs)).
Proof.
  revert n. induction pairs as [|[item strat] ps IH]; intros n; [constructor|].
  destruct (CompareStrategies_step_cases cfg n item strat)
    as [(q & i & status & text & Hq & Hi & _ & Hs)|(r & e & Hs)].
  - rewrite (run_effects_sent _ _ _ _ _ _ _ Hs). unfold printed, written in *. cbn.
    constructor; [|apply IH]. by exists i, strat, status.
  - rewrite (run_effects_stop _ _ _ _ _ _ _ Hs). constructor.
Qed.

(** X5.  The strategy-comparison runner prints one progress line per record
    written, in the order of the records and naming the record's id,
    strategy and status, and nothing else but the closing "Saved comparison
    results" line, which it prints exactly when the run ends normally. *)
Theorem X5_compare_progress_lines_match_records
    (cfg : config) (a : CompareStrategies.args) (w : world) (ds : list dict) :
  dataset_at (CompareStrategies.DATASET_PATH cfg) w = Some ds ->
  results_writable (CompareStrategies.RESULTS_DIR cfg) "strategy-compare.jsonl" (fs w) = true ->
  exists rs lines,
    records_at (CompareStrategies.out_file cfg) (CompareStrategies.main cfg a w).2 = Some rs /\
    stdout (CompareStrategies.main cfg a w).2
    = stdout w ++ lines
      ++ match (CompareStrategies.main cfg a w).1 with
         | Ok _ => [SavedComparison (CompareStrategies.out_file cfg)]
         | Raise _ => []
         end /\
    Forall2 (fun l record =>
               exists i strat status,
                 l = Progress i strat (VInt status) /\
                 dict_lookup "id" record = Some i /\
                 dict_lookup "strategy" record = Some (VStr strat) /\
                 dict_lookup "status" record = Some (VInt status))
            lines rs.
Proof.
  intros Hds Hw. rewrite (CompareStrategies_main_run cfg a w ds Hds Hw).
  set (effs := run_effects _ _ _). cbn [fst snd stdout].
  exists (written effs), (printed effs). split; [|split; [done|]].
  - unfold records_at. cbn [fs]. by rewrite lookup_insert_eq.
  - apply CompareStrategies_printed_written.
Qed.

(** ** The results directory cannot be written *)

(** When the directory cannot be created or the file not opened, the
    exception is one of three, no request is sent, nothing is printed, and
    the file system is as before but for directories created on the way. *)
Lemma prepare_results_fail_frame {A} (dir : path) (name : string) (empty : file)
    (w : world) (k : M A) :
  results_writable dir name (fs w) = false ->
  exists e w',
    (mkdir_parents dir ;; open_w (path_join dir name) empty ;; k) w = (Raise e, w') /\
    (e = NotADirectoryError \/ e = FileExistsError \/ e = IsADirectoryError) /\
    sent w' = sent w /\ stdout w' = stdout w /\
    (fs w' = fs w \/ fs w' = mkdirs dir (fs w)).
Proof.
  intros Hw. rewrite bind_run. unfold mkdir_parents, results_writable in *.
  destruct (existsb (is_file (fs w)) (strict_ancestors dir)).
  { eexists _, _. split; [done|]. auto 10. }
  destruct (is_file (fs w) dir).
  { eexists _, _. split; [done|]. auto 10. }
  cbn [negb andb] in Hw. apply negb_false_iff in Hw.
  rewrite bind_run. unfold open_w. cbn [fs].
  assert (Hd : is_dir (mkdirs dir (fs w)) (path_join dir name) = true).
  { unfold is_dir, mkdirs in *. rewrite lookup_mkdirs, decide_False; [done|].
    intros [Hin|Hin]%elem_of_app.
    - apply strict_ancestors_length in Hin. unfold path_join in Hin.
      rewrite length_app in Hin. cbn in Hin. lia.
    - apply list_elem_of_singleton in Hin. apply (f_equal length) in Hin.
      unfold path_join in Hin. rewrite length_app in Hin. cbn in Hin. lia. }
  rewrite Hd. eexists _, _. split; [done|]. cbn. auto 10.
Qed.

(** X6.  When the results directory cannot be created (a component of its
    path is a regular file) or the results file cannot be opened (its path is
    a directory), either runner ends with [NotADirectoryError],
    [FileExistsError] or [IsADirectoryError] before the loop: no request is
    sent and nothing is printed. *)
Theorem X6_results_path_failure_is_fatal_before_any_request
    (cfg : config) (a : CompareStrategies.args) (a' : RunRagas.args)
    (w : world) (ds : list dict) :
  dataset_at (CompareStrategies.DATASET_PATH cfg) w = Some ds ->
  (results_writable (CompareStrategies.RESULTS_DIR cfg) "strategy-compare.jsonl" (fs w) = false ->
     exists e,
       (CompareStrategies.main cfg a w).1 = Raise e /\
       (e = NotADirectoryError \/ e = FileExistsError \/ e = IsADirectoryError) /\
       sent (CompareStrategies.main cfg a w).2 = sent w /\
       stdout (CompareStrategies.main cfg a w).2 = stdout w) /\
  (results_writable (RunRagas.RESULTS_DIR cfg) "ragas-run.jsonl" (fs w) = false ->
     exists e,
       (RunRagas.main cfg a' w).1 = Raise e /\
       (e = NotADirectoryError \/ e = FileExistsError \/ e = IsADirectoryError) /\
       sent (RunRagas.main cfg a' w).2 = sent w /\
       stdout (RunRagas.main cfg a' w).2 = stdout w).
Proof.
  intros Hds. split; intros Hw.
  - unfold CompareStrategies.main. rewrite (load_dataset _ _ _ _ _ Hds).
    unfold CompareStrategies.out_file.
    edestruct (prepare_results_fail_frame (A := unit)) as (e & w' & Heq & He & Hs & Ho & _);
      [exact Hw|].
    rewrite Heq. exists e. done.
  - unfold RunRagas.main.
    change (RunRagas.DATASET_PATH cfg) with (CompareStrategies.DATASET_PATH cfg).
    rewrite (load_dataset _ _ _ _ _ Hds).
    unfold RunRagas.out_file.
    edestruct (prepare_results_fail_frame (A := unit)) as (e & w' & Heq & He & Hs & Ho & _);
      [exact Hw|].
    rewrite Heq. exists e. done.
Qed.

(** ** The dataset path *)

(** X7.  When the path of the dataset artifact is a directory, [exists()]
    is true, so the "Dataset not found" error is not raised; opening the path
    then fails and either runner ends with [IsADirectoryError], the world
    left as it was. *)
Theorem X7_dataset_path_is_a_directory
    (cfg : config) (a : CompareStrategies.args) (a' : RunRagas.args) (w : world) :
  fs w !! CompareStrategies.DATASET_PATH cfg = Some Dir ->
  CompareStrategies.main cfg a w = (Raise IsADirectoryError, w) /\
  RunRagas.main cfg a' w = (Raise IsADirectoryError, w).
Proof.
  intros H.
  assert (Hex : path_exists (CompareStrategies.DATASET_PATH cfg) w = (Ok true, w)).
  { unfold path_exists. rewrite H.
    rewrite (bool_decide_true (is_Some _)) by done. by rewrite orb_true_r. }
  split.
  - unfold CompareStrategies.main. rewrite bind_run, Hex. cbn [negb].
    rewrite bind_run. unfold mret at 1, M_ret at 1. rewrite bind_run.
    unfold json_load. by rewrite H.
  - unfold RunRagas.main.
    change (RunRagas.DATASET_PATH cfg) with (CompareStrategies.DATASET_PATH cfg).
    rewrite bind_run, Hex. cbn [negb].
    rewrite bind_run. unfold mret at 1, M_ret at 1. rewrite bind_run.
    unfold json_load. by rewrite H.
Qed.

Lemma load_dataset_fail (p : path) (w : world) (msg : string) {A} (k : list dict -> M A) :
  dataset_at p w = None ->
  exists e,
    (ex ← path_exists p;
     (if negb ex then raise (FileNotFoundError msg) else mret tt) ;;
     dataset ← json_load p;
     k dataset) w
    = (Raise e, w).
Proof.
  unfold dataset_at. intros H. rewrite bind_run. unfold path_exists, json_load.
  destruct (fs w !! p) as [[|[items|]]|] eqn:E; try done.
  - rewrite (bool_decide_true (is_Some _)) by done. rewrite orb_true_r. cbn [negb].
    rewrite bind_run. unfold mret at 1, M_ret at 1. rewrite bind_run, E. eauto.
  - rewrite (bool_decide_true (is_Some _)) by done. rewrite orb_true_r. cbn [negb].
    rewrite bind_run. unfold mret at 1, M_ret at 1. rewrite bind_run, E. eauto.
  - rewrite (bool_decide_false (is_Some _)) by (by intros [? ?]). rewrite orb_false_r.
    destruct (bool_decide (p = [])); cbn [negb].
    + rewrite bind_run. unfold mret at 1, M_ret at 1. rewrite bind_run, E. eauto.
    + rewrite bind_run. unfold raise. eauto.
Qed.

(** A path outside the results directory chain and other than the results
    file is not touched by creating the one and opening the other. *)
Lemma lookup_outside_results (dir : path) (name : string) (c : file)
    (m : gmap path node) (p : path) :
  p <> path_join dir name ->
  p ∉ strict_ancestors dir ++ [dir] ->
  (<[path_join dir name := File c]> (mkdirs dir m)) !! p = m !! p /\
  mkdirs dir m !! p = m !! p.
Proof.
  intros Hne Hnot. rewrite lookup_insert_ne by done. unfold mkdirs.
  by rewrite lookup_mkdirs, decide_False.
Qed.

(** X8.  A runner touches nothing in the file system but its results file
    and the directories leading to it: every other path holds after the run
    what it held before, however the run ends.  In particular the dataset
    artifact is never modified. *)
Theorem X8_runners_touch_only_the_results_path
    (cfg : config) (a : CompareStrategies.args) (a' : RunRagas.args) (w : world) :
  (forall p,
     p <> CompareStrategies.out_file cfg ->
     p ∉ strict_ancestors (CompareStrategies.RESULTS_DIR cfg)
         ++ [CompareStrategies.RESULTS_DIR cfg] ->
     fs (CompareStrategies.main cfg a w).2 !! p = fs w !! p) /\
  (forall p,
     p <> RunRagas.out_file cfg ->
     p ∉ strict_ancestors (RunRagas.RESULTS_DIR cfg) ++ [RunRagas.RESULTS_DIR cfg] ->
     fs (RunRagas.main cfg a' w).2 !! p = fs w !! p) /\
  fs (CompareStrategies.main cfg a w).2 !! CompareStrategies.DATASET_PATH cfg
  = fs w !! CompareStrategies.DATASET_PATH cfg /\
  fs (RunRagas.main cfg a' w).2 !! RunRagas.DATASET_PATH cfg
  = fs w !! RunRagas.DATASET_PATH cfg.
Proof.
  assert (H1 : forall p,
     p <> CompareStrategies.out_file cfg ->
     p ∉ strict_ancestors (CompareStrategies.RESULTS_DIR cfg)
         ++ [CompareStrategies.RESULTS_DIR cfg] ->
     fs (CompareStrategies.main cfg a w).2 !! p = fs w !! p).
  { intros p Hne Hnot.
    destruct (dataset_at (CompareStrategies.DATASET_PATH cfg) w) as [ds|] eqn:Hds.
    - destruct (results_writable (CompareStrategies.RESULTS_DIR cfg)
                  "strategy-compare.jsonl" (fs w)) eqn:Hw.
      + rewrite (CompareStrategies_main_run cfg a w ds Hds Hw). cbn [snd fs].
        by apply lookup_outside_results.
      + unfold CompareStrategies.main. rewrite (load_dataset _ _ _ _ _ Hds).
        unfold CompareStrategies.out_file.
        edestruct (prepare_results_fail_frame (A := unit))
          as (e & w' & Heq & _ & _ & _ & [Hfs|Hfs]); [exact Hw| |];
          rewrite Heq; cbn [snd]; rewrite Hfs; [done|].
        by apply (lookup_outside_results _ "strategy-compare.jsonl" (JsonLines [])).
    - unfold CompareStrategies.main.
      edestruct (fun msg k => @load_dataset_fail (CompareStrategies.DATASET_PATH cfg)
                                w msg unit k Hds) as (e & Heq).
      by rewrite Heq. }
  assert (H2 : forall p,
     p <> RunRagas.out_file cfg ->
     p ∉ strict_ancestors (RunRagas.RESULTS_DIR cfg) ++ [RunRagas.RESULTS_DIR cfg] ->
     fs (RunRagas.main cfg a' w).2 !! p = fs w !! p).
  { intros p Hne Hnot.
    destruct (dataset_at (RunRagas.DATASET_PATH cfg) w) as [ds|] eqn:Hds.
    - destruct (results_writable (RunRagas.RESULTS_DIR cfg) "ragas-run.jsonl" (fs w)) eqn:Hw.
      + rewrite (RunRagas_main_run cfg a' w ds Hds Hw). cbn [snd fs].
        by apply lookup_outside_results.
      + unfold RunRagas.main. rewrite (load_dataset _ _ _ _ _ Hds).
        unfold RunRagas.out_file.
        edestruct (prepare_results_fail_frame (A := unit))
          as (e & w' & Heq & _ & _ & _ & [Hfs|Hfs]); [exact Hw| |];
          rewrite Heq; cbn [snd]; rewrite Hfs; [done|].
        by apply (lookup_outside_results _ "ragas-run.jsonl" (JsonLines [])).
    - unfold RunRagas.main.
      edestruct (fun msg k => @load_dataset_fail (RunRagas.DATASET_PATH cfg)
                                w msg unit k Hds) as (e & Heq).
      by rewrite Heq. }
  split; [exact H1|]. split; [exact H2|]. split.
  - apply H1.
    + unfold CompareStrategies.out_file, CompareStrategies.DATASET_PATH,
        CompareStrategies.RESULTS_DIR, path_join.
      intros Heq%(f_equal length). rewrite !length_app in Heq. cbn in Heq. lia.
    + unfold CompareStrategies.DATASET_PATH, CompareStrategies.RESULTS_DIR.
      intros [Hin|Hin]%elem_of_app.
      * apply strict_ancestors_length in Hin. unfold path_join in Hin.
        rewrite !length_app in Hin. cbn in Hin. lia.
      * apply list_elem_of_singleton in Hin. unfold path_join in Hin.
        apply app_inj_tail in Hin as [_ Hin]. done.
  - apply H2.
    + unfold RunRagas.out_file, RunRagas.DATASET_PATH, RunRagas.RESULTS_DIR, path_join.
      intros Heq%(f_equal length). rewrite !length_app in Heq. cbn in Heq. lia.
    + unfold RunRagas.DATASET_PATH, RunRagas.RESULTS_DIR.
      intros [Hin|Hin]%elem_of_app.
      * apply strict_ancestors_length in Hin. unfold path_join in Hin.
        rewrite !length_app in Hin. cbn in Hin. lia.
      * apply list_elem_of_singleton in Hin. unfold path_join in Hin.
        apply app_inj_tail in Hin as [_ Hin]. done.
Qed.

(** ** The results file is overwritten *)

(** X9.  What a runner leaves in its results file, and how the run ends,
    depend on the dataset, the command line, the service and the number of
    requests sent before, and on nothing else in the world: records left by
    an earlier run are gone, the file being opened for writing anew. *)
Theorem X9_results_do_not_depend_on_earlier_results
    (cfg : config) (a : CompareStrategies.args) (a' : RunRagas.args)
    (w1 w2 : world) (ds : list dict) :
  dataset_at (CompareStrategies.DATASET_PATH cfg) w1 = Some ds ->
  dataset_at (CompareStrategies.DATASET_PATH cfg) w2 = Some ds ->
  length (sent w1) = length (sent w2) ->
  (results_writable (CompareStrategies.RESULTS_DIR cfg) "strategy-compare.jsonl" (fs w1) = true ->
   results_writable (CompareStrategies.RESULTS_DIR cfg) "strategy-compare.jsonl" (fs w2) = true ->
     (CompareStrategies.main cfg a w1).1 = (CompareStrategies.main cfg a w2).1 /\
     records_at (CompareStrategies.out_file cfg) (CompareStrategies.main cfg a w1).2
     = records_at (CompareStrategies.out_file cfg) (CompareStrategies.main cfg a w2).2) /\
  (results_writable (RunRagas.RESULTS_DIR cfg) "ragas-run.jsonl" (fs w1) = true ->
   results_writable (RunRagas.RESULTS_DIR cfg) "ragas-run.jsonl" (fs w2) = true ->
     (RunRagas.main cfg a' w1).1 = (RunRagas.main cfg a' w2).1 /\
     records_at (RunRagas.out_file cfg) (RunRagas.main cfg a' w1).2
     = records_at (RunRagas.out_file cfg) (RunRagas.main cfg a' w2).2).
Proof.
  intros Hds1 Hds2 Hlen. split; intros Hw1 Hw2.
  - rewrite (CompareStrategies_main_run cfg a w1 ds Hds1 Hw1).
    rewrite (CompareStrategies_main_run cfg a w2 ds Hds2 Hw2).
    rewrite Hlen. cbn [fst snd]. split; [done|].
    unfold records_at. cbn [fs]. by rewrite !lookup_insert_eq.
  - rewrite (RunRagas_main_run cfg a' w1 ds Hds1 Hw1).
    rewrite (RunRagas_main_run cfg a' w2 ds Hds2 Hw2).
    rewrite Hlen. cbn [fst snd]. split; [done|].
    unfold records_at. cbn [fs]. by rewrite !lookup_insert_eq.
Qed.

(** ** The requests *)

Lemma CompareStrategies_requested_shape (cfg : config) (n : nat)
    (pairs : list (dict * string)) :
  Forall (fun req =>
            url req = CompareStrategies.API_BASE cfg +:+ "/api/chat/stream" /\
            exists item strat q,
              (item, strat) ∈ pairs /\ dict_lookup "question" item = Some q /\
              payload req = [("message", q); ("chatHistory", VList []);
                             ("strategy", VStr strat)])
         (requested (run_effects (CompareStrategies.step cfg) n pairs)).
Proof.
  revert n. induction pairs as [|[item strat] ps IH]; intros n; [constructor|].
  cbn [run_effects]. rewrite requested_cons. apply Forall_app. split.
  - unfold CompareStrategies.step.
    destruct (dict_lookup "question" item) as [q|] eqn:Eq; [|constructor].
    assert (Hreq : forall e, e_sent e = Some
              (Request (CompareStrategies.API_BASE cfg +:+ "/api/chat/stream")
                 [("message", q); ("chatHistory", VList []); ("strategy", VStr strat)]) ->
            Forall (fun req =>
              url req = CompareStrategies.API_BASE cfg +:+ "/api/chat/stream" /\
              exists item0 strat0 q0,
                (item0, strat0) ∈ (item, strat) :: ps /\
                dict_lookup "question" item0 = Some q0 /\
                payload req = [("message", q0); ("chatHistory", VList []);
                               ("strategy", VStr strat0)])
              (option_list (e_sent e))).
    { intros e ->. constructor; [|constructor]. split; [done|].
      exists item, strat, q. split; [left|done]. }
    destruct (service cfg n _) as [status text|msg]; [|by apply Hreq].
    destruct (dict_lookup "id" item); by apply Hreq.
  - destruct (e_ok _); [|constructor].
    eapply Forall_impl; [apply IH|].
    intros req (Hurl & i0 & s0 & q & Hin & Hq & Hp). split; [done|].
    exists i0, s0, q. split; [by right|done].
Qed.

Lemma RunRagas_requested_shape (cfg : config) (n : nat) (items : list dict) :
  Forall (fun req =>
            url req = RunRagas.API_BASE cfg +:+ "/api/chat/stream" /\
            exists item q,
              item ∈ items /\ dict_lookup "question" item = Some q /\
              payload req = [("message", q); ("chatHistory", VList [])])
         (requested (run_effects (RunRagas.step cfg) n items)).
Proof.
  revert n. induction items as [|item items IH]; intros n; [constructor|].
  cbn [run_effects]. rewrite requested_cons. apply Forall_app. split.
  - unfold RunRagas.step.
    destruct (dict_lookup "question" item) as [q|] eqn:Eq; [|constructor].
    assert (Hreq : forall e, e_sent e = Some
              (Request (RunRagas.API_BASE cfg +:+ "/api/chat/stream")
                 [("message", q); ("chatHistory", VList [])]) ->
            Forall (fun req =>
              url req = RunRagas.API_BASE cfg +:+ "/api/chat/stream" /\
              exists item0 q0,
                item0 ∈ item :: items /\ dict_lookup "question" item0 = Some q0 /\
                payload req = [("message", q0); ("chatHistory", VList [])])
              (option_list (e_sent e))).
    { intros e ->. constructor; [|constructor]. split; [done|].
      exists item, q. split; [left|done]. }
    destruct (service cfg n _) as [status text|msg]; [|by apply Hreq].
    destruct (dict_lookup "id" item); by apply Hreq.
  - destruct (e_ok _); [|constructor].
    eapply Forall_impl; [apply IH|].
    intros req (Hurl & i0 & q & Hin & Hq & Hp). split; [done|].
    exists i0, q. split; [by right|done].
Qed.

(** X10.  Every request a runner sends goes to [<API_BASE>/api/chat/stream],
    where [API_BASE] is the environment variable of that name or
    [http://localhost:3000] when it is not set.  Its body holds the question
    of a selected item as [message] and an empty [chatHistory]; the
    strategy-comparison runner adds [strategy], one of the strategies of the
    run, and the RAGAS runner sends no strategy at all. *)
Theorem X10_requests_sent_by_the_runners
    (cfg : config) (a : CompareStrategies.args) (a' : RunRagas.args)
    (w : world) (ds : list dict) :
  dataset_at (CompareStrategies.DATASET_PATH cfg) w = Some ds ->
  results_writable (CompareStrategies.RESULTS_DIR cfg) "strategy-compare.jsonl" (fs w) = true ->
  results_writable (RunRagas.RESULTS_DIR cfg) "ragas-run.jsonl" (fs w) = true ->
  let base := default "http://localhost:3000" (environ cfg !! "API_BASE") in
  (exists new,
     sent (CompareStrategies.main cfg a w).2 = sent w ++ new /\
     Forall (fun req =>
               url req = base +:+ "/api/chat/stream" /\
               exists item strat q,
                 item ∈ CompareStrategies.select a ds /\
                 strat ∈ CompareStrategies.strategies_or_default a /\
                 dict_lookup "question" item = Some q /\
                 payload req = [("message", q); ("chatHistory", VList []);
                                ("strategy", VStr strat)]) new) /\
  (exists new,
     sent (RunRagas.main cfg a' w).2 = sent w ++ new /\
     Forall (fun req =>
               url req = base +:+ "/api/chat/stream" /\
               exists item q,
                 item ∈ RunRagas.select a' ds /\
                 dict_lookup "question" item = Some q /\
                 payload req = [("message", q); ("chatHistory", VList [])]) new).
Proof.
  intros Hds Hw Hw' base. split.
  - rewrite (CompareStrategies_main_run cfg a w ds Hds Hw). cbn [snd sent].
    eexists. split; [done|].
    eapply Forall_impl; [apply CompareStrategies_requested_shape|].
    intros req (Hurl & item & strat & q & Hin & Hq & Hp). split; [exact Hurl|].
    apply list_elem_of_In, in_prod_iff in Hin as [Hi Hs].
    exists item, strat, q. by rewrite !list_elem_of_In.
  - rewrite (RunRagas_main_run cfg a' w ds Hds Hw'). cbn [snd sent].
    eexists. split; [done|]. apply RunRagas_requested_shape.
Qed.

(** ** Slices and filters *)

Lemma py_slice_to_prefix {X} (n : Z) (l : list X) : py_slice_to n l `prefix_of` l.
Proof. unfold py_slice_to. destruct (0 <=? n); apply prefix_take. Qed.

Lemma CompareStrategies_select_prefix (a : CompareStrategies.args) (ds : list dict) :
  CompareStrategies.select a ds `prefix_of` ds.
Proof.
  unfold CompareStrategies.select.
  destruct (CompareStrategies.smoke a); [apply py_slice_to_prefix|].
  destruct (CompareStrategies.limit a) as [n|]; [|done].
  destruct (n =? 0); [done|apply py_slice_to_prefix].
Qed.

(** X11.  The smoke and limit flags only ever cut the dataset to a prefix,
    and never fail: the items selected by the strategy-comparison runner are
    a prefix of the dataset whatever the flags; a limit at or beyond the size
    of the dataset (and smoke mode on at most five items) selects all of it;
    a negative limit N drops the last |N| items, so one at or beyond the size
    selects nothing; a limit of 0 selects everything. *)
Theorem X11_compare_selection_is_a_prefix (a : CompareStrategies.args) (ds : list dict) :
  CompareStrategies.select a ds `prefix_of` ds /\
  (CompareStrategies.smoke a = true -> (length ds <= 5)%nat ->
     CompareStrategies.select a ds = ds) /\
  (CompareStrategies.smoke a = false -> forall N, CompareStrategies.limit a = Some N ->
     (Z.of_nat (length ds) <= N -> CompareStrategies.select a ds = ds) /\
     (N = 0 -> CompareStrategies.select a ds = ds) /\
     (N < 0 -> CompareStrategies.select a ds
               = take (length ds - Z.to_nat (- N))%nat ds) /\
     (N <= - Z.of_nat (length ds) -> N <> 0 -> CompareStrategies.select a ds = [])) /\
  (CompareStrategies.smoke a = false -> CompareStrategies.limit a = None ->
     CompareStrategies.select a ds = ds).
Proof.
  split; [apply CompareStrategies_select_prefix|].
  unfold CompareStrategies.select. split; [|split].
  - intros -> Hlen. rewrite py_slice_to_nonneg by lia. apply take_ge. lia.
  - intros -> N ->. split; [|split; [|split]].
    + intros HN. destruct (N =? 0); [done|].
      rewrite py_slice_to_nonneg by lia. apply take_ge. lia.
    + by intros ->.
    + intros HN. rewrite (proj2 (Z.eqb_neq N 0)) by lia. by apply py_slice_to_neg.
    + intros HN Hne. rewrite (proj2 (Z.eqb_neq N 0)) by lia.
      rewrite py_slice_to_neg by lia.
      replace (length ds - Z.to_nat (- N))%nat with 0%nat by lia. done.
  - by intros -> ->.
Qed.

Lemma prefix_is_sublist {X} (l1 l2 : list X) : l1 `prefix_of` l2 -> l1 `sublist_of` l2.
Proof. intros [k ->]. by apply sublist_inserts_r. Qed.

Lemma filter_sublist {X} (f : X -> bool) (l : list X) : List.filter f l `sublist_of` l.
Proof.
  induction l as [|x l IH]; [constructor|]. cbn.
  destruct (f x); [by apply sublist_skip|by apply sublist_cons].
Qed.

Lemma select_in_categories (a : RunRagas.args) (c : string) (cs : list string)
    (ds : list dict) (item : dict) :
  RunRagas.categories a = Some (c :: cs) ->
  item ∈ RunRagas.select a ds ->
  exists s, dict_lookup "category" item = Some (VStr s) /\ s ∈ c :: cs.
Proof.
  intros Hc Hin. unfold RunRagas.select, RunRagas.filter_categories in Hin.
  rewrite Hc in Hin.
  apply slice_subseteq, list_elem_of_In, filter_In in Hin as [_ Hin].
  unfold value_in, dict_get in Hin.
  destruct (dict_lookup "category" item) as [[| |s|]|]; try done.
  exists s. split; [done|].
  apply list_elem_of_In. apply existsb_exists in Hin as (x & Hx & ->%String.eqb_eq). done.
Qed.

Lemma RunRagas_select_sublist (a : RunRagas.args) (ds : list dict) :
  RunRagas.select a ds `sublist_of` ds.
Proof.
  unfold RunRagas.select. etransitivity.
  - apply prefix_is_sublist. unfold RunRagas.slice.
    destruct (RunRagas.smoke a); [apply py_slice_to_prefix|].
    destruct (RunRagas.limit a) as [n|]; [|done].
    destruct (n =? 0); [done|apply py_slice_to_prefix].
  - unfold RunRagas.filter_categories.
    destruct (RunRagas.categories a) as [[|c cs]|]; [done| |done].
    apply filter_sublist.
Qed.

(** X12.  With a category filter the RAGAS runner only selects items whose
    [category] is a string among the requested ones; an item without a
    category, or whose category is not a string, is left out without an
    error.  The selected items keep the order they have in the dataset, and
    every record written carries one of the requested categories.  Without a
    filter no item is left out for its category. *)
Theorem X12_ragas_category_filter
    (cfg : config) (a : RunRagas.args) (w : world) (ds : list dict) :
  dataset_at (RunRagas.DATASET_PATH cfg) w = Some ds ->
  results_writable (RunRagas.RESULTS_DIR cfg) "ragas-run.jsonl" (fs w) = true ->
  RunRagas.select a ds `sublist_of` ds /\
  (forall c cs, RunRagas.categories a = Some (c :: cs) ->
     Forall (fun item => exists s, dict_lookup "category" item = Some (VStr s) /\ s ∈ c :: cs)
            (RunRagas.select a ds) /\
     exists rs,
       records_at (RunRagas.out_file cfg) (RunRagas.main cfg a w).2 = Some rs /\
       Forall (fun r => exists s, dict_lookup "category" r = Some (VStr s) /\ s ∈ c :: cs) rs) /\
  (RunRagas.categories a = None \/ RunRagas.categories a = Some [] ->
     RunRagas.select a ds = RunRagas.slice a ds).
Proof.
  intros Hds Hw. split; [apply RunRagas_select_sublist|]. split.
  - intros c cs Hc. split.
    + apply Forall_forall. intros item Hin. by apply (select_in_categories a c cs ds).
    + rewrite (RunRagas_main_run cfg a w ds Hds Hw). cbn [snd].
      eexists. split; [unfold records_at; cbn [fs]; by rewrite lookup_insert_eq|].
      apply Forall_lookup. intros k record Hk.
      apply RunRagas_written_lookup in Hk
        as (item & q & i & status & text & Hitem & _ & _ & _ & _ & ->).
      apply list_elem_of_lookup_2 in Hitem.
      destruct (select_in_categories a c cs ds item Hc Hitem) as (s & Hs & Hin).
      exists s. split; [|done]. cbn. unfold dict_get. by rewrite Hs.
  - unfold RunRagas.select, RunRagas.filter_categories. by intros [->| ->].
Qed.

(** ** Nothing selected *)

(** X13.  When no item is selected (an empty dataset, a filter that matches
    nothing, a negative limit beyond the size), either runner ends normally
    without sending a request: it creates the results directory, leaves an
    empty results file and prints its closing line only. *)
Theorem X13_empty_selection_leaves_an_empty_results_file
    (cfg : config) (a : CompareStrategies.args) (a' : RunRagas.args)
    (w : world) (ds : list dict) :
  dataset_at (CompareStrategies.DATASET_PATH cfg) w = Some ds ->
  (results_writable (CompareStrategies.RESULTS_DIR cfg) "strategy-compare.jsonl" (fs w) = true ->
   CompareStrategies.select a ds = [] ->
     CompareStrategies.main cfg a w
     = (Ok tt,
        World (<[CompareStrategies.out_file cfg := File (JsonLines [])]>
                 (mkdirs (CompareStrategies.RESULTS_DIR cfg) (fs w)))
              (sent w)
              (stdout w ++ [SavedComparison (CompareStrategies.out_file cfg)]))) /\
  (results_writable (RunRagas.RESULTS_DIR cfg) "ragas-run.jsonl" (fs w) = true ->
   RunRagas.select a' ds = [] ->
     RunRagas.main cfg a' w
     = (Ok tt,
        World (<[RunRagas.out_file cfg := File (JsonLines [])]>
                 (mkdirs (RunRagas.RESULTS_DIR cfg) (fs w)))
              (sent w)
              (stdout w ++ [Saved (RunRagas.out_file cfg)]))).
Proof.
  intros Hds. split; intros Hw Hsel.
  - rewrite (CompareStrategies_main_run cfg a w ds Hds Hw), Hsel. cbn.
    by rewrite app_nil_r.
  - rewrite (RunRagas_main_run cfg a' w ds Hds Hw), Hsel. cbn.
    by rewrite app_nil_r.
Qed.

(** ** The default strategies *)

(** X14.  Run without a strategy list, or with an empty one, the
    strategy-comparison runner compares the three strategies "baseline",
    "dense-only" and "hybrid-0.6": a run that ends normally writes three
    records per selected item, in that order. *)
Theorem X14_default_strategies
    (cfg : config) (a : CompareStrategies.args) (w : world) (ds : list dict) :
  dataset_at (CompareStrategies.DATASET_PATH cfg) w = Some ds ->
  results_writable (CompareStrategies.RESULTS_DIR cfg) "strategy-compare.jsonl" (fs w) = true ->
  CompareStrategies.strategies a = None \/ CompareStrategies.strategies a = Some [] ->
  (CompareStrategies.main cfg a w).1 = Ok tt ->
  exists rs,
    records_at (CompareStrategies.out_file cfg) (CompareStrategies.main cfg a w).2 = Some rs /\
    map record_key rs
    = flat_map (fun item =>
                  [ (dict_lookup "id" item, Some (VStr "baseline"));
                    (dict_lookup "id" item, Some (VStr "dense-only"));
                    (dict_lookup "id" item, Some (VStr "hybrid-0.6")) ])
               (CompareStrategies.select a ds) /\
    length rs = (3 * length (CompareStrategies.select a ds))%nat.
Proof.
  intros Hds Hw Hs. rewrite (CompareStrategies_main_run cfg a w ds Hds Hw). cbn [fst snd].
  assert (Hdef : CompareStrategies.strategies_or_default a
                 = ["baseline"; "dense-only"; "hybrid-0.6"]).
  { unfold CompareStrategies.strategies_or_default. by destruct Hs as [-> | ->]. }
  rewrite Hdef. intros Hok%CompareStrategies_written_all.
  eexists. split; [unfold records_at; cbn [fs]; by rewrite lookup_insert_eq|].
  assert (Hkeys : map pair_key (list_prod (CompareStrategies.select a ds)
                                  ["baseline"; "dense-only"; "hybrid-0.6"])
                  = flat_map (fun item =>
                      [ (dict_lookup "id" item, Some (VStr "baseline"));
                        (dict_lookup "id" item, Some (VStr "dense-only"));
                        (dict_lookup "id" item, Some (VStr "hybrid-0.6")) ])
                      (CompareStrategies.select a ds)).
  { clear. induction (CompareStrategies.select a ds) as [|x xs IH]; [done|].
    cbn. by rewrite <- IH. }
  split; [by rewrite Hok, Hkeys|].
  apply (f_equal length) in Hok. rewrite !length_map, length_prod in Hok.
  rewrite Hok. cbn. lia.
Qed.

(** ** The dataset builder: what it touches *)

Lemma GenerateDataset_main_fail (file__ : path) (w : world) :
  results_writable (parent (GenerateDataset.OUTPUT file__)) "golden-qa.json" (fs w) = false ->
  exists e w',
    GenerateDataset.main file__ w = (Raise e, w') /\
    (e = NotADirectoryError \/ e = FileExistsError \/ e = IsADirectoryError) /\
    sent w' = sent w /\ stdout w' = stdout w /\
    (fs w' = fs w \/ fs w' = mkdirs (parent (GenerateDataset.OUTPUT file__)) (fs w)).
Proof.
  intros Hw. unfold GenerateDataset.main, GenerateDataset.OUTPUT in *.
  rewrite parent_path_join in *.
  edestruct (prepare_results_fail_frame (A := unit)) as (e & w' & Heq & H); [exact Hw|].
  rewrite Heq. eauto.
Qed.

Lemma GenerateDataset_frame (file__ : path) (w : world) (p : path) :
  p <> GenerateDataset.OUTPUT file__ ->
  p ∉ strict_ancestors (parent (GenerateDataset.OUTPUT file__))
      ++ [parent (GenerateDataset.OUTPUT file__)] ->
  fs (GenerateDataset.main file__ w).2 !! p = fs w !! p.
Proof.
  intros Hne Hnot.
  destruct (results_writable (parent (GenerateDataset.OUTPUT file__)) "golden-qa.json" (fs w))
    eqn:Hw.
  - rewrite (GenerateDataset_main_run file__ w Hw). cbn [snd fs].
    rewrite lookup_insert_ne by done. unfold mkdirs.
    by rewrite lookup_mkdirs, decide_False.
  - destruct (GenerateDataset_main_fail file__ w Hw) as (e & w' & -> & _ & _ & _ & [Hfs|Hfs]);
      cbn [snd]; rewrite Hfs; [done|].
    unfold mkdirs. by rewrite lookup_mkdirs, decide_False.
Qed.

(** X15.  The builder writes its artifact whole or not at all, and touches
    nothing else.  When it ends normally the artifact holds the eleven items,
    its directory exists, and the one line printed reports eleven items and
    the path; when it fails nothing is printed and whatever was at the
    artifact's path is still there.  Either way no request is sent, and every
    path other than the artifact and the directories leading to it holds what
    it held before. *)
Theorem X15_builder_writes_its_artifact_or_nothing (file__ : path) (w : world) :
  let out := GenerateDataset.OUTPUT file__ in
  let run := GenerateDataset.main file__ w in
  sent run.2 = sent w /\
  (forall p, p <> out -> p ∉ strict_ancestors (parent out) ++ [parent out] ->
     fs run.2 !! p = fs w !! p) /\
  (run.1 = Ok tt ->
     dataset_at out run.2 = Some GenerateDataset.data /\
     stdout run.2 = stdout w ++ [Wrote 11 out] /\
     is_dir (fs run.2) (parent out) = true) /\
  (run.1 <> Ok tt ->
     fs run.2 !! out = fs w !! out /\
     stdout run.2 = stdout w).
Proof.
  intros out run. subst out run. split; [|split; [|split]].
  - destruct (results_writable (parent (GenerateDataset.OUTPUT file__)) "golden-qa.json" (fs w))
      eqn:Hw.
    + by rewrite (GenerateDataset_main_run file__ w Hw).
    + by destruct (GenerateDataset_main_fail file__ w Hw) as (e & w' & -> & _ & Hs & _).
  - intros p. apply GenerateDataset_frame.
  - intros Hok. pose proof (GenerateDataset_main_ok file__ w Hok) as Hw.
    rewrite (GenerateDataset_main_run file__ w Hw). cbn [snd fs stdout].
    split; [unfold dataset_at; cbn [fs]; by rewrite lookup_insert_eq|]. split; [done|].
    unfold is_dir. rewrite lookup_insert_ne.
    + unfold mkdirs. rewrite lookup_mkdirs, decide_True; [apply orb_true_r|].
      apply elem_of_app. right. left.
    + unfold GenerateDataset.OUTPUT. rewrite parent_path_join. unfold path_join.
      intros Heq%(f_equal length). rewrite !length_app in Heq. cbn in Heq. lia.
  - intros Hno.
    destruct (results_writable (parent (GenerateDataset.OUTPUT file__)) "golden-qa.json" (fs w))
      eqn:Hw.
    + exfalso. apply Hno. by rewrite (GenerateDataset_main_run file__ w Hw).
    + destruct (GenerateDataset_main_fail file__ w Hw)
        as (e & w' & -> & _ & _ & Ho & [Hfs|Hfs]); cbn [snd]; rewrite Hfs; [done|].
      split; [|done]. unfold mkdirs. rewrite lookup_mkdirs, decide_False; [done|].
      unfold GenerateDataset.OUTPUT. rewrite parent_path_join.
      intros [Hin|Hin]%elem_of_app.
      * apply strict_ancestors_length in Hin. unfold path_join in Hin.
        rewrite !length_app in Hin. cbn in Hin. lia.
      * apply list_elem_of_singleton in Hin. apply (f_equal length) in Hin.
        unfold path_join in Hin. rewrite !length_app in Hin. cbn in Hin. lia.
Qed.

(** ** The builder and the runners together *)

Lemma forallb_sublist {X} (f : X -> bool) (l1 l2 : list X) :
  l1 `sublist_of` l2 -> forallb f l2 = true -> forallb f l1 = true.
Proof.
  rewrite !forallb_forall. intros Hsub H x Hin%list_elem_of_In.
  apply H, list_elem_of_In. by eapply sublist_subseteq.
Qed.

Lemma qa_item_has_id_and_question (d : dict) :
  qa_item d = true -> has_id_and_question d = true.
Proof.
  unfold qa_item, has_id_and_question.
  destruct (dict_lookup "id" d); [|done]. by destruct (dict_lookup "question" d).
Qed.

(** Every entry [build_entry] makes can be read by both runners. *)
Lemma build_entry_qa_item (id_ question category : string) (ticker : option string)
    (expected_tool : option (list string)) (difficulty ground_truth : option string) :
  qa_item (GenerateDataset.build_entry id_ question category ticker expected_tool
             difficulty ground_truth) = true.
Proof. reflexivity. Qed.

Lemma data_qa_items : forallb qa_item GenerateDataset.data = true.
Proof. reflexivity. Qed.

(** X16.  The artifact the builder writes is a dataset both runners accept.
    When the builder and a runner sit in the same directory (so that the
    builder's output path is the runner's dataset path), a runner started
    after the builder ended normally, against a service that answers every
    request, ends normally too: the strategy-comparison runner with one
    record per selected item and strategy, the RAGAS runner with one record
    per selected item. *)
Theorem X16_runners_accept_the_builders_artifact
    (builder : path) (cfg : config) (a : CompareStrategies.args) (a' : RunRagas.args)
    (w : world) :
  parent (parent (parent builder)) = parent (parent (parent (file__ cfg))) ->
  (GenerateDataset.main builder w).1 = Ok tt ->
  responsive cfg ->
  let built := (GenerateDataset.main builder w).2 in
  (results_writable (CompareStrategies.RESULTS_DIR cfg) "strategy-compare.jsonl" (fs built) = true ->
     (CompareStrategies.main cfg a built).1 = Ok tt /\
     exists rs,
       records_at (CompareStrategies.out_file cfg) (CompareStrategies.main cfg a built).2
       = Some rs /\
       length rs = (length (CompareStrategies.select a GenerateDataset.data)
                    * length (CompareStrategies.strategies_or_default a))%nat) /\
  (results_writable (RunRagas.RESULTS_DIR cfg) "ragas-run.jsonl" (fs built) = true ->
     (RunRagas.main cfg a' built).1 = Ok tt /\
     exists rs,
       records_at (RunRagas.out_file cfg) (RunRagas.main cfg a' built).2 = Some rs /\
       length rs = length (RunRagas.select a' GenerateDataset.data)).
Proof.
  intros Hbase Hok Hsrv built.
  assert (Hds : dataset_at (CompareStrategies.DATASET_PATH cfg) built
                = Some GenerateDataset.data).
  { subst built. rewrite <- (GenerateDataset_artifact builder w Hok).
    unfold CompareStrategies.DATASET_PATH, GenerateDataset.OUTPUT. by rewrite Hbase. }
  split; intros Hw.
  - rewrite (CompareStrategies_main_run cfg a built _ Hds Hw). cbn [fst snd].
    destruct (CompareStrategies_responsive_run cfg (length (sent built))
                (list_prod (CompareStrategies.select a GenerateDataset.data)
                           (CompareStrategies.strategies_or_default a)) Hsrv)
      as (H1 & H2 & _).
    { apply items_of_pairs.
      apply (forallb_sublist _ _ GenerateDataset.data).
      - apply prefix_is_sublist, CompareStrategies_select_prefix.
      - apply forallb_forall. intros d Hd. apply qa_item_has_id_and_question.
        revert d Hd. apply forallb_forall, data_qa_items. }
    split; [exact H1|].
    eexists. split; [unfold records_at; cbn [fs]; by rewrite lookup_insert_eq|].
    by rewrite H2, length_prod.
  - rewrite (RunRagas_main_run cfg a' built _ Hds Hw). cbn [fst snd].
    destruct (RunRagas_responsive_run cfg (length (sent built))
                (RunRagas.select a' GenerateDataset.data) Hsrv) as (H1 & H2 & _).
    { apply (forallb_sublist _ _ GenerateDataset.data);
        [apply RunRagas_select_sublist|apply data_qa_items]. }
    split; [exact H1|].
    eexists. split; [unfold records_at; cbn [fs]; by rewrite lookup_insert_eq|]. done.
Qed.

Lemma missing_dataset_raises (cfg : config) (a : CompareStrategies.args)
    (a' : RunRagas.args) (w : world) :
  fs w !! CompareStrategies.DATASET_PATH cfg = None ->
  CompareStrategies.main cfg a w
  = (Raise (FileNotFoundError
              ("Dataset not found: " +:+ path_str (CompareStrategies.DATASET_PATH cfg))), w) /\
  RunRagas.main cfg a' w
  = (Raise (FileNotFoundError
              ("Dataset not found: " +:+ path_str (RunRagas.DATASET_PATH cfg))), w).
Proof.
  intros H.
  assert (Hex : path_exists (CompareStrategies.DATASET_PATH cfg) w = (Ok false, w)).
  { unfold path_exists. rewrite H.
    rewrite bool_decide_false by apply path_join_nonempty.
    rewrite bool_decide_false by (by intros [? ?]). done. }
  split.
  - unfold CompareStrategies.main. by rewrite bind_run, Hex.
  - unfold RunRagas.main.
    change (RunRagas.DATASET_PATH cfg) with (CompareStrategies.DATASET_PATH cfg).
    by rewrite bind_run, Hex.
Qed.

Lemma parent3_snoc3 (root : path) (x y z : string) :
  parent (parent (parent (root ++ [x; y; z]))) = root.
Proof.
  change (root ++ [x; y; z]) with (root ++ [x] ++ [y] ++ [z]).
  rewrite !app_assoc.
  change (parent (parent (parent (path_join (path_join (path_join root x) y) z))) = root).
  by rewrite !parent_path_join.
Qed.

(** X17.  With the scripts placed as in the repository, the builder under
    [<root>/scripts/evaluation] and the runners under
    [<root>/_cleanup/scripts/evaluation], the builder writes
    [<root>/data/evaluation/golden-qa.json] while the runners read
    [<root>/_cleanup/data/evaluation/golden-qa.json].  So running the builder
    does not provide the runners' dataset: when no file is at the runners'
    dataset path before, a runner started after the builder still ends with
    "Dataset not found". *)
Theorem X17_builder_and_runners_use_different_dataset_paths
    (root : path) (builder_name runner_name : string) (builder : path) (cfg : config)
    (a : CompareStrategies.args) (a' : RunRagas.args) (w : world) :
  builder = root ++ ["scripts"; "evaluation"; builder_name] ->
  file__ cfg = root ++ ["_cleanup"; "scripts"; "evaluation"; runner_name] ->
  fs w !! CompareStrategies.DATASET_PATH cfg = None ->
  GenerateDataset.OUTPUT builder = root ++ ["data"; "evaluation"; "golden-qa.json"] /\
  CompareStrategies.DATASET_PATH cfg
  = root ++ ["_cleanup"; "data"; "evaluation"; "golden-qa.json"] /\
  RunRagas.DATASET_PATH cfg = CompareStrategies.DATASET_PATH cfg /\
  (CompareStrategies.main cfg a (GenerateDataset.main builder w).2).1
  = Raise (FileNotFoundError
             ("Dataset not found: " +:+ path_str (CompareStrategies.DATASET_PATH cfg))) /\
  (RunRagas.main cfg a' (GenerateDataset.main builder w).2).1
  = Raise (FileNotFoundError
             ("Dataset not found: " +:+ path_str (RunRagas.DATASET_PATH cfg))).
Proof.
  intros -> Hcfg Hnone.
  assert (Hout : GenerateDataset.OUTPUT (root ++ ["scripts"; "evaluation"; builder_name])
                 = root ++ ["data"; "evaluation"; "golden-qa.json"]).
  { unfold GenerateDataset.OUTPUT. rewrite parent3_snoc3. unfold path_join.
    by rewrite <- !app_assoc. }
  assert (Hin : CompareStrategies.DATASET_PATH cfg
                = root ++ ["_cleanup"; "data"; "evaluation"; "golden-qa.json"]).
  { unfold CompareStrategies.DATASET_PATH. rewrite Hcfg.
    change (root ++ ["_cleanup"; "scripts"; "evaluation"; runner_name])
      with (root ++ ["_cleanup"] ++ ["scripts"; "evaluation"; runner_name]).
    rewrite app_assoc, parent3_snoc3. unfold path_join. by rewrite <- !app_assoc. }
  split; [exact Hout|]. split; [exact Hin|]. split; [reflexivity|].
  assert (Hstill : fs (GenerateDataset.main (root ++ ["scripts"; "evaluation"; builder_name]) w).2
                     !! CompareStrategies.DATASET_PATH cfg = None).
  { rewrite GenerateDataset_frame; [exact Hnone| |].
    - rewrite Hout, Hin. intros Heq%(f_equal length).
      rewrite !length_app in Heq. cbn in Heq. lia.
    - rewrite Hin. unfold GenerateDataset.OUTPUT. rewrite parent_path_join.
      intros [H|H]%elem_of_app.
      + apply strict_ancestors_length in H. rewrite parent3_snoc3 in H.
        unfold path_join in H. rewrite !length_app in H. cbn in H. lia.
      + apply list_elem_of_singleton in H. apply (f_equal length) in H.
        rewrite parent3_snoc3 in H. unfold path_join in H.
        rewrite !length_app in H. cbn in H. lia. }
  destruct (missing_dataset_raises cfg a a' _ Hstill) as [-> ->]. done.
Qed.

(** ** Entries made by [build_entry], through the RAGAS runner *)

(** X18.  Whatever its arguments, an entry made by [build_entry] is an item
    the RAGAS runner accepts, and its labels reach the results file: run over
    a dataset of such entries against a service that answers every request,
    the runner ends normally with one record per selected item, and each
    record carries the entry's id, question and category and, as
    [expected_tool], the entry's list of tools, which is empty when the
    argument was left out, [None] or an empty list. *)
Theorem X18_labels_of_build_entry_reach_the_records
    (cfg : config) (a : RunRagas.args) (w : world) (ds : list dict) :
  Forall (fun d => exists id_ question category ticker expected_tool difficulty ground_truth,
            d = GenerateDataset.build_entry id_ question category ticker expected_tool
                  difficulty ground_truth) ds ->
  dataset_at (RunRagas.DATASET_PATH cfg) w = Some ds ->
  results_writable (RunRagas.RESULTS_DIR cfg) "ragas-run.jsonl" (fs w) = true ->
  responsive cfg ->
  (RunRagas.main cfg a w).1 = Ok tt /\
  exists rs,
    records_at (RunRagas.out_file cfg) (RunRagas.main cfg a w).2 = Some rs /\
    length rs = length (RunRagas.select a ds) /\
    forall k record, rs !! k = Some record ->
      exists id_ question category ticker expected_tool difficulty ground_truth,
        RunRagas.select a ds !! k
        = Some (GenerateDataset.build_entry id_ question category ticker expected_tool
                  difficulty ground_truth) /\
        dict_lookup "id" record = Some (VStr id_) /\
        dict_lookup "question" record = Some (VStr question) /\
        dict_lookup "category" record = Some (VStr category) /\
        dict_lookup "expected_tool" record
        = Some (VList (map VStr (default [] expected_tool))).
Proof.
  intros Hbuilt Hds Hw Hsrv.
  assert (Hqa : forallb qa_item (RunRagas.select a ds) = true).
  { apply (forallb_sublist _ _ ds); [apply RunRagas_select_sublist|].
    apply forallb_forall. intros d Hd%list_elem_of_In.
    rewrite Forall_forall in Hbuilt.
    destruct (Hbuilt d Hd) as (i & q & c & t & e & df & g & ->).
    apply build_entry_qa_item. }
  rewrite (RunRagas_main_run cfg a w ds Hds Hw). cbn [fst snd].
  destruct (RunRagas_responsive_run cfg (length (sent w)) _ Hsrv Hqa) as (H1 & H2 & _).
  split; [exact H1|].
  eexists. split; [unfold records_at; cbn [fs]; by rewrite lookup_insert_eq|].
  split; [exact H2|].
  intros k record Hk.
  apply RunRagas_written_lookup in Hk
    as (item & q & i & status & text & Hitem & Hq & Hi & _ & _ & ->).
  assert (Hin : item ∈ ds).
  { eapply sublist_subseteq; [apply RunRagas_select_sublist|].
    by eapply list_elem_of_lookup_2. }
  rewrite Forall_forall in Hbuilt.
  destruct (Hbuilt item Hin) as (i' & q' & c & t & e & df & g & ->).
  exists i', q', c, t, e, df, g. split; [exact Hitem|].
  cbn in Hq, Hi. injection Hq as <-. injection Hi as <-.
  repeat split. cbn. by destruct e as [[|x xs]|].
Qed.

(** * The further properties at concrete inputs *)

(** X1 at work: the RAGAS runner on two items, the second request timing
    out. *)
Lemma X1_witness :
  dataset_at (RunRagas.DATASET_PATH (Scenario.ragas_cfg (Scenario.times_out_at 1)))
    (Scenario.with_dataset Scenario.two_items) = Some Scenario.two_items /\
  results_writable (RunRagas.RESULTS_DIR (Scenario.ragas_cfg (Scenario.times_out_at 1)))
    "ragas-run.jsonl" (fs (Scenario.with_dataset Scenario.two_items)) = true /\
  (RunRagas.main (Scenario.ragas_cfg (Scenario.times_out_at 1)) Cases.ragas_no_flags
     (Scenario.with_dataset Scenario.two_items)).1 = Raise (ClientError "Timeout") /\
  exists rs,
    records_at (RunRagas.out_file (Scenario.ragas_cfg (Scenario.times_out_at 1)))
      (RunRagas.main (Scenario.ragas_cfg (Scenario.times_out_at 1)) Cases.ragas_no_flags
         (Scenario.with_dataset Scenario.two_items)).2 = Some rs /\
    length rs = 1%nat.
Proof.
  split; [by vm_compute|]. split; [by vm_compute|].
  destruct (X1_ragas_transport_failure_ends_run
              (Scenario.ragas_cfg (Scenario.times_out_at 1)) Cases.ragas_no_flags
              (Scenario.with_dataset Scenario.two_items) Scenario.two_items 1%nat
              (Request "http://localhost:3000/api/chat/stream"
                 [("message", VStr "What was AMD's YoY revenue growth in Q2 FY2024?");
                  ("chatHistory", VList [])])
              "Timeout")
    as (Hr & _ & Hrs); [by vm_compute|by vm_compute|by vm_compute|by vm_compute|].
  split; [exact Hr|exact Hrs].
Defined.

(** X2 at work: the RAGAS runner on three items, one without a category. *)
Lemma X2_witness :
  dataset_at (RunRagas.DATASET_PATH (Scenario.ragas_cfg (Scenario.answers 200 "ok")))
    (Scenario.with_dataset (Cases.no_category :: Scenario.two_items))
  = Some (Cases.no_category :: Scenario.two_items) /\
  results_writable (RunRagas.RESULTS_DIR (Scenario.ragas_cfg (Scenario.answers 200 "ok")))
    "ragas-run.jsonl" (fs (Scenario.with_dataset (Cases.no_category :: Scenario.two_items)))
  = true /\
  (RunRagas.main (Scenario.ragas_cfg (Scenario.answers 200 "ok")) Cases.ragas_no_flags
     (Scenario.with_dataset (Cases.no_category :: Scenario.two_items))).1 = Ok tt /\
  exists rs,
    records_at (RunRagas.out_file (Scenario.ragas_cfg (Scenario.answers 200 "ok")))
      (RunRagas.main (Scenario.ragas_cfg (Scenario.answers 200 "ok")) Cases.ragas_no_flags
         (Scenario.with_dataset (Cases.no_category :: Scenario.two_items))).2 = Some rs /\
    length rs = 3%nat.
Proof.
  split; [by vm_compute|]. split; [by vm_compute|].
  destruct (X2_ragas_record_per_selected_item
              (Scenario.ragas_cfg (Scenario.answers 200 "ok")) Cases.ragas_no_flags
              (Scenario.with_dataset (Cases.no_category :: Scenario.two_items))
              (Cases.no_category :: Scenario.two_items))
    as (rs & Hrs & _ & Hanswered); [by vm_compute|by vm_compute|].
  destruct Hanswered as (Hok & Hlen & _); [|by vm_compute|].
  { intros n req. by exists 200, "ok". }
  split; [exact Hok|]. exists rs. split; [exact Hrs|exact Hlen].
Defined.

(** X3 at work: an item without a question, then one without an id, after
    the first two items of the builder's dataset. *)
Lemma X3_witness :
  CompareStrategies.select Cases.no_flags (Cases.dataset_with Cases.no_question)
  = take 2 GenerateDataset.data ++ Cases.no_question :: drop 2 GenerateDataset.data /\
  forallb has_id_and_question (take 2 GenerateDataset.data) = true /\
  (CompareStrategies.main (Scenario.compare_cfg (Scenario.answers 200 "ok")) Cases.no_flags
     (Scenario.with_dataset (Cases.dataset_with Cases.no_question))).1
  = Raise (KeyError "question") /\
  (CompareStrategies.main (Scenario.compare_cfg (Scenario.answers 200 "ok")) Cases.no_flags
     (Scenario.with_dataset (Cases.dataset_with Cases.no_id))).1
  = Raise (KeyError "id") /\
  length (sent (CompareStrategies.main (Scenario.compare_cfg (Scenario.answers 200 "ok"))
                  Cases.no_flags
                  (Scenario.with_dataset (Cases.dataset_with Cases.no_id))).2) = 7%nat.
Proof.
  split; [reflexivity|]. split; [reflexivity|].
  assert (Hsrv : responsive (Scenario.compare_cfg (Scenario.answers 200 "ok"))).
  { intros n req. by exists 200, "ok". }
  destruct (X3_compare_item_without_key_ends_run_at_its_turn
              (Scenario.compare_cfg (Scenario.answers 200 "ok")) Cases.no_flags
              (Scenario.with_dataset (Cases.dataset_with Cases.no_question))
              (Cases.dataset_with Cases.no_question)
              (take 2 GenerateDataset.data) (drop 2 GenerateDataset.data) Cases.no_question)
    as [Hquestion _]; [by vm_compute|by vm_compute|exact Hsrv|reflexivity|reflexivity|].
  destruct (X3_compare_item_without_key_ends_run_at_its_turn
              (Scenario.compare_cfg (Scenario.answers 200 "ok")) Cases.no_flags
              (Scenario.with_dataset (Cases.dataset_with Cases.no_id))
              (Cases.dataset_with Cases.no_id)
              (take 2 GenerateDataset.data) (drop 2 GenerateDataset.data) Cases.no_id)
    as [_ Hid]; [by vm_compute|by vm_compute|exact Hsrv|reflexivity|reflexivity|].
  destruct (Hquestion eq_refl) as (H1 & _).
  destruct Hid as (H2 & H3 & _); [by eexists|reflexivity|].
  split; [exact H1|]. split; [exact H2|exact H3].
Defined.

(** X4 at work: the RAGAS runner on an item without a question, and on one
    whose question is a number. *)
Lemma X4_witness :
  RunRagas.select Cases.ragas_no_flags (Cases.dataset_with Cases.numeric_question)
  = take 2 GenerateDataset.data ++ Cases.numeric_question :: drop 2 GenerateDataset.data /\
  forallb qa_item (take 2 GenerateDataset.data) = true /\
  (RunRagas.main (Scenario.ragas_cfg (Scenario.answers 200 "ok")) Cases.ragas_no_flags
     (Scenario.with_dataset (Cases.dataset_with Cases.no_question))).1
  = Raise (KeyError "question") /\
  (RunRagas.main (Scenario.ragas_cfg (Scenario.answers 200 "ok")) Cases.ragas_no_flags
     (Scenario.with_dataset (Cases.dataset_with Cases.numeric_question))).1
  = Raise TypeError /\
  exists rs record,
    records_at (RunRagas.out_file (Scenario.ragas_cfg (Scenario.answers 200 "ok")))
      (RunRagas.main (Scenario.ragas_cfg (Scenario.answers 200 "ok")) Cases.ragas_no_flags
         (Scenario.with_dataset (Cases.dataset_with Cases.numeric_question))).2
    = Some (rs ++ [record]) /\
    length rs = 2%nat /\
    dict_lookup "id" record = Some (VStr "broken_2").
Proof.
  split; [reflexivity|]. split; [reflexivity|].
  assert (Hsrv : responsive (Scenario.ragas_cfg (Scenario.answers 200 "ok"))).
  { intros n req. by exists 200, "ok". }
  destruct (X4_ragas_malformed_item_ends_run_at_its_turn
              (Scenario.ragas_cfg (Scenario.answers 200 "ok")) Cases.ragas_no_flags
              (Scenario.with_dataset (Cases.dataset_with Cases.no_question))
              (Cases.dataset_with Cases.no_question)
              (take 2 GenerateDataset.data) (drop 2 GenerateDataset.data) Cases.no_question)
    as [Hquestion _]; [by vm_compute|by vm_compute|exact Hsrv|reflexivity|reflexivity|].
  destruct (X4_ragas_malformed_item_ends_run_at_its_turn
              (Scenario.ragas_cfg (Scenario.answers 200 "ok")) Cases.ragas_no_flags
              (Scenario.with_dataset (Cases.dataset_with Cases.numeric_question))
              (Cases.dataset_with Cases.numeric_question)
              (take 2 GenerateDataset.data) (drop 2 GenerateDataset.data)
              Cases.numeric_question)
    as [_ Hnumber]; [by vm_compute|by vm_compute|exact Hsrv|reflexivity|reflexivity|].
  destruct (Hquestion eq_refl) as (H1 & _).
  destruct (Hnumber (VInt 42) eq_refl) as (H2 & _ & H3); [right; by exists 42|by eexists|].
  split; [exact H1|]. split; [exact H2|exact H3].
Defined.

(** X5 at work: two items, two strategies, every request answered. *)
Lemma X5_witness :
  dataset_at (CompareStrategies.DATASET_PATH (Scenario.compare_cfg (Scenario.answers 200 "ok")))
    (Scenario.with_dataset Scenario.two_items) = Some Scenario.two_items /\
  results_writable (CompareStrategies.RESULTS_DIR (Scenario.compare_cfg (Scenario.answers 200 "ok")))
    "strategy-compare.jsonl" (fs (Scenario.with_dataset Scenario.two_items)) = true /\
  exists rs lines,
    records_at (CompareStrategies.out_file (Scenario.compare_cfg (Scenario.answers 200 "ok")))
      (CompareStrategies.main (Scenario.compare_cfg (Scenario.answers 200 "ok"))
         Scenario.two_strategies (Scenario.with_dataset Scenario.two_items)).2 = Some rs /\
    stdout (CompareStrategies.main (Scenario.compare_cfg (Scenario.answers 200 "ok"))
              Scenario.two_strategies (Scenario.with_dataset Scenario.two_items)).2
    = lines ++ [SavedComparison
                  ["repo"; "_cleanup"; "data"; "evaluation"; "results";
                   "strategy-compare.jsonl"]] /\
    length lines = length rs.
Proof.
  split; [by vm_compute|]. split; [by vm_compute|].
  destruct (X5_compare_progress_lines_match_records
              (Scenario.compare_cfg (Scenario.answers 200 "ok"))
              Scenario.two_strategies (Scenario.with_dataset Scenario.two_items)
              Scenario.two_items)
    as (rs & lines & Hrs & Hout & Hall); [by vm_compute|by vm_compute|].
  exists rs, lines. split; [exact Hrs|]. split; [|by eapply Forall2_length].
  rewrite Hout.
  replace (CompareStrategies.main (Scenario.compare_cfg (Scenario.answers 200 "ok"))
             Scenario.two_strategies (Scenario.with_dataset Scenario.two_items)).1
    with (@Ok unit tt) by (by vm_compute).
  reflexivity.
Defined.

(** X6 at work: the path of the results directory is a regular file. *)
Lemma X6_witness :
  dataset_at (CompareStrategies.DATASET_PATH (Scenario.compare_cfg (Scenario.answers 200 "ok")))
    (Cases.results_dir_is_a_file Scenario.two_items) = Some Scenario.two_items /\
  results_writable (CompareStrategies.RESULTS_DIR (Scenario.compare_cfg (Scenario.answers 200 "ok")))
    "strategy-compare.jsonl" (fs (Cases.results_dir_is_a_file Scenario.two_items)) = false /\
  results_writable (RunRagas.RESULTS_DIR (Scenario.compare_cfg (Scenario.answers 200 "ok")))
    "ragas-run.jsonl" (fs (Cases.results_dir_is_a_file Scenario.two_items)) = false /\
  sent (CompareStrategies.main (Scenario.compare_cfg (Scenario.answers 200 "ok"))
          Scenario.two_strategies (Cases.results_dir_is_a_file Scenario.two_items)).2 = [] /\
  sent (RunRagas.main (Scenario.compare_cfg (Scenario.answers 200 "ok"))
          Cases.ragas_no_flags (Cases.results_dir_is_a_file Scenario.two_items)).2 = [].
Proof.
  split; [by vm_compute|]. split; [by vm_compute|]. split; [by vm_compute|].
  destruct (X6_results_path_failure_is_fatal_before_any_request
              (Scenario.compare_cfg (Scenario.answers 200 "ok"))
              Scenario.two_strategies Cases.ragas_no_flags
              (Cases.results_dir_is_a_file Scenario.two_items) Scenario.two_items)
    as [Hcompare Hragas]; [by vm_compute|].
  destruct Hcompare as (e & _ & _ & Hs & _); [by vm_compute|].
  destruct Hragas as (e' & _ & _ & Hs' & _); [by vm_compute|].
  split; [exact Hs|exact Hs'].
Defined.

(** X7 at work: the dataset path is a directory. *)
Lemma X7_witness :
  fs Cases.dataset_is_a_directory
    !! CompareStrategies.DATASET_PATH (Scenario.compare_cfg (Scenario.answers 200 "ok"))
  = Some Dir /\
  CompareStrategies.main (Scenario.compare_cfg (Scenario.answers 200 "ok"))
    Scenario.two_strategies Cases.dataset_is_a_directory
  = (Raise IsADirectoryError, Cases.dataset_is_a_directory) /\
  RunRagas.main (Scenario.compare_cfg (Scenario.answers 200 "ok"))
    Cases.ragas_no_flags Cases.dataset_is_a_directory
  = (Raise IsADirectoryError, Cases.dataset_is_a_directory).
Proof.
  split; [by vm_compute|].
  apply (X7_dataset_path_is_a_directory
           (Scenario.compare_cfg (Scenario.answers 200 "ok"))
           Scenario.two_strategies Cases.ragas_no_flags Cases.dataset_is_a_directory).
  by vm_compute.
Defined.

(** X9 at work: a world with no results file and one with stale results. *)
Lemma X9_witness :
  dataset_at (CompareStrategies.DATASET_PATH (Scenario.compare_cfg (Scenario.answers 200 "ok")))
    (Cases.with_stale_results Scenario.two_items) = Some Scenario.two_items /\
  records_at (CompareStrategies.out_file (Scenario.compare_cfg (Scenario.answers 200 "ok")))
    (Cases.with_stale_results Scenario.two_items) = Some [[("id", VStr "stale")]] /\
  records_at (CompareStrategies.out_file (Scenario.compare_cfg (Scenario.answers 200 "ok")))
    (CompareStrategies.main (Scenario.compare_cfg (Scenario.answers 200 "ok"))
       Scenario.two_strategies (Scenario.with_dataset Scenario.two_items)).2
  = records_at (CompareStrategies.out_file (Scenario.compare_cfg (Scenario.answers 200 "ok")))
      (CompareStrategies.main (Scenario.compare_cfg (Scenario.answers 200 "ok"))
         Scenario.two_strategies (Cases.with_stale_results Scenario.two_items)).2 /\
  records_at (RunRagas.out_file (Scenario.compare_cfg (Scenario.answers 200 "ok")))
    (RunRagas.main (Scenario.compare_cfg (Scenario.answers 200 "ok"))
       Cases.ragas_no_flags (Scenario.with_dataset Scenario.two_items)).2
  = records_at (RunRagas.out_file (Scenario.compare_cfg (Scenario.answers 200 "ok")))
      (RunRagas.main (Scenario.compare_cfg (Scenario.answers 200 "ok"))
         Cases.ragas_no_flags (Cases.with_stale_results Scenario.two_items)).2.
Proof.
  split; [by vm_compute|]. split; [by vm_compute|].
  destruct (X9_results_do_not_depend_on_earlier_results
              (Scenario.compare_cfg (Scenario.answers 200 "ok"))
              Scenario.two_strategies Cases.ragas_no_flags
              (Scenario.with_dataset Scenario.two_items)
              (Cases.with_stale_results Scenario.two_items) Scenario.two_items)
    as [Hcompare Hragas]; [by vm_compute|by vm_compute|reflexivity|].
  destruct Hcompare as [_ H1]; [by vm_compute|by vm_compute|].
  destruct Hragas as [_ H2]; [by vm_compute|by vm_compute|].
  split; [exact H1|exact H2].
Defined.

(** X10 at work: [API_BASE] set to a staging host. *)
Lemma X10_witness :
  dataset_at (CompareStrategies.DATASET_PATH (Cases.staging_cfg (Scenario.answers 200 "ok")))
    (Scenario.with_dataset Scenario.two_items) = Some Scenario.two_items /\
  results_writable (CompareStrategies.RESULTS_DIR (Cases.staging_cfg (Scenario.answers 200 "ok")))
    "strategy-compare.jsonl" (fs (Scenario.with_dataset Scenario.two_items)) = true /\
  results_writable (RunRagas.RESULTS_DIR (Cases.staging_cfg (Scenario.answers 200 "ok")))
    "ragas-run.jsonl" (fs (Scenario.with_dataset Scenario.two_items)) = true /\
  exists new,
    sent (CompareStrategies.main (Cases.staging_cfg (Scenario.answers 200 "ok"))
            Scenario.two_strategies (Scenario.with_dataset Scenario.two_items)).2 = new /\
    Forall (fun req => url req = "https://staging.example/api/chat/stream") new.
Proof.
  split; [by vm_compute|]. split; [by vm_compute|]. split; [by vm_compute|].
  destruct (X10_requests_sent_by_the_runners
              (Cases.staging_cfg (Scenario.answers 200 "ok"))
              Scenario.two_strategies Cases.ragas_no_flags
              (Scenario.with_dataset Scenario.two_items) Scenario.two_items)
    as [(new & Hsent & Hall) _]; [by vm_compute|by vm_compute|by vm_compute|].
  exists new. split; [exact Hsent|].
  eapply Forall_impl; [exact Hall|]. intros req [Hurl _]. exact Hurl.
Defined.

(** X12 at work: the filter {trend, hybrid} on the builder's dataset
    followed by an item without a category. *)
Lemma X12_witness :
  dataset_at (RunRagas.DATASET_PATH (Scenario.ragas_cfg (Scenario.answers 200 "ok")))
    (Scenario.with_dataset (GenerateDataset.data ++ [Cases.no_category]))
  = Some (GenerateDataset.data ++ [Cases.no_category]) /\
  results_writable (RunRagas.RESULTS_DIR (Scenario.ragas_cfg (Scenario.answers 200 "ok")))
    "ragas-run.jsonl"
    (fs (Scenario.with_dataset (GenerateDataset.data ++ [Cases.no_category]))) = true /\
  RunRagas.categories Cases.trend_or_hybrid = Some ["trend"; "hybrid"] /\
  map (dict_lookup "id")
    (RunRagas.select Cases.trend_or_hybrid (GenerateDataset.data ++ [Cases.no_category]))
  = [Some (VStr "trend_1"); Some (VStr "trend_2"); Some (VStr "hybrid_1")] /\
  Forall (fun item => exists s, dict_lookup "category" item = Some (VStr s) /\
                                s ∈ ["trend"; "hybrid"])
         (RunRagas.select Cases.trend_or_hybrid (GenerateDataset.data ++ [Cases.no_category])).
Proof.
  split; [by vm_compute|]. split; [by vm_compute|]. split; [reflexivity|].
  split; [reflexivity|].
  destruct (X12_ragas_category_filter
              (Scenario.ragas_cfg (Scenario.answers 200 "ok")) Cases.trend_or_hybrid
              (Scenario.with_dataset (GenerateDataset.data ++ [Cases.no_category]))
              (GenerateDataset.data ++ [Cases.no_category]))
    as (_ & Hfilter & _); [by vm_compute|by vm_compute|].
  destruct (Hfilter "trend" ["hybrid"] eq_refl) as [Hsel _]. exact Hsel.
Defined.

(** X13 at work: an empty dataset. *)
Lemma X13_witness :
  dataset_at (CompareStrategies.DATASET_PATH (Scenario.compare_cfg Scenario.refuses))
    (Scenario.with_dataset []) = Some [] /\
  results_writable (CompareStrategies.RESULTS_DIR (Scenario.compare_cfg Scenario.refuses))
    "strategy-compare.jsonl" (fs (Scenario.with_dataset [])) = true /\
  CompareStrategies.select Cases.no_flags [] = [] /\
  (CompareStrategies.main (Scenario.compare_cfg Scenario.refuses) Cases.no_flags
     (Scenario.with_dataset [])).1 = Ok tt /\
  sent (CompareStrategies.main (Scenario.compare_cfg Scenario.refuses) Cases.no_flags
          (Scenario.with_dataset [])).2 = [] /\
  records_at (CompareStrategies.out_file (Scenario.compare_cfg Scenario.refuses))
    (CompareStrategies.main (Scenario.compare_cfg Scenario.refuses) Cases.no_flags
       (Scenario.with_dataset [])).2 = Some [].
Proof.
  split; [by vm_compute|]. split; [by vm_compute|]. split; [reflexivity|].
  destruct (X13_empty_selection_leaves_an_empty_results_file
              (Scenario.compare_cfg Scenario.refuses) Cases.no_flags Cases.ragas_no_flags
              (Scenario.with_dataset []) [])
    as [Hcompare _]; [by vm_compute|].
  rewrite Hcompare; [|by vm_compute|reflexivity].
  cbn [fst snd sent]. split; [reflexivity|]. split; [reflexivity|].
  unfold records_at. cbn [fs]. by rewrite lookup_insert_eq.
Defined.

(** X14 at work: two items and no strategy list. *)
Lemma X14_witness :
  dataset_at (CompareStrategies.DATASET_PATH (Scenario.compare_cfg (Scenario.answers 200 "ok")))
    (Scenario.with_dataset Scenario.two_items) = Some Scenario.two_items /\
  results_writable (CompareStrategies.RESULTS_DIR (Scenario.compare_cfg (Scenario.answers 200 "ok")))
    "strategy-compare.jsonl" (fs (Scenario.with_dataset Scenario.two_items)) = true /\
  (CompareStrategies.main (Scenario.compare_cfg (Scenario.answers 200 "ok")) Cases.no_flags
     (Scenario.with_dataset Scenario.two_items)).1 = Ok tt /\
  exists rs,
    records_at (CompareStrategies.out_file (Scenario.compare_cfg (Scenario.answers 200 "ok")))
      (CompareStrategies.main (Scenario.compare_cfg (Scenario.answers 200 "ok")) Cases.no_flags
         (Scenario.with_dataset Scenario.two_items)).2 = Some rs /\
    length rs = 6%nat.
Proof.
  split; [by vm_compute|]. split; [by vm_compute|]. split; [by vm_compute|].
  destruct (X14_default_strategies
              (Scenario.compare_cfg (Scenario.answers 200 "ok")) Cases.no_flags
              (Scenario.with_dataset Scenario.two_items) Scenario.two_items)
    as (rs & Hrs & _ & Hlen); [by vm_compute|by vm_compute|by left|by vm_compute|].
  exists rs. split; [exact Hrs|exact Hlen].
Defined.

(** X16 at work: the builder placed beside the runners, run in a world with
    no file, then the strategy-comparison runner with no flag: 11 x 3
    records. *)
Lemma X16_witness :
  parent (parent (parent Cases.builder_beside_runners))
  = parent (parent (parent (file__ (Scenario.compare_cfg (Scenario.answers 200 "ok"))))) /\
  (GenerateDataset.main Cases.builder_beside_runners Scenario.empty_world).1 = Ok tt /\
  results_writable (CompareStrategies.RESULTS_DIR (Scenario.compare_cfg (Scenario.answers 200 "ok")))
    "strategy-compare.jsonl"
    (fs (GenerateDataset.main Cases.builder_beside_runners Scenario.empty_world).2) = true /\
  (CompareStrategies.main (Scenario.compare_cfg (Scenario.answers 200 "ok")) Cases.no_flags
     (GenerateDataset.main Cases.builder_beside_runners Scenario.empty_world).2).1 = Ok tt /\
  exists rs,
    records_at (CompareStrategies.out_file (Scenario.compare_cfg (Scenario.answers 200 "ok")))
      (CompareStrategies.main (Scenario.compare_cfg (Scenario.answers 200 "ok")) Cases.no_flags
         (GenerateDataset.main Cases.builder_beside_runners Scenario.empty_world).2).2
    = Some rs /\
    length rs = 33%nat.
Proof.
  split; [reflexivity|]. split; [by vm_compute|]. split; [by vm_compute|].
  destruct (X16_runners_accept_the_builders_artifact
              Cases.builder_beside_runners
              (Scenario.compare_cfg (Scenario.answers 200 "ok"))
              Cases.no_flags Cases.ragas_no_flags Scenario.empty_world)
    as [Hcompare _]; [reflexivity|by vm_compute| |].
  { intros n req. by exists 200, "ok". }
  destruct Hcompare as (Hok & rs & Hrs & Hlen); [by vm_compute|].
  split; [exact Hok|]. exists rs. split; [exact Hrs|]. rewrite Hlen. reflexivity.
Defined.

(** X17 at work: the scripts placed as in the repository, in a world with
    no file. *)
Lemma X17_witness :
  Scenario.builder_script = ["repo"] ++ ["scripts"; "evaluation"; "generate-dataset.py"] /\
  file__ (Scenario.compare_cfg (Scenario.answers 200 "ok"))
  = ["repo"] ++ ["_cleanup"; "scripts"; "evaluation"; "compare-strategies.py"] /\
  fs Scenario.empty_world
    !! CompareStrategies.DATASET_PATH (Scenario.compare_cfg (Scenario.answers 200 "ok")) = None /\
  (GenerateDataset.main Scenario.builder_script Scenario.empty_world).1 = Ok tt /\
  (CompareStrategies.main (Scenario.compare_cfg (Scenario.answers 200 "ok")) Cases.no_flags
     (GenerateDataset.main Scenario.builder_script Scenario.empty_world).2).1
  = Raise (FileNotFoundError
             "Dataset not found: /repo/_cleanup/data/evaluation/golden-qa.json").
Proof.
  split; [reflexivity|]. split; [reflexivity|]. split; [reflexivity|].
  split; [by vm_compute|].
  destruct (X17_builder_and_runners_use_different_dataset_paths
              ["repo"] "generate-dataset.py" "compare-strategies.py"
              Scenario.builder_script (Scenario.compare_cfg (Scenario.answers 200 "ok"))
              Cases.no_flags Cases.ragas_no_flags Scenario.empty_world)
    as (_ & _ & _ & Hcompare & _); [reflexivity|reflexivity|reflexivity|].
  exact Hcompare.
Defined.

(** X18 at work: the builder's dataset, whose items are made by
    [build_entry], through the RAGAS runner. *)
Lemma X18_witness :
  dataset_at (RunRagas.DATASET_PATH (Scenario.ragas_cfg (Scenario.answers 200 "ok")))
    (Scenario.with_dataset GenerateDataset.data) = Some GenerateDataset.data /\
  results_writable (RunRagas.RESULTS_DIR (Scenario.ragas_cfg (Scenario.answers 200 "ok")))
    "ragas-run.jsonl" (fs (Scenario.with_dataset GenerateDataset.data)) = true /\
  (RunRagas.main (Scenario.ragas_cfg (Scenario.answers 200 "ok")) Cases.ragas_no_flags
     (Scenario.with_dataset GenerateDataset.data)).1 = Ok tt /\
  exists rs,
    records_at (RunRagas.out_file (Scenario.ragas_cfg (Scenario.answers 200 "ok")))
      (RunRagas.main (Scenario.ragas_cfg (Scenario.answers 200 "ok")) Cases.ragas_no_flags
         (Scenario.with_dataset GenerateDataset.data)).2 = Some rs /\
    length rs = 11%nat.
Proof.
  split; [by vm_compute|]. split; [by vm_compute|].
  destruct (X18_labels_of_build_entry_reach_the_records
              (Scenario.ragas_cfg (Scenario.answers 200 "ok")) Cases.ragas_no_flags
              (Scenario.with_dataset GenerateDataset.data) GenerateDataset.data)
    as (Hok & rs & Hrs & Hlen & _).
  - unfold GenerateDataset.data. cbn [app].
    repeat (constructor; [by eexists _, _, _, _, _, _, _|]). constructor.
  - by vm_compute.
  - by vm_compute.
  - intros n req. by exists 200, "ok".
  - split; [exact Hok|]. exists rs. split; [exact Hrs|exact Hlen].
Defined.
